(** * Treasure-hunt backend: the discovery pipeline of [src/routes/treasures.js]

    A shallow embedding of the two [POST /discover] handlers, the
    [GET /nearby] handler, their helper functions, the Mongoose models they
    use and the balance guard of [SuiService.discoverTreasure]; and, around
    the pipeline, of [GET /verify/:treasureId], the registry and location
    verifiers of [SuiService], the middleware of [auth.js] and
    [errorHandler.js], and the helpers of the profile routes that tell the
    standing of a hunter.

    Conventions of the embedding.
    - A JavaScript number that holds a coordinate or a distance is a
      [number]: a real, or [NaN].  Arithmetic is exact (no rounding, no
      overflow); [undefined] and the infinities behave like [NaN] in every
      expression of this code and are identified with it.
    - Counters, scores and ranks are non-negative integers ([N]): the schemas
      declare them with [min: 0].  Timestamps are milliseconds ([Z]).
    - [null], [undefined] and the empty string are all falsy; a string field
      that may be absent holds [""] when it is.
    - Collections are lists of documents in insertion order; a [save] checks
      the schema validators and then the unique indexes of the collection.
    - Everything outside the repository that a handler awaits is an input
      of its model: the clock, [uuidv4] and the chain are read from an
      [Env], the answer of the 2dsphere index is an argument of [nearby].
    - A handler runs on one store from its first statement to its last; a
      request that commits on a store other requests have changed since its
      checks is a step of its own in [step]. *)

From Stdlib Require Import Reals Lra Lia ZArith NArith QArith List String Ascii Bool.
From Stdlib Require Import DecimalString Sorting.Sorted Sorting.Permutation.
Import ListNotations.

Open Scope string_scope.
Open Scope list_scope.
Open Scope Z_scope.

(** ** JavaScript numbers *)

Inductive number : Type :=
| NaN : number
| Num : R -> number.

Declare Scope num_scope.
Delimit Scope num_scope with num.
Bind Scope num_scope with number.

Definition lift1 (f : R -> R) (x : number) : number :=
  match x with
  | Num a => Num (f a)
  | NaN => NaN
  end.

Definition lift2 (f : R -> R -> R) (x y : number) : number :=
  match x, y with
  | Num a, Num b => Num (f a b)
  | _, _ => NaN
  end.

Notation "x + y" := (lift2 Rplus x y) : num_scope.
Notation "x - y" := (lift2 Rminus x y) : num_scope.
Notation "x * y" := (lift2 Rmult x y) : num_scope.
Notation "x / y" := (lift2 Rdiv x y) : num_scope.

(** [x > y] on numbers: false as soon as one side is [NaN]. *)
Definition gt (x y : number) : bool :=
  match x, y with
  | Num a, Num b => if Rlt_dec b a then true else false
  | _, _ => false
  end.

Definition ge (x y : number) : bool :=
  match x, y with
  | Num a, Num b => if Rle_dec b a then true else false
  | _, _ => false
  end.

Definition Math_PI : number := Num PI.
Definition Math_sin : number -> number := lift1 sin.
Definition Math_cos : number -> number := lift1 cos.

Definition Math_sqrt (x : number) : number :=
  match x with
  | Num a => if Rlt_dec a 0 then NaN else Num (sqrt a)
  | NaN => NaN
  end.

(** The angle of the point [(x, y)], in (-PI, PI]. *)
Definition atan2 (y x : R) : R :=
  if Rlt_dec 0 x then atan (y / x)
  else if Rlt_dec x 0 then
    (if Rle_dec 0 y then atan (y / x) + PI else atan (y / x) - PI)
  else if Rlt_dec 0 y then PI / 2
  else if Rlt_dec y 0 then - (PI / 2)
  else 0.

Definition Math_atan2 : number -> number -> number := lift2 atan2.

(** [Math.round]: the nearest integer, halves going up. *)
Definition Math_round (x : number) : number :=
  lift1 (fun a => IZR (Int_part (a + / 2))) x.

(** ** The distance verifier *)

Definition calculateDistance (lat1 lng1 lat2 lng2 : number) : number :=
  let R := Num 6371e3 in
  let phi1 := (lat1 * Math_PI / Num 180)%num in
  let phi2 := (lat2 * Math_PI / Num 180)%num in
  let dphi := ((lat2 - lat1) * Math_PI / Num 180)%num in
  let dlam := ((lng2 - lng1) * Math_PI / Num 180)%num in
  let a := (Math_sin (dphi / Num 2) * Math_sin (dphi / Num 2) +
            Math_cos phi1 * Math_cos phi2 *
            Math_sin (dlam / Num 2) * Math_sin (dlam / Num 2))%num in
  let c := (Num 2 * Math_atan2 (Math_sqrt a) (Math_sqrt (Num 1 - a)))%num in
  (R * c)%num.

(** ** JavaScript strings *)

(** [s.includes(sub)] *)
Fixpoint includes (s sub : string) : bool :=
  String.prefix sub s ||
  match s with
  | EmptyString => false
  | String _ s' => includes s' sub
  end.

(** [a || b] on strings: the empty string is falsy. *)
Definition or_else (a b : string) : string :=
  if String.eqb a "" then b else a.

Definition truthy (a : string) : bool := negb (String.eqb a "").

(** [s.split(sep)] for a one-character separator. *)
Fixpoint split (sep : ascii) (s : string) : list string :=
  match s with
  | EmptyString => [""]
  | String c s' =>
      if Ascii.eqb c sep then "" :: split sep s'
      else match split sep s' with
           | [] => [String c ""]
           | w :: ws => String c w :: ws
           end
  end.

Definition isWhite (c : ascii) : bool :=
  let n := nat_of_ascii c in
  ((9 <=? n) && (n <=? 13) || (n =? 32))%nat.

Fixpoint trimStart (s : string) : string :=
  match s with
  | String c s' => if isWhite c then trimStart s' else s
  | EmptyString => s
  end.

Fixpoint allWhite (s : string) : bool :=
  match s with
  | String c s' => isWhite c && allWhite s'
  | EmptyString => true
  end.

Fixpoint trimEnd (s : string) : string :=
  match s with
  | String c s' => if allWhite s then "" else String c (trimEnd s')
  | EmptyString => s
  end.

Definition trim (s : string) : string := trimEnd (trimStart s).

Definition isDigit (c : ascii) : bool :=
  let n := nat_of_ascii c in ((48 <=? n) && (n <=? 57))%nat.

Definition digitVal (c : ascii) : Z := Z.of_nat (nat_of_ascii c) - 48.

(** Reads a run of decimal digits: the value accumulated on [acc], the
    number of digits read and the rest of the string. *)
Fixpoint takeDigits (s : string) (acc : Z) (n : nat) : Z * nat * string :=
  match s with
  | String c s' =>
      if isDigit c then takeDigits s' (10 * acc + digitVal c) (S n) else (acc, n, s)
  | EmptyString => (acc, n, s)
  end.

Definition takeSign (s : string) : bool * string :=
  match s with
  | String "-" s' => (true, s')
  | String "+" s' => (false, s')
  | _ => (false, s)
  end.

(** [m * 10^e] *)
Definition scale10 (m e : Z) : R :=
  if (0 <=? e)%Z then IZR (m * 10 ^ e)
  else (IZR m / IZR (10 ^ (- e)))%R.

(** The decimal literal that [parseFloat] reads: the longest prefix of [s],
    after leading white space, of the form sign, digits, fraction,
    exponent; as (negative?, mantissa, power of ten). *)
Definition parseDecimal (s : string) : option (bool * Z * Z) :=
  let '(neg, s0) := takeSign (trimStart s) in
  let '(ip, ni, s1) := takeDigits s0 0 0 in
  let '(m, nf, s2) :=
    match s1 with
    | String "." s' => takeDigits s' ip 0
    | _ => (ip, 0%nat, s1)
    end in
  if (ni + nf =? 0)%nat then None
  else
    let e :=
      match s2 with
      | String c s' =>
          if Ascii.eqb c "e" || Ascii.eqb c "E" then
            let '(eneg, s3) := takeSign s' in
            let '(ev, ne, _) := takeDigits s3 0 0 in
            if (ne =? 0)%nat then 0 else if eneg then - ev else ev
          else 0
      | EmptyString => 0
      end in
    Some (neg, m, e - Z.of_nat nf).

(** [parseFloat(s)]; [NaN] when [s] starts with no decimal literal. *)
Definition parseFloat (s : string) : number :=
  match parseDecimal s with
  | None => NaN
  | Some (neg, m, e) => Num ((if neg then -1 else 1) * scale10 m e)%R
  end.

(** [`${n}`] for an integer. *)
Definition string_of_Z (z : Z) : string := NilZero.string_of_int (Z.to_int z).

Definition isHexDigit (c : ascii) : bool :=
  let n := nat_of_ascii c in
  ((48 <=? n) && (n <=? 57) || (65 <=? n) && (n <=? 70) || (97 <=? n) && (n <=? 102))%nat.

Fixpoint forallb_string (p : ascii -> bool) (s : string) : bool :=
  match s with
  | String c s' => p c && forallb_string p s'
  | EmptyString => true
  end.

(** [/^[a-fA-F0-9]{64}$/] *)
Definition hexRegex (v : string) : bool :=
  (String.length v =? 64)%nat && forallb_string isHexDigit v.

(** [/^0x[a-fA-F0-9]{64}$/] *)
Definition hex0xRegex (v : string) : bool :=
  match v with
  | String "0" (String "x" v') => hexRegex v'
  | _ => false
  end.

(** [/^offline_/] *)
Definition offlineRegex (v : string) : bool := String.prefix "offline_" v.

Definition isBase58 (c : ascii) : bool :=
  let n := nat_of_ascii c in
  ((49 <=? n) && (n <=? 57)                       (* 1-9 *)
   || (65 <=? n) && (n <=? 72)                    (* A-H *)
   || (74 <=? n) && (n <=? 78)                    (* J-N *)
   || (80 <=? n) && (n <=? 90)                    (* P-Z *)
   || (97 <=? n) && (n <=? 107)                   (* a-k *)
   || (109 <=? n) && (n <=? 122))%nat.            (* m-z *)

(** [/^[1-9A-HJ-NP-Za-km-z]{43,44}$/] *)
Definition base58Regex (v : string) : bool :=
  ((43 <=? String.length v) && (String.length v <=? 44))%nat && forallb_string isBase58 v.

Definition isWordChar (c : ascii) : bool :=
  let n := nat_of_ascii c in
  ((48 <=? n) && (n <=? 57) || (65 <=? n) && (n <=? 90)
   || (97 <=? n) && (n <=? 122) || (n =? 95))%nat.

Definition toLower (c : ascii) : ascii :=
  let n := nat_of_ascii c in
  if ((65 <=? n) && (n <=? 90))%nat then ascii_of_nat (n + 32) else c.

Definition toUpper (c : ascii) : ascii :=
  let n := nat_of_ascii c in
  if ((97 <=? n) && (n <=? 122))%nat then ascii_of_nat (n - 32) else c.

Fixpoint map_string (f : ascii -> ascii) (s : string) : string :=
  match s with
  | String c s' => String (f c) (map_string f s')
  | EmptyString => EmptyString
  end.

(** [s.replace(/\b\w/g, l => l.toUpperCase())]; [prev] tells whether the
    character before [s] is a word character. *)
Fixpoint capitalizeWords (prev : bool) (s : string) : string :=
  match s with
  | String c s' =>
      String (if isWordChar c && negb prev then toUpper c else c)
             (capitalizeWords (isWordChar c) s')
  | EmptyString => EmptyString
  end.

Fixpoint dropString (n : nat) (s : string) : string :=
  match n, s with
  | S n', String _ s' => dropString n' s'
  | _, _ => s
  end.

(** [s.replace(p, r)] for a string pattern: the first occurrence only. *)
Fixpoint replaceFirst (p r s : string) : string :=
  if String.prefix p s then r ++ dropString (String.length p) s
  else match s with
       | String c s' => String c (replaceFirst p r s')
       | EmptyString => EmptyString
       end.

(** ** Ranks and rarities *)

Definition getRankNumber (rank : string) : N :=
  if String.eqb rank "beginner" then 1
  else if String.eqb rank "explorer" then 2
  else if String.eqb rank "hunter" then 3
  else if String.eqb rank "master" then 4
  else 1.

Definition getRankName (rankNumber : N) : string :=
  match rankNumber with
  | 1 => "Beginner"
  | 2 => "Explorer"
  | 3 => "Hunter"
  | 4 => "Master"
  | _ => "Beginner"
  end%N.

Definition getRarityName (rarity : N) : string :=
  match rarity with
  | 1 => "Common"
  | 2 => "Rare"
  | 3 => "Legendary"
  | _ => "Common"
  end%N.

Definition getTreasuresNeededForRank (rank : N) : N :=
  match rank with
  | 1 => 0
  | 2 => 5
  | 3 => 20
  | 4 => 50
  | _ => 0
  end%N.

(** ** Documents *)

Module Treasure.
(** A treasure as the routes read it: a document of the [treasures]
    collection or the plain object built by [parseBlockchainTreasure].
    [description], [imageUrl] and [metadata] are display-only and carry no
    validator: they are left out.  The schema declares
    [location.coordinates] and no [latitude] or [longitude] path, so
    whatever the routes read under these two names is a field of its own
    here. *)
Record t := mk {
  treasureId : string;
  name : string;
  latitude : number;
  longitude : number;
  coordinates : number * number;      (* [longitude, latitude] *)
  rarity : N;
  rewardPoints : N;
  requiredRank : N;
  isActive : bool;
  fromBlockchain : bool
}.
End Treasure.

Module TreasureDiscovery.
Record t := mk {
  _id : string;
  userId : string;
  treasureId : string;
  nftObjectId : string;
  transactionDigest : string;
  (* locationProof *)
  latitude : number;
  longitude : number;
  nfcData : string;
  qrData : string;
  timestamp : Z;
  distance : number;
  (* verificationData *)
  blockHeight : option Z;
  blockchainSuccess : option bool;        (* written by the second variant only *)
  offline : bool;
  autoGeneratedTreasure : option bool;    (* written by the second variant only *)
  discoveredAt : Z
}.
End TreasureDiscovery.

Module HunterProfile.
Record t := mk {
  userId : string;
  rank : string;
  totalTreasuresFound : N;
  totalScore : N;
  currentStreak : N;
  longestStreak : N;
  lastHuntTimestamp : option Z
}.

Definition set_rank (v : string) (p : t) : t :=
  mk (userId p) v (totalTreasuresFound p) (totalScore p) (currentStreak p)
     (longestStreak p) (lastHuntTimestamp p).
Definition set_totalTreasuresFound (v : N) (p : t) : t :=
  mk (userId p) (rank p) v (totalScore p) (currentStreak p)
     (longestStreak p) (lastHuntTimestamp p).
Definition set_totalScore (v : N) (p : t) : t :=
  mk (userId p) (rank p) (totalTreasuresFound p) v (currentStreak p)
     (longestStreak p) (lastHuntTimestamp p).
Definition set_currentStreak (v : N) (p : t) : t :=
  mk (userId p) (rank p) (totalTreasuresFound p) (totalScore p) v
     (longestStreak p) (lastHuntTimestamp p).
Definition set_longestStreak (v : N) (p : t) : t :=
  mk (userId p) (rank p) (totalTreasuresFound p) (totalScore p) (currentStreak p)
     v (lastHuntTimestamp p).
Definition set_lastHuntTimestamp (v : option Z) (p : t) : t :=
  mk (userId p) (rank p) (totalTreasuresFound p) (totalScore p) (currentStreak p)
     (longestStreak p) v.
End HunterProfile.

Module User.
Record t := mk {
  _id : string;
  profileObjectId : string;
  encryptedPrivateKey : string
}.
End User.

Record Store := mkStore {
  treasures : list Treasure.t;
  discoveries : list TreasureDiscovery.t;
  hunterProfiles : list HunterProfile.t;
  users : list User.t
}.

Definition set_treasures (v : list Treasure.t) (st : Store) : Store :=
  mkStore v (discoveries st) (hunterProfiles st) (users st).
Definition set_discoveries (v : list TreasureDiscovery.t) (st : Store) : Store :=
  mkStore (treasures st) v (hunterProfiles st) (users st).
Definition set_hunterProfiles (v : list HunterProfile.t) (st : Store) : Store :=
  mkStore (treasures st) (discoveries st) v (users st).

(** ** Exceptions *)

Inductive Exn : Type :=
| TypeError (message : string)
| ValidationError (message : string)
| MongoServerError (message : string).

Definition message (e : Exn) : string :=
  match e with
  | TypeError m | ValidationError m | MongoServerError m => m
  end.

(** The E11000 error of a unique index; its text names the index and the
    duplicated key (the name of the database, which it also carries, is left
    out). *)
Definition duplicateKey (index key : string) : Exn :=
  MongoServerError
    ("E11000 duplicate key error index: " ++ index ++ " dup key: " ++ key).

Fixpoint join (sep : string) (l : list string) : string :=
  match l with
  | [] => ""
  | [x] => x
  | x :: l' => x ++ sep ++ join sep l'
  end.

(** ** Queries *)

(** [Treasure.findOne({ treasureId, isActive: true })] *)
Definition Treasure_findOne_active (st : Store) (treasureId : string) : option Treasure.t :=
  find (fun t => String.eqb (Treasure.treasureId t) treasureId && Treasure.isActive t)
       (treasures st).

(** [TreasureDiscovery.findOne({ treasureId })] *)
Definition TreasureDiscovery_findOne (st : Store) (treasureId : string)
  : option TreasureDiscovery.t :=
  find (fun d => String.eqb (TreasureDiscovery.treasureId d) treasureId) (discoveries st).

(** [TreasureDiscovery.distinct('treasureId')] *)
Definition TreasureDiscovery_distinct_treasureId (st : Store) : list string :=
  nodup string_dec (map TreasureDiscovery.treasureId (discoveries st)).

(** [HunterProfile.findOne({ userId })] *)
Definition HunterProfile_findOne (st : Store) (userId : string) : option HunterProfile.t :=
  find (fun p => String.eqb (HunterProfile.userId p) userId) (hunterProfiles st).

(** [User.findById(userId)] *)
Definition User_findById (st : Store) (userId : string) : option User.t :=
  find (fun u => String.eqb (User._id u) userId) (users st).

(** ** [treasureDiscovery.save()] *)

Definition nftObjectId_validator (v : string) : bool :=
  hex0xRegex v || offlineRegex v.

Definition transactionDigest_validator (v : string) : bool :=
  base58Regex v || hexRegex v || hex0xRegex v || offlineRegex v.

Definition TreasureDiscovery_validate (d : TreasureDiscovery.t) : list string :=
  (if truthy (TreasureDiscovery.userId d) then [] else ["userId: Path `userId` is required."])
  ++ (if truthy (TreasureDiscovery.treasureId d) then []
      else ["treasureId: Path `treasureId` is required."])
  ++ (if truthy (TreasureDiscovery.nftObjectId d) then
        if nftObjectId_validator (TreasureDiscovery.nftObjectId d) then []
        else ["nftObjectId: NFT Object ID must be a valid Sui object ID (0x...) or offline format"]
      else ["nftObjectId: Path `nftObjectId` is required."])
  ++ (if truthy (TreasureDiscovery.transactionDigest d) then
        if transactionDigest_validator (TreasureDiscovery.transactionDigest d) then []
        else ["transactionDigest: Transaction digest must be a valid Base58 or hexadecimal format"]
      else ["transactionDigest: Path `transactionDigest` is required."]).

(** The unique indexes of [treasurediscoveries]: the primary key and
    [treasureId], [nftObjectId], [transactionDigest]. *)
Definition TreasureDiscovery_duplicate (d : TreasureDiscovery.t)
           (coll : list TreasureDiscovery.t) : option (string * string) :=
  let dup (f : TreasureDiscovery.t -> string) :=
    existsb (fun x => String.eqb (f x) (f d)) coll in
  if dup TreasureDiscovery._id then Some ("_id_", TreasureDiscovery._id d)
  else if dup TreasureDiscovery.treasureId then
    Some ("treasureId_1", TreasureDiscovery.treasureId d)
  else if dup TreasureDiscovery.nftObjectId then
    Some ("nftObjectId_1", TreasureDiscovery.nftObjectId d)
  else if dup TreasureDiscovery.transactionDigest then
    Some ("transactionDigest_1", TreasureDiscovery.transactionDigest d)
  else None.

Definition TreasureDiscovery_save (d : TreasureDiscovery.t)
           (coll : list TreasureDiscovery.t) : Exn + list TreasureDiscovery.t :=
  match TreasureDiscovery_validate d with
  | [] =>
      match TreasureDiscovery_duplicate d coll with
      | Some (index, key) => inl (duplicateKey index key)
      | None => inr (coll ++ [d])
      end
  | errors =>
      inl (ValidationError ("TreasureDiscovery validation failed: " ++ join ", " errors))
  end.

(** [TreasureDiscovery.deleteMany({})], run by the seeding script. *)
Definition TreasureDiscovery_deleteMany (st : Store) : Store := set_discoveries [] st.

(** ** [hunterProfile.save()]: the document replaces the stored one.

    A handler saves the profile it read from the store it runs on.  Where
    the collection no longer holds the profile, Mongoose rejects the save;
    the [map] below then leaves the collection as it is and reports
    nothing. *)
Definition HunterProfile_save (p : HunterProfile.t) (coll : list HunterProfile.t)
  : list HunterProfile.t :=
  map (fun q => if String.eqb (HunterProfile.userId q) (HunterProfile.userId p) then p else q)
      coll.

(** ** [newTreasure.save()]

    [treasureId] and [name] are declared with [trim: true]; [name] is
    required and at most 100 characters long; the coordinates must be two
    numbers in range, the rarity 1, 2 or 3 and the required rank between 1
    and 4; [treasureId] has a unique index.  The stored document has the
    paths of the schema only. *)

Definition coordinates_validator (coords : number * number) : bool :=
  ge (fst coords) (Num (-180)) && ge (Num 180) (fst coords) &&
  ge (snd coords) (Num (-90)) && ge (Num 90) (snd coords).

Definition Treasure_save (t : Treasure.t) (coll : list Treasure.t) : Exn + list Treasure.t :=
  let treasureId := trim (Treasure.treasureId t) in
  let name := trim (Treasure.name t) in
  if negb (truthy treasureId && truthy name && (String.length name <=? 100)%nat
           && coordinates_validator (Treasure.coordinates t)
           && ((1 <=? Treasure.rarity t) && (Treasure.rarity t <=? 3))%N
           && ((1 <=? Treasure.requiredRank t) && (Treasure.requiredRank t <=? 4))%N) then
    inl (ValidationError "Treasure validation failed")
  else if existsb (fun x => String.eqb (Treasure.treasureId x) treasureId) coll then
    inl (duplicateKey "treasureId_1" treasureId)
  else
    inr (coll ++ [Treasure.mk treasureId name NaN NaN (Treasure.coordinates t)
                    (Treasure.rarity t) (Treasure.rewardPoints t)
                    (Treasure.requiredRank t) (Treasure.isActive t) false]).

(** ** Synthesis of a treasure from its identifier *)

Definition generateTreasureName (treasureId : string) : string :=
  let name :=
    capitalizeWords false
      (map_string toLower
         (map_string (fun c => if Ascii.eqb c "_" then " "%char else c) treasureId)) in
  let name :=
    if includes treasureId "VN_" then replaceFirst "Vn " "Vietnamese " name else name in
  if includes treasureId "DRAGON" then name ++ " Dragon Artifact"
  else if includes treasureId "MIRROR" then name ++ " Ancient Mirror"
  else if includes treasureId "COMMON" then replaceFirst "Common" "Common" name
  else name ++ " Treasure".

Module Known.
Record t := mk {
  name : string;
  rarity : N;
  requiredRank : N;
  rewardPoints : N
}.
End Known.

Definition knownTreasures (treasureId : string) : option Known.t :=
  if String.eqb treasureId "TREASURE_001" then
    Some (Known.mk "Golden Dragon Statue" 3 2 500)
  else if String.eqb treasureId "VN_COMMON_001" then
    Some (Known.mk "Ancient Bronze Mirror" 1 1 150)
  else None.

(** [known?.field || fallback] on a numeric field: zero is falsy. *)
Definition known_or {A : Type} (k : option A) (f : A -> N) (fallback : N) : N :=
  match k with
  | Some x => if N.eqb (f x) 0 then fallback else f x
  | None => fallback
  end.

Definition parseBlockchainTreasure (treasureId coordinates : string) : Treasure.t :=
  let coords := map (fun coord => parseFloat (trim coord)) (split "," coordinates) in
  let lat := nth 0 coords NaN in
  let lng := nth 1 coords NaN in
  let '(rarity, requiredRank, baseReward) :=
    if includes treasureId "LEGENDARY" || includes treasureId "DRAGON"
       || includes treasureId "EPIC" then (3, 3, 500)%N
    else if includes treasureId "RARE" || includes treasureId "GOLDEN"
            || includes treasureId "ROYAL" then (2, 2, 300)%N
    else if includes treasureId "COMMON" || includes treasureId "BRONZE"
            || includes treasureId "BASIC" then (1, 1, 150)%N
    else (1, 1, 100)%N in
  let knownData := knownTreasures treasureId in
  Treasure.mk
    treasureId
    (match knownData with
     | Some k => or_else (Known.name k) (generateTreasureName treasureId)
     | None => generateTreasureName treasureId
     end)
    lat lng (lng, lat)
    (known_or knownData Known.rarity rarity)
    (known_or knownData Known.rewardPoints baseReward)
    (known_or knownData Known.requiredRank requiredRank)
    true true.

(** ** The chain gateway *)

Inductive Attempt (A : Type) : Type :=
| Returns (a : A)
| Throws (message : string).
Arguments Returns {A} a.
Arguments Throws {A} message.

Module Sui.
Record Minted := mkMinted {
  transactionDigest : string;
  nftObjectId : string;
  blockHeight : option Z
}.

(** What [signAndExecuteTransaction] does with the [find_treasure] call. *)
Inductive Execution : Type :=
| Rejects (message : string)          (* the call throws *)
| Fails (error : string)              (* effects.status.status is not 'success' *)
| Mints (objectId digest : string) (checkpoint : option Z).

(** The chain as one call of [discoverTreasure] sees it.  [keyError] is
    the message [loadKeypair] throws, empty when the key loads;
    [totalBalance] is in MIST, and is 0 when the balance cannot be read. *)
Record t := mk {
  keyError : string;
  totalBalance : Z;
  treasureRegistryId : string;
  execution : Execution
}.
End Sui.

Definition SuiService_discoverTreasure (sui : Sui.t) : Attempt Sui.Minted :=
  if truthy (Sui.keyError sui) then Throws (Sui.keyError sui)
  else
    let suiBalance := (inject_Z (Sui.totalBalance sui) / 1000000000)%Q in
    if negb (Qle_bool (5 # 100) suiBalance) then
      Throws "Insufficient SUI balance for transaction. Need at least 0.05 SUI for gas."
    else if negb (truthy (Sui.treasureRegistryId sui)) then
      Throws "TREASURE_REGISTRY_ID not configured"
    else
      match Sui.execution sui with
      | Sui.Rejects m => Throws m
      | Sui.Fails error => Throws ("Transaction failed: " ++ or_else error "Unknown error")
      | Sui.Mints objectId digest checkpoint =>
          if truthy objectId then Returns (Sui.mkMinted digest objectId checkpoint)
          else Throws "Failed to extract NFT object ID"
      end.

(** ** Requests, environment and responses *)

Module Request.
(** The body of [POST /discover] and the authenticated user. *)
Record t := mk {
  userId : string;
  treasureId : string;
  latitude : number;
  longitude : number;
  locationProof : string;
  nfcData : string;
  qrData : string
}.
End Request.

(** The successive readings of the clock in a handler, named after what
    they stamp, the identifier [uuidv4] draws and the state of the chain. *)
Record Env := mkEnv {
  t_nft : Z;          (* Date.now() in the offline nftObjectId *)
  t_tx : Z;           (* Date.now() in the offline transactionDigest *)
  t_proof : Z;        (* locationProof.timestamp *)
  t_found : Z;        (* discoveredAt *)
  t_hunt : Z;         (* hunterProfile.lastHuntTimestamp = new Date() *)
  t_diff : Z;         (* Date.now() of timeDiff *)
  uuid : string;
  chain : Sui.t
}.

Module Report.
Record profile := mkProfile {
  oldRank : string;
  newRank : string;
  rankUpgraded : bool;
  oldScore : N;
  newScore : N;
  pointsEarned : N;
  totalTreasures : N;
  currentStreak : N;
  longestStreak : N
}.

Record t := mk {
  discoveryId : string;
  discoveredAt : Z;
  distance : number;
  nft : option (string * string);      (* objectId, transactionDigest *)
  onChain : bool;
  treasure : Treasure.t;
  hunter : profile
}.
End Report.

Inductive Response : Type :=
| ValidationErrors                                   (* 400 *)
| TreasureNotFound                                   (* 404 Treasure not found or inactive *)
| AlreadyDiscovered (discoveredBy : string) (discoveredAt : Z)
| TooFar (distance : number) (maxDistance : N)
| ProfileNotFound                                    (* 400 Hunter profile not found *)
| RankTooLow (userRank : string) (userRankNumber requiredRankNumber : N)
| UserNotFound                                       (* 404 *)
| BlockchainAlreadyFound                             (* 400 *)
| BlockchainLocationFailed                           (* 400 *)
| InsufficientGas                                    (* 400 *)
| ServerError (error : string)                       (* 500 Failed to discover treasure *)
| Discovered (report : Report.t).                    (* 200 *)

Definition in_range (lo hi : R) (x : number) : bool :=
  ge x (Num lo) && ge (Num hi) x.

(** The [express-validator] chain of [POST /discover]. *)
Definition validationResult (req : Request.t) : bool :=
  truthy (Request.treasureId req)
  && in_range (-90) 90 (Request.latitude req)
  && in_range (-180) 180 (Request.longitude req)
  && truthy (Request.locationProof req).

(** ** The profile progression *)

Definition updateHunterRank (profile : HunterProfile.t) : HunterProfile.t :=
  let treasuresFound := HunterProfile.totalTreasuresFound profile in
  if (50 <=? treasuresFound)%N then HunterProfile.set_rank "master" profile
  else if (20 <=? treasuresFound)%N then HunterProfile.set_rank "hunter" profile
  else if (5 <=? treasuresFound)%N then HunterProfile.set_rank "explorer" profile
  else HunterProfile.set_rank "beginner" profile.

(** Step 8 of both handlers, statement by statement. *)
Definition updateHunterProfile (env : Env) (rewardPoints : N)
           (hunterProfile : HunterProfile.t) : HunterProfile.t :=
  let p := HunterProfile.set_totalTreasuresFound
             (HunterProfile.totalTreasuresFound hunterProfile + 1)%N hunterProfile in
  let p := HunterProfile.set_totalScore (HunterProfile.totalScore p + rewardPoints)%N p in
  let p := HunterProfile.set_lastHuntTimestamp (Some (t_hunt env)) p in
  let timeDiff :=
    t_diff env - match HunterProfile.lastHuntTimestamp p with
                 | Some t => if t =? 0 then 0 else t
                 | None => 0
                 end in
  let p :=
    if timeDiff <=? 86400000
    then HunterProfile.set_currentStreak (HunterProfile.currentStreak p + 1)%N p
    else HunterProfile.set_currentStreak 1%N p in
  let p :=
    if (HunterProfile.longestStreak p <? HunterProfile.currentStreak p)%N
    then HunterProfile.set_longestStreak (HunterProfile.currentStreak p) p
    else p in
  updateHunterRank p.

Definition profileReport (old new : HunterProfile.t) (rewardPoints : N) : Report.profile :=
  Report.mkProfile
    (HunterProfile.rank old) (HunterProfile.rank new)
    (negb (String.eqb (HunterProfile.rank old) (HunterProfile.rank new)))
    (HunterProfile.totalScore old) (HunterProfile.totalScore new) rewardPoints
    (HunterProfile.totalTreasuresFound new) (HunterProfile.currentStreak new)
    (HunterProfile.longestStreak new).

(** ** [POST /discover]

    Each handler is cut where it awaits the chain: the checks (steps 1 to 5),
    the chain call (step 6) and the commit (steps 7 and later).  A handler is
    the three in sequence on one store. *)

Module Checked.
(** What the checks hand over to the rest of the handler. *)
Record t := mk {
  treasure : Treasure.t;
  distance : number;
  hunterProfile : option HunterProfile.t;
  user : User.t
}.
End Checked.

(** [hunterProfile?.rank || 'beginner'] *)
Definition rank_or_beginner (hunterProfile : option HunterProfile.t) : string :=
  match hunterProfile with
  | Some p => or_else (HunterProfile.rank p) "beginner"
  | None => "beginner"
  end.

Definition has_credentials (user : User.t) : bool :=
  truthy (User.profileObjectId user) && truthy (User.encryptedPrivateKey user).

Definition null_or {A : Type} (r : option A) (f : A -> string) : string :=
  match r with
  | Some x => f x
  | None => ""
  end.

Definition is_null {A : Type} (r : option A) : bool :=
  match r with
  | Some _ => false
  | None => true
  end.

(** *** First variant *)

Definition checks_v1 (req : Request.t) (st : Store) : Response + Checked.t :=
  if negb (validationResult req) then inl ValidationErrors
  else
    (* 1. Verify treasure exists *)
    match Treasure_findOne_active st (Request.treasureId req) with
    | None => inl TreasureNotFound
    | Some treasure =>
        (* 2. Check if already discovered *)
        match TreasureDiscovery_findOne st (Request.treasureId req) with
        | Some existingDiscovery =>
            inl (AlreadyDiscovered (TreasureDiscovery.userId existingDiscovery)
                                   (TreasureDiscovery.discoveredAt existingDiscovery))
        | None =>
            (* 3. Verify user location vs treasure location *)
            let distance :=
              calculateDistance (Request.latitude req) (Request.longitude req)
                                (Treasure.latitude treasure) (Treasure.longitude treasure) in
            if gt distance (Num 100) then inl (TooFar (Math_round distance) 100)
            else
              (* 4. Check user rank requirement *)
              let hunterProfile := HunterProfile_findOne st (Request.userId req) in
              let userRank := getRankNumber (rank_or_beginner hunterProfile) in
              if (userRank <? Treasure.requiredRank treasure)%N then
                inl (RankTooLow (rank_or_beginner hunterProfile) userRank
                                (Treasure.requiredRank treasure))
              else
                (* 5. Get user blockchain data *)
                match User_findById st (Request.userId req) with
                | None => inl UserNotFound
                | Some user => inr (Checked.mk treasure distance hunterProfile user)
                end
        end
    end.

(** 6. The inner [try]: whatever the chain call throws is dropped. *)
Definition callChain_v1 (env : Env) (user : User.t) : option Sui.Minted :=
  if has_credentials user then
    match SuiService_discoverTreasure (chain env) with
    | Returns discoveryResult => Some discoveryResult
    | Throws _ => None
    end
  else None.

(** The outer [catch]. *)
Definition catch_v1 (error : Exn) : Response :=
  if includes (message error) "E_TREASURE_ALREADY_FOUND" then BlockchainAlreadyFound
  else if includes (message error) "E_INVALID_LOCATION" then BlockchainLocationFailed
  else if includes (message error) "Insufficient SUI balance" then InsufficientGas
  else ServerError (message error).

Definition commit_v1 (env : Env) (req : Request.t) (c : Checked.t)
           (discoveryResult : option Sui.Minted) (st : Store) : Response * Store :=
  let treasure := Checked.treasure c in
  let nftObjectId := null_or discoveryResult Sui.nftObjectId in
  let transactionDigest := null_or discoveryResult Sui.transactionDigest in
  (* 7. Save discovery to database *)
  let treasureDiscovery :=
    TreasureDiscovery.mk
      (uuid env) (Request.userId req) (Request.treasureId req)
      (or_else nftObjectId ("offline_" ++ string_of_Z (t_nft env)))
      (or_else transactionDigest "offline_transaction")
      (Request.latitude req) (Request.longitude req)
      (Request.nfcData req) (Request.qrData req)
      (t_proof env) (Math_round (Checked.distance c))
      (match discoveryResult with Some r => Sui.blockHeight r | None => None end)
      None
      (is_null discoveryResult)
      None
      (t_found env) in
  match TreasureDiscovery_save treasureDiscovery (discoveries st) with
  | inl error => (catch_v1 error, st)
  | inr saved =>
      let st := set_discoveries saved st in
      (* 8. Update hunter profile *)
      match Checked.hunterProfile c with
      | None =>
          (catch_v1 (TypeError "Cannot read properties of null (reading 'rank')"), st)
      | Some hunterProfile =>
          let updated :=
            updateHunterProfile env (Treasure.rewardPoints treasure) hunterProfile in
          let st := set_hunterProfiles (HunterProfile_save updated (hunterProfiles st)) st in
          (* 9. Success response *)
          (Discovered
             (Report.mk (uuid env) (t_found env) (Math_round (Checked.distance c))
                (if truthy nftObjectId then Some (nftObjectId, transactionDigest) else None)
                (negb (is_null discoveryResult))
                treasure
                (profileReport hunterProfile updated (Treasure.rewardPoints treasure))),
           st)
      end
  end.

Definition discover_v1 (env : Env) (req : Request.t) (st : Store) : Response * Store :=
  match checks_v1 req st with
  | inl response => (response, st)
  | inr c => commit_v1 env req c (callChain_v1 env (Checked.user c)) st
  end.

(** *** Second variant *)

(** 1. The treasure of the claim.  [locationProof] is not empty once the
    request is validated, so the coordinates are always read from it. *)
Definition resolveTreasure_v2 (req : Request.t) (st : Store) : Treasure.t :=
  match Treasure_findOne_active st (Request.treasureId req) with
  | Some treasure => treasure
  | None =>
      let coordinates := Request.locationProof req in
      parseBlockchainTreasure (Request.treasureId req) coordinates
  end.

Definition checks_v2 (req : Request.t) (st : Store) : Response + Checked.t :=
  if negb (validationResult req) then inl ValidationErrors
  else
    let treasure := resolveTreasure_v2 req st in
    (* 2. Check if already discovered *)
    match TreasureDiscovery_findOne st (Request.treasureId req) with
    | Some existingDiscovery =>
        inl (AlreadyDiscovered (TreasureDiscovery.userId existingDiscovery)
                               (TreasureDiscovery.discoveredAt existingDiscovery))
    | None =>
        (* 3. Verify user location vs treasure location *)
        let distance :=
          calculateDistance (Request.latitude req) (Request.longitude req)
                            (Treasure.latitude treasure) (Treasure.longitude treasure) in
        if gt distance (Num 100) then inl (TooFar (Math_round distance) 100)
        else
          (* 4. Check user rank requirement *)
          match HunterProfile_findOne st (Request.userId req) with
          | None => inl ProfileNotFound
          | Some hunterProfile =>
              let userRank := getRankNumber (or_else (HunterProfile.rank hunterProfile) "beginner") in
              if (userRank <? Treasure.requiredRank treasure)%N then
                inl (RankTooLow (or_else (HunterProfile.rank hunterProfile) "beginner")
                                userRank (Treasure.requiredRank treasure))
              else
                (* 5. Get user blockchain data *)
                match User_findById st (Request.userId req) with
                | None => inl UserNotFound
                | Some user => inr (Checked.mk treasure distance (Some hunterProfile) user)
                end
          end
    end.

(** 6. The inner [try] and its [catch]: three kinds of failure end the
    request, the others leave [discoveryResult] null. *)
Definition callChain_v2 (env : Env) (user : User.t) : Response + option Sui.Minted :=
  if has_credentials user then
    match SuiService_discoverTreasure (chain env) with
    | Returns discoveryResult => inr (Some discoveryResult)
    | Throws blockchainError =>
        if includes blockchainError "E_TREASURE_ALREADY_FOUND" then inl BlockchainAlreadyFound
        else if includes blockchainError "E_INVALID_LOCATION" then inl BlockchainLocationFailed
        else if includes blockchainError "Insufficient SUI balance" then inl InsufficientGas
        else inr None
    end
  else inr None.

Definition commit_v2 (env : Env) (req : Request.t) (c : Checked.t)
           (discoveryResult : option Sui.Minted) (st : Store) : Response * Store :=
  let treasure := Checked.treasure c in
  let nftObjectId := null_or discoveryResult Sui.nftObjectId in
  let transactionDigest := null_or discoveryResult Sui.transactionDigest in
  let blockchainSuccess := negb (is_null discoveryResult) in
  (* 7. Save discovery to database *)
  let treasureDiscovery :=
    TreasureDiscovery.mk
      (uuid env) (Request.userId req) (Request.treasureId req)
      (or_else nftObjectId
               ("offline_" ++ Request.treasureId req ++ "_" ++ string_of_Z (t_nft env)))
      (or_else transactionDigest ("offline_tx_" ++ string_of_Z (t_tx env)))
      (Request.latitude req) (Request.longitude req)
      (Request.nfcData req) (Request.qrData req)
      (t_proof env) (Math_round (Checked.distance c))
      (match discoveryResult with Some r => Sui.blockHeight r | None => None end)
      (Some blockchainSuccess)
      (negb blockchainSuccess)
      (Some (Treasure.fromBlockchain treasure))
      (t_found env) in
  match TreasureDiscovery_save treasureDiscovery (discoveries st) with
  | inl error => (ServerError (message error), st)
  | inr saved =>
      let st := set_discoveries saved st in
      (* 8. Update hunter profile *)
      match Checked.hunterProfile c with
      | None =>
          (ServerError "Cannot read properties of null (reading 'rank')", st)
      | Some hunterProfile =>
          let updated :=
            updateHunterProfile env (Treasure.rewardPoints treasure) hunterProfile in
          let st := set_hunterProfiles (HunterProfile_save updated (hunterProfiles st)) st in
          (* 9. Save auto-generated treasure to database for future reference *)
          let st :=
            if Treasure.fromBlockchain treasure then
              let newTreasure :=
                Treasure.mk (Treasure.treasureId treasure) (Treasure.name treasure)
                            NaN NaN
                            (Treasure.longitude treasure, Treasure.latitude treasure)
                            (Treasure.rarity treasure) (Treasure.rewardPoints treasure)
                            (Treasure.requiredRank treasure) true false in
              match Treasure_save newTreasure (treasures st) with
              | inr saved => set_treasures saved st
              | inl saveError => st
              end
            else st in
          (* 10. Success response *)
          (Discovered
             (Report.mk (uuid env) (t_found env) (Math_round (Checked.distance c))
                (if truthy nftObjectId then Some (nftObjectId, transactionDigest) else None)
                blockchainSuccess
                treasure
                (profileReport hunterProfile updated (Treasure.rewardPoints treasure))),
           st)
      end
  end.

Definition discover_v2 (env : Env) (req : Request.t) (st : Store) : Response * Store :=
  match checks_v2 req st with
  | inl response => (response, st)
  | inr c =>
      match callChain_v2 env (Checked.user c) with
      | inl response => (response, st)
      | inr discoveryResult => commit_v2 env req c discoveryResult st
      end
  end.

(** ** [GET /nearby] *)

Module NearbyQuery.
Record t := mk {
  userId : string;
  lat : number;
  lng : number;
  radius : option Z
}.
End NearbyQuery.

Module Nearby.
Record t := mk {
  treasureId : string;
  name : string;
  latitude : number;
  longitude : number;
  rarity : N;
  rarityName : string;
  rewardPoints : N;
  requiredRank : N;
  requiredRankName : string;
  distance : number;
  canHunt : bool
}.
End Nearby.

Inductive NearbyResponse : Type :=
| NearbyValidationErrors
| NearbyFound (treasures : list Nearby.t).

Definition nearby_validationResult (q : NearbyQuery.t) : bool :=
  in_range (-90) 90 (NearbyQuery.lat q)
  && in_range (-180) 180 (NearbyQuery.lng q)
  && match NearbyQuery.radius q with
     | Some r => (100 <=? r) && (r <=? 50000)
     | None => true
     end.

(** [Treasure.find({ location: { $near: ... }, isActive: true })].  What
    lies within [$maxDistance] of the point, and in which order, is the
    answer of the 2dsphere index: [geoNear] lists the [treasureId] of those
    documents, nearest first. *)
Definition Treasure_find_near (geoNear : list string) (st : Store) : list Treasure.t :=
  filter Treasure.isActive
    (flat_map (fun id => filter (fun t => String.eqb (Treasure.treasureId t) id)
                                (treasures st))
              geoNear).

(** [array.sort(compareFn)], as the stable insertion sort: an element goes
    before the first one it does not compare greater than. *)
Fixpoint insert {A : Type} (compareFn : A -> A -> number) (x : A) (l : list A) : list A :=
  match l with
  | [] => [x]
  | y :: l' =>
      if gt (compareFn x y) (Num 0) then y :: insert compareFn x l'
      else x :: l
  end.

Definition sort {A : Type} (compareFn : A -> A -> number) (l : list A) : list A :=
  fold_right (insert compareFn) [] l.

(** [(a, b) => a.distance - b.distance] *)
Definition by_distance (a b : Nearby.t) : number :=
  (Nearby.distance a - Nearby.distance b)%num.

Definition nearby (geoNear : list string) (q : NearbyQuery.t) (st : Store) : NearbyResponse :=
  if negb (nearby_validationResult q) then NearbyValidationErrors
  else
    (* 1. Find treasures using MongoDB geospatial query *)
    let treasures := firstn 20 (Treasure_find_near geoNear st) in
    (* 2. Get list of already discovered treasure IDs *)
    let discoveredTreasureIds := TreasureDiscovery_distinct_treasureId st in
    (* 3. Filter out discovered treasures *)
    let availableTreasures :=
      filter (fun treasure =>
                negb (existsb (String.eqb (Treasure.treasureId treasure))
                              discoveredTreasureIds))
             treasures in
    (* 4. Get user's hunter profile for rank checking *)
    let hunterProfile := HunterProfile_findOne st (NearbyQuery.userId q) in
    let userRank := getRankNumber (rank_or_beginner hunterProfile) in
    (* 5. Calculate distances and format response *)
    let treasuresWithDistance :=
      map (fun treasure =>
             let distance :=
               calculateDistance (NearbyQuery.lat q) (NearbyQuery.lng q)
                                 (Treasure.latitude treasure) (Treasure.longitude treasure) in
             let canHunt := (Treasure.requiredRank treasure <=? userRank)%N in
             Nearby.mk (Treasure.treasureId treasure) (Treasure.name treasure)
                       (Treasure.latitude treasure) (Treasure.longitude treasure)
                       (Treasure.rarity treasure) (getRarityName (Treasure.rarity treasure))
                       (Treasure.rewardPoints treasure)
                       (Treasure.requiredRank treasure)
                       (getRankName (Treasure.requiredRank treasure))
                       (Math_round distance) canHunt)
          availableTreasures in
    (* 6. Sort by distance *)
    NearbyFound
      (sort by_distance treasuresWithDistance).

(** ** The states the discovery store can reach

    A request that commits may have run its checks on an earlier store:
    other requests are served while it awaits the chain. *)

Inductive step : Store -> Store -> Prop :=
| step_discover_v1 env req st :
    step st (snd (discover_v1 env req st))
| step_discover_v2 env req st :
    step st (snd (discover_v2 env req st))
| step_commit_v1 env req st0 c st :
    checks_v1 req st0 = inr c ->
    step st (snd (commit_v1 env req c (callChain_v1 env (Checked.user c)) st))
| step_commit_v2 env req st0 c discoveryResult st :
    checks_v2 req st0 = inr c ->
    callChain_v2 env (Checked.user c) = inr discoveryResult ->
    step st (snd (commit_v2 env req c discoveryResult st))
| step_seed st :
    step st (TreasureDiscovery_deleteMany st)
| step_other st st' :
    (* the other routes read the discoveries and never change them *)
    discoveries st' = discoveries st ->
    step st st'.

Inductive reachable : Store -> Prop :=
| reachable_init st : discoveries st = [] -> reachable st
| reachable_step st st' : reachable st -> step st st' -> reachable st'.

(** No two documents of [coll] share a value of the field [f]. *)
Definition unique_on (f : TreasureDiscovery.t -> string)
           (coll : list TreasureDiscovery.t) : Prop :=
  forall key : string,
    (List.length (filter (fun d => String.eqb (f d) key) coll) <= 1)%nat.

(** At most one discovery per treasure. *)
Definition at_most_once (coll : list TreasureDiscovery.t) : Prop :=
  unique_on TreasureDiscovery.treasureId coll.

(** ** Two laws in the words of the specification

    They are compared with the code below; the code never uses them. *)

(** "If [now - lastHunt > 24h], [currentStreak] resets to 1 regardless of
    its prior value; otherwise it strictly increments by 1." *)
Definition spec_streak (now : Z) (lastHunt : option Z) (currentStreak : N) : N :=
  let last := match lastHunt with Some t => t | None => 0 end in
  if 86400000 <? now - last then 1%N else (currentStreak + 1)%N.

(** "[rank] = max rank R such that [totalTreasuresFound >= R.threshold]",
    over the ordinals 1 to 4 with the thresholds of
    [getTreasuresNeededForRank]. *)
Definition maximal_rank (totalTreasuresFound : N) (r : N) : Prop :=
  (1 <= r <= 4)%N
  /\ (getTreasuresNeededForRank r <= totalTreasuresFound)%N
  /\ forall r' : N,
      (1 <= r' <= 4)%N ->
      (getTreasuresNeededForRank r' <= totalTreasuresFound)%N ->
      (r' <= r)%N.

(** ** A small world to run the handlers in

    Two seeded treasures of Hanoi, three players: [alice] has a
    profile and no chain credentials, [bob] has neither, [carol] has both.
    The treasures carry the [latitude] and the [longitude] that the routes
    read; a document read from the collection has neither: see [Scenes] and
    [Schema] below. *)

Module World.
Definition old_quarter : Treasure.t :=
  Treasure.mk "hanoi_old_quarter_001" "Old Quarter Ancient Merchant's Cache"
              (Num 21.0351) (Num 105.8520) (Num 105.8520, Num 21.0351)
              1 150 1 true false.

Definition dong_xuan : Treasure.t :=
  Treasure.mk "hanoi_dong_xuan_001" "Dong Xuan Market Trader's Fortune"
              (Num 21.0380) (Num 105.8500) (Num 105.8500, Num 21.0380)
              1 120 1 true false.

Definition alice : User.t := User.mk "alice" "" "".
Definition bob : User.t := User.mk "bob" "" "".
Definition carol : User.t := User.mk "carol" "0xprofile" "encrypted-key".

Definition alice_profile : HunterProfile.t :=
  HunterProfile.mk "alice" "explorer" 7 1200 5 5 (Some 1700000000000).
Definition carol_profile : HunterProfile.t :=
  HunterProfile.mk "carol" "beginner" 4 450 1 3 (Some 1700000000000).

Definition store : Store :=
  mkStore [old_quarter; dong_xuan] [] [alice_profile; carol_profile] [alice; bob; carol].

(** A claim of the Old Quarter treasure made on the spot by [userId]. *)
Definition claim (userId : string) : Request.t :=
  Request.mk userId "hanoi_old_quarter_001" (Num 21.0351) (Num 105.8520)
             "gps_verified" "" "".

(** A claim of the Old Quarter treasure made 0.002 degrees of latitude to
    the south of it, some 222 m away. *)
Definition claim_from_afar (userId : string) : Request.t :=
  Request.mk userId "hanoi_old_quarter_001" (Num 21.0331) (Num 105.8520)
             "gps_verified" "" "".

(** A claim of the Dong Xuan treasure made on the spot by [userId]. *)
Definition claim_dong_xuan (userId : string) : Request.t :=
  Request.mk userId "hanoi_dong_xuan_001" (Num 21.0380) (Num 105.8500)
             "gps_verified" "" "".

(** A claim of a treasure that the store does not hold, with the claimed
    coordinates as location proof. *)
Definition claim_unknown (userId : string) : Request.t :=
  Request.mk userId "VN_RARE_777" (Num 21.0351) (Num 105.8520)
             "21.0351,105.8520" "" "".

(** Two days after the last hunt of every profile; the chain is in the
    state [sui]. *)
Definition env (sui : Sui.t) : Env :=
  mkEnv 1700172800000 1700172800000 1700172800000 1700172800000
        1700172800000 1700172800000
        "5f0c0e9e-3b1a-4c59-9d53-0a4a1f0f6c11" sui.

(** A minute later, for a second request. *)
Definition later (sui : Sui.t) : Env :=
  mkEnv 1700172860000 1700172860000 1700172860000 1700172860000
        1700172860000 1700172860000
        "0b6d3c52-7a44-4e0e-8f0a-6c1d2e9b7a35" sui.

Definition unfunded : Sui.t :=
  Sui.mk "" 10000000 "0xregistry" (Sui.Rejects "unreachable").
Definition already_found : Sui.t :=
  Sui.mk "" 1000000000 "0xregistry"
         (Sui.Fails "MoveAbort in treasure_nft::find_treasure: E_TREASURE_ALREADY_FOUND").
Definition timeout : Sui.t :=
  Sui.mk "" 1000000000 "0xregistry" (Sui.Rejects "Request timed out").

(** The same world after the Old Quarter treasure was deactivated. *)
Definition old_quarter_closed : Treasure.t :=
  Treasure.mk "hanoi_old_quarter_001" "Old Quarter Ancient Merchant's Cache"
              (Num 21.0351) (Num 105.8520) (Num 105.8520, Num 21.0351)
              1 150 1 false false.

Definition closed_store : Store :=
  mkStore [old_quarter_closed; dong_xuan] [] [alice_profile; carol_profile]
          [alice; bob; carol].

(** The profile of [alice] after her claim at [env]. *)
Definition alice_progressed : HunterProfile.t :=
  HunterProfile.mk "alice" "explorer" 8 1350 6 6 (Some 1700172800000).

(** A lane: a third treasure due north of the Old Quarter one, some 545 m
    away, and the Dong Xuan treasure already discovered by [carol]. *)
Definition north_gate : Treasure.t :=
  Treasure.mk "hanoi_north_gate_001" "North Gate Sentinel's Seal"
              (Num 21.0400) (Num 105.8520) (Num 105.8520, Num 21.0400)
              2 300 2 true false.

Definition lane : Store :=
  mkStore [old_quarter; dong_xuan; north_gate]
          [TreasureDiscovery.mk "d_dong_xuan" "carol" "hanoi_dong_xuan_001"
             "offline_1700000000000" "offline_transaction"
             (Num 21.0380) (Num 105.8500) "" "" 1700000000000 (Num 0)
             None None true None 1700000000000]
          [alice_profile; carol_profile] [alice; bob; carol].

Definition lane_near : list string :=
  ["hanoi_old_quarter_001"; "hanoi_dong_xuan_001"; "hanoi_north_gate_001"].

(** A crowded spot: twenty discovered treasures on the spot and one
    undiscovered treasure some 400 m away; the 2dsphere index lists the
    twenty-one, nearest first. *)
Definition crowd_ids : list string :=
  ["t01"; "t02"; "t03"; "t04"; "t05"; "t06"; "t07"; "t08"; "t09"; "t10";
   "t11"; "t12"; "t13"; "t14"; "t15"; "t16"; "t17"; "t18"; "t19"; "t20"].

Definition crowd_treasure (id : string) : Treasure.t :=
  Treasure.mk id ("Cache " ++ id) (Num 21.0351) (Num 105.8520)
              (Num 105.8520, Num 21.0351) 1 100 1 true false.

Definition far_treasure : Treasure.t :=
  Treasure.mk "t21" "Cache t21" (Num 21.0380) (Num 105.8500)
              (Num 105.8500, Num 21.0380) 1 100 1 true false.

Definition crowd_discovery (id : string) : TreasureDiscovery.t :=
  TreasureDiscovery.mk ("d_" ++ id) "carol" id ("offline_" ++ id) ("offline_tx_" ++ id)
                       (Num 21.0351) (Num 105.8520) "" "" 1700000000000 (Num 0)
                       None (Some false) true (Some false) 1700000000000.

Definition crowded : Store :=
  mkStore (map crowd_treasure crowd_ids ++ [far_treasure])
          (map crowd_discovery crowd_ids)
          [alice_profile; carol_profile] [alice; bob; carol].

Definition crowded_near : list string := crowd_ids ++ ["t21"].

Definition here : NearbyQuery.t :=
  NearbyQuery.mk "alice" (Num 21.0351) (Num 105.8520) None.

(** The profile of [alice] after a claim that earned her 100 points. *)
Definition alice_progressed_100 : HunterProfile.t :=
  HunterProfile.mk "alice" "explorer" 8 1300 6 6 (Some 1700172800000).

(** The profile of [carol] after her claim of the Old Quarter treasure at
    [env]. *)
Definition carol_progressed : HunterProfile.t :=
  HunterProfile.mk "carol" "explorer" 5 600 2 3 (Some 1700172800000).

(** Two claims of the treasure that both passed their checks on [store]:
    [alice] commits first, then [carol] commits on the store [alice]
    left. *)
Definition first_commit : Store :=
  snd (commit_v1 (env timeout) (claim "alice")
         (Checked.mk old_quarter (Num 0) (HunterProfile_findOne store "alice") alice)
         (callChain_v1 (env timeout) alice) store).

Definition raced_store : Store :=
  snd (commit_v1 (later timeout) (claim "carol")
         (Checked.mk old_quarter (Num 0) (HunterProfile_findOne store "carol") carol)
         (callChain_v1 (later timeout) carol) first_commit).
End World.

(** ** The rank refusal and the records of the ledger *)

(** [treasuresNeeded] of the rank refusal of the second variant. *)
Definition treasuresNeeded (treasure : Treasure.t) (hunterProfile : HunterProfile.t) : Z :=
  Z.of_N (getTreasuresNeededForRank (Treasure.requiredRank treasure))
  - Z.of_N (HunterProfile.totalTreasuresFound hunterProfile).

(** A discovery record that passes the validators of its schema. *)
Definition well_formed (d : TreasureDiscovery.t) : Prop :=
  truthy (TreasureDiscovery.userId d) = true
  /\ truthy (TreasureDiscovery.treasureId d) = true
  /\ nftObjectId_validator (TreasureDiscovery.nftObjectId d) = true
  /\ transactionDigest_validator (TreasureDiscovery.transactionDigest d) = true.



(** ** [src/middleware/errorHandler.js] *)

(** A field of an error object that is read as a number or as a string:
    absent, a number or a string. *)
Inductive JsValue : Type :=
| Undefined
| Number (n : Z)
| Text (s : string).

(** [if (v)] *)
Definition isTruthy (v : JsValue) : bool :=
  match v with
  | Undefined => false
  | Number n => negb (n =? 0)
  | Text s => truthy s
  end.

(** [v === n] *)
Definition is_number (v : JsValue) (n : Z) : bool :=
  match v with
  | Number m => m =? n
  | _ => false
  end.

(** [v === 'text'] *)
Definition is_text (v : JsValue) (s : string) : bool :=
  match v with
  | Text x => String.eqb x s
  | _ => false
  end.

Module Err.
(** What [errorHandler] reads of an error.  [statusCode] is 0 when the
    error has none; [errors] holds the [message] of each value of
    [err.errors] when the error has that field. *)
Record t := mk {
  name : string;
  message : string;
  code : JsValue;
  status : JsValue;
  statusCode : Z;
  errors : option (list string)
}.
End Err.

(** The status and the message [errorHandler] sends.  The rules are applied
    in the order of the source, a later one overwriting an earlier one; they
    are grouped here under the comments that head them in the source.  The
    log entry and the fields of the response that echo the request are left
    out. *)

(** "Mongoose bad ObjectId", "Mongoose duplicate key", "Mongoose validation
    error", from the default error. *)
Definition mongooseErrors (err : Err.t) : Attempt (Z * string) :=
  (* Default error *)
  let r := (500, "Internal Server Error") in
  let r := if String.eqb (Err.name err) "CastError" then (404, "Resource not found") else r in
  let r := if is_number (Err.code err) 11000
           then (400, "Duplicate field value entered") else r in
  if String.eqb (Err.name err) "ValidationError" then
    match Err.errors err with
    | Some messages => Returns (400, join ", " messages)
    | None => Throws "Cannot convert undefined or null to object"
    end
  else Returns r.

(** "JWT errors" *)
Definition jwtErrors (err : Err.t) (r : Z * string) : Z * string :=
  let r := if String.eqb (Err.name err) "JsonWebTokenError" then (401, "Invalid token") else r in
  if String.eqb (Err.name err) "TokenExpiredError" then (401, "Token expired") else r.

(** "PostgreSQL errors": the [switch] on [err.code]. *)
Definition postgresErrors (err : Err.t) (r : Z * string) : Attempt (Z * string) :=
  let code := Err.code err in
  if isTruthy code then
    if is_text code "23505" then Returns (400, "Duplicate entry found")
    else if is_text code "23503" then Returns (400, "Referenced resource not found")
    else if is_text code "23502" then Returns (400, "Required field missing")
    else if is_text code "22P02" then Returns (400, "Invalid data format")
    else if is_text code "42P01" then Returns (500, "Database configuration error")
    else
      match code with
      | Text s => Returns (if String.prefix "23" s then (400, "Data constraint violation") else r)
      | _ => Throws "err.code.startsWith is not a function"
      end
  else Returns r.

(** "Sui blockchain errors" *)
Definition suiErrors (err : Err.t) (r : Z * string) : Z * string :=
  let message := Err.message err in
  let r := if includes message "Insufficient SUI balance"
           then (400, "Insufficient SUI balance for transaction") else r in
  let r := if includes message "E_TREASURE_ALREADY_FOUND"
           then (400, "This treasure has already been discovered") else r in
  let r := if includes message "E_INVALID_LOCATION"
           then (400, "Location verification failed") else r in
  if includes message "E_INSUFFICIENT_RANK"
  then (400, "Your hunter rank is too low for this treasure") else r.

(** "Network/timeout errors", "Rate limit errors", "File/upload errors" *)
Definition serviceErrors (err : Err.t) (r : Z * string) : Z * string :=
  let code := Err.code err in
  let r := if is_text code "ECONNREFUSED" || is_text code "ETIMEDOUT"
           then (503, "Service temporarily unavailable") else r in
  let r := if is_number (Err.status err) 429
           then (429, "Too many requests, please try again later") else r in
  let r := if is_text code "LIMIT_FILE_SIZE" then (400, "File too large") else r in
  if is_text code "LIMIT_UNEXPECTED_FILE" then (400, "Unexpected file field") else r.

(** "Custom application errors" *)
Definition customErrors (err : Err.t) (r : Z * string) : Z * string :=
  if negb (Err.statusCode err =? 0) then (Err.statusCode err, Err.message err) else r.

Definition errorHandler (err : Err.t) : Attempt (Z * string) :=
  match mongooseErrors err with
  | Throws e => Throws e
  | Returns r =>
      match postgresErrors err (jwtErrors err r) with
      | Throws e => Throws e
      | Returns r => Returns (customErrors err (serviceErrors err (suiErrors err r)))
      end
  end.

(** [new Error(message)] *)
Definition new_Error (message : string) : Err.t :=
  Err.mk "Error" message Undefined Undefined 0 None.

(** The error [notFoundHandler] hands to [next]. *)
Definition notFoundHandler (originalUrl : string) : Err.t :=
  Err.mk "Error" ("Route " ++ originalUrl ++ " not found") Undefined Undefined 404 None.

(** [new AppError(message, statusCode = 500, code = null)] *)
Definition AppError (message : string) (statusCode : option Z) (code : JsValue) : Err.t :=
  let statusCode := match statusCode with Some c => c | None => 500 end in
  Err.mk "Error" message code
         (Text (if String.prefix "4" (string_of_Z statusCode) then "fail" else "error"))
         statusCode None.

Definition or_default (a : option string) (b : string) : string :=
  match a with
  | Some x => x
  | None => b
  end.

Definition createValidationError (message : string) (field : option string) : Err.t :=
  AppError message (Some 400) (Text "VALIDATION_ERROR").

Definition createAuthError (message : option string) : Err.t :=
  AppError (or_default message "Authentication failed") (Some 401) (Text "AUTH_ERROR").

Definition createAuthorizationError (message : option string) : Err.t :=
  AppError (or_default message "Access denied") (Some 403) (Text "AUTHORIZATION_ERROR").

Definition createNotFoundError (resource : option string) : Err.t :=
  AppError (or_default resource "Resource" ++ " not found") (Some 404) (Text "NOT_FOUND").

Definition createConflictError (message : string) : Err.t :=
  AppError message (Some 409) (Text "CONFLICT_ERROR").

Definition createServiceUnavailableError (message : option string) : Err.t :=
  AppError (or_default message "Service temporarily unavailable") (Some 503)
           (Text "SERVICE_UNAVAILABLE").

(** What [errorHandler] sends for an error that carries no status of its
    own and is no validation error. *)
Definition cannedResponses : list (Z * string) :=
  [(500, "Internal Server Error");
   (404, "Resource not found");
   (400, "Duplicate field value entered");
   (401, "Invalid token");
   (401, "Token expired");
   (400, "Duplicate entry found");
   (400, "Referenced resource not found");
   (400, "Required field missing");
   (400, "Invalid data format");
   (500, "Database configuration error");
   (400, "Data constraint violation");
   (400, "Insufficient SUI balance for transaction");
   (400, "This treasure has already been discovered");
   (400, "Location verification failed");
   (400, "Your hunter rank is too low for this treasure");
   (503, "Service temporarily unavailable");
   (429, "Too many requests, please try again later");
   (400, "File too large");
   (400, "Unexpected file field")].

(** ** [src/middleware/auth.js] *)

Module Jwt.
(** The claims of a token the middleware reads; a claim the token lacks
    is empty. *)
Record Payload := mkPayload {
  userId : string;
  suiAddress : string;
  username : string;
  role : string
}.

(** What [jwt.verify(token, process.env.JWT_SECRET)] does: it returns the
    payload or throws an error of some [name]. *)
Inductive Verified : Type :=
| Decoded (decoded : Payload)
| Fails (name : string).
End Jwt.

Module AuthUser.
(** [req.user] *)
Record t := mk {
  userId : string;
  suiAddress : string;
  username : string;
  role : string
}.
End AuthUser.

(** What a middleware does with the request: it calls [next] with
    [req.user] set, or it answers. *)
Inductive AuthResult : Type :=
| Next (user : AuthUser.t)
| Denied (status : Z) (message code : string).

Definition dquote : string := String (ascii_of_nat 34) EmptyString.

Definition req_user (decoded : Jwt.Payload) : AuthUser.t :=
  AuthUser.mk (Jwt.userId decoded) (Jwt.suiAddress decoded) (Jwt.username decoded)
              (or_else (Jwt.role decoded) "user").

Definition auth (verify : string -> Jwt.Verified) (authHeader : string) : AuthResult :=
  if negb (truthy authHeader) then
    Denied 401 "Access denied. No token provided." ""
  else if negb (String.prefix "Bearer " authHeader) then
    Denied 401 ("Access denied. Invalid token format. Use " ++ dquote ++ "Bearer <token>"
                ++ dquote ++ ".") ""
  else
    let token := dropString 7 authHeader in
    match verify token with
    | Jwt.Decoded decoded => Next (req_user decoded)
    | Jwt.Fails name =>
        if String.eqb name "TokenExpiredError" then
          Denied 401 "Token has expired" "TOKEN_EXPIRED"
        else if String.eqb name "JsonWebTokenError" then
          Denied 401 "Invalid token" "INVALID_TOKEN"
        else Denied 401 "Authentication failed" "AUTH_FAILED"
    end.

Definition adminAuth (verify : string -> Jwt.Verified) (authHeader : string) : AuthResult :=
  (* First check regular authentication *)
  match auth verify authHeader with
  | Next user =>
      (* Check admin role *)
      if negb (String.eqb (AuthUser.role user) "admin") then
        Denied 403 "Access denied. Admin privileges required." ""
      else Next user
  | denied => denied
  end.

(** [optionalAuth] always calls [next]: the result is [req.user]. *)
Definition optionalAuth (verify : string -> Jwt.Verified) (authHeader : string)
  : option AuthUser.t :=
  if negb (truthy authHeader) || negb (String.prefix "Bearer " authHeader) then None
  else
    let token := dropString 7 authHeader in
    match verify token with
    | Jwt.Decoded decoded => Some (req_user decoded)
    | Jwt.Fails _ => None
    end.

(** ** [SuiService]: the registry and the location verifier *)

Module Verification.
(** What the routes read of the answer of [verifyTreasureInRegistry]. *)
Record t := mk {
  exists_ : bool;
  error : string;
  method : string
}.
End Verification.

Module Registry.
(** An element of [content.fields.treasures]. *)
Record Entry := mkEntry {
  treasure_id : option string;
  treasureId : option string
}.

(** [content.fields.treasures]: missing, an array or an object with its own
    properties. *)
Inductive Treasures : Type :=
| NoTreasures
| ArrayOf (elements : list Entry)
| ObjectOf (properties : list (string * Entry)).

(** What [client.getObject] does with the registry. *)
Inductive Inspection : Type :=
| InspectionThrows
| NoContent
| Content (treasures : Treasures).

(** What [client.devInspectTransactionBlock] does with [treasure_exists]:
    it throws, answers without return values, or answers with
    [returnValues] whose first element starts with [first]. *)
Inductive View : Type :=
| ViewThrows
| NoReturnValues
| ReturnValues (first : JsValue).

Record t := mk {
  treasureRegistryId : string;
  getObject : Inspection;
  devInspectTransactionBlock : View
}.
End Registry.

(** [t.treasure_id === treasureId || t.treasureId === treasureId] *)
Definition names (treasureId : string) (t : Registry.Entry) : bool :=
  match Registry.treasure_id t with
  | Some x => String.eqb x treasureId
  | None => false
  end
  || match Registry.treasureId t with
     | Some x => String.eqb x treasureId
     | None => false
     end.

Definition verifyTreasureInRegistry (registry : Registry.t) (treasureId : string)
  : Verification.t :=
  if negb (truthy (Registry.treasureRegistryId registry)) then
    Verification.mk true "" "fallback_assume_exists"
  else
    (* Method 1: Try to get the registry object and inspect its contents *)
    let treasureFound :=
      match Registry.getObject registry with
      | Registry.Content (Registry.ArrayOf treasures) => existsb (names treasureId) treasures
      | Registry.Content (Registry.ObjectOf treasures) =>
          existsb (String.eqb treasureId) (map fst treasures)
          || existsb (names treasureId) (map snd treasures)
      | _ => false
      end in
    if treasureFound then Verification.mk true "" "registry_object_inspection"
    else
      (* Method 2: Try the view function (if it exists) *)
      match Registry.devInspectTransactionBlock registry with
      | Registry.ReturnValues first => Verification.mk (is_number first 1) "" "view_function"
      | Registry.NoReturnValues => Verification.mk false "" "view_function"
      | Registry.ViewThrows =>
          (* Method 3: Fallback - assume treasure exists if we can't verify *)
          Verification.mk true "" "permissive_fallback"
      end.

(** [SuiService.isValidAddress] *)
Definition isValidAddress (address : string) : bool := hex0xRegex address.

(** [verifyLocation(userLat, userLng, treasureLat, treasureLng, tolerance = 100)] *)
Definition verifyLocation (userLat userLng treasureLat treasureLng : number)
           (tolerance : option number) : bool :=
  let tolerance := match tolerance with Some t => t | None => Num 100 end in
  let distance := calculateDistance userLat userLng treasureLat treasureLng in
  ge tolerance distance.

(** ** [GET /verify/:treasureId] *)

Module Verify.
(** The [data] of the answer; a [null] is the empty string, and 0 for the
    rarity. *)
Record t := mk {
  treasureId : string;
  database_exists : bool;
  database_active : bool;
  database_name : string;
  database_rarity : N;
  blockchain_exists : bool;
  blockchain_verified : bool;
  blockchain_error : string;
  discovered : bool;
  discoveredBy : string;
  discoveredAt : option Z;
  nftObjectId : string;
  canHunt : bool
}.
End Verify.

Inductive VerifyResponse : Type :=
| VerifyFailed (error : string)                      (* 500 Failed to verify treasure *)
| Verified (data : Verify.t).

Definition is_some {A : Type} (r : option A) : bool := negb (is_null r).

(** [suiService] is what [new SuiService()] gives: the registry as the
    service sees it, or the error the constructor throws. *)
Definition verify (suiService : Attempt Registry.t) (treasureId : string) (st : Store)
  : VerifyResponse :=
  (* Check database *)
  let dbTreasure := Treasure_findOne_active st treasureId in
  match suiService with
  | Throws error => VerifyFailed error
  | Returns registry =>
      let blockchainVerification := verifyTreasureInRegistry registry treasureId in
      (* Check if already discovered *)
      let discovery := TreasureDiscovery_findOne st treasureId in
      Verified
        (Verify.mk
           treasureId
           (is_some dbTreasure)
           (match dbTreasure with Some t => Treasure.isActive t | None => false end)
           (null_or dbTreasure Treasure.name)
           (match dbTreasure with Some t => Treasure.rarity t | None => 0%N end)
           (Verification.exists_ blockchainVerification)
           (Verification.exists_ blockchainVerification
            && negb (truthy (Verification.error blockchainVerification)))
           (Verification.error blockchainVerification)
           (is_some discovery)
           (null_or discovery TreasureDiscovery.userId)
           (option_map TreasureDiscovery.discoveredAt discovery)
           (null_or discovery TreasureDiscovery.nftObjectId)
           (is_some dbTreasure && Verification.exists_ blockchainVerification
            && negb (is_some discovery)))
  end.

(** ** The profile routes: standing of a hunter *)

Module StreakInfo.
Record t := mk {
  isActive : bool;
  daysSinceLastHunt : option Z;
  streakStatus : string;
  nextStreakAt : string
}.
End StreakInfo.

(** [now] is the reading of the clock. *)
Definition calculateStreakInfo (now : Z) (hunterProfile : HunterProfile.t) : StreakInfo.t :=
  match HunterProfile.lastHuntTimestamp hunterProfile with
  | None => StreakInfo.mk false None "No hunts yet" ""
  | Some lastHunt =>
      let timeDiff := now - lastHunt in
      let daysDiff := timeDiff / (24 * 60 * 60 * 1000) in
      let isActive := daysDiff <=? 1 in
      let streakStatus :=
        if isActive then
          if daysDiff =? 0 then "Active today" else "Active (yesterday)"
        else "Streak broken" in
      StreakInfo.mk isActive (Some daysDiff) streakStatus
                    (if isActive then "" else "Start hunting to begin new streak")
  end.

Module RankInfo.
(** [next] is empty and [nextRequirement] is 0 where the source has
    [null]. *)
Record t := mk {
  name : string;
  next : string;
  nextRequirement : N;
  color : string;
  progress : Q;
  treasuresUntilNext : N
}.
End RankInfo.

(** A rank that is no key of the table, the keys of [Object.prototype]
    apart, is read as 'beginner'. *)
Definition getRankInfo (rank : string) (treasuresFound : N) : RankInfo.t :=
  let '(name, next, nextRequirement, color) :=
    if String.eqb rank "explorer" then ("Explorer", "Hunter", 20%N, "#3b82f6")
    else if String.eqb rank "hunter" then ("Hunter", "Master", 50%N, "#8b5cf6")
    else if String.eqb rank "master" then ("Master", "", 0%N, "#f59e0b")
    else ("Beginner", "Explorer", 5%N, "#10b981") in
  RankInfo.mk name next nextRequirement color
    (if (nextRequirement =? 0)%N then 100%Q
     else
       let percent :=
         (inject_Z (Z.of_N treasuresFound) / inject_Z (Z.of_N nextRequirement) * 100)%Q in
       if Qle_bool percent 100 then percent else 100%Q)
    (if (nextRequirement =? 0)%N then 0%N
     else Z.to_N (Z.max (Z.of_N nextRequirement - Z.of_N treasuresFound) 0)).

(** The filter of [HunterProfile.countDocuments] in
    [getLeaderboardPosition]: a higher score, or the same score and more
    treasures. *)
Definition countDocuments_ahead (userProfile : HunterProfile.t) (coll : list HunterProfile.t)
  : N :=
  N.of_nat
    (List.length
       (filter (fun q =>
                  (HunterProfile.totalScore userProfile <? HunterProfile.totalScore q)%N
                  || ((HunterProfile.totalScore q =? HunterProfile.totalScore userProfile)%N
                      && (HunterProfile.totalTreasuresFound userProfile
                          <? HunterProfile.totalTreasuresFound q)%N))
               coll)).

Definition getLeaderboardPosition (st : Store) (userId : string) : option N :=
  match HunterProfile_findOne st userId with
  | None => None
  | Some userProfile => Some (countDocuments_ahead userProfile (hunterProfiles st) + 1)%N
  end.

(** ** Further scenes *)

Module Scenes.
(** The Old Quarter treasure as [newTreasure.save()] stores it: the schema
    has no [latitude] and no [longitude] path. *)
Definition stored_old_quarter : Treasure.t :=
  Treasure.mk "hanoi_old_quarter_001" "Old Quarter Ancient Merchant's Cache"
              NaN NaN (Num 105.8520, Num 21.0351)
              1 150 1 true false.

Definition schema_store : Store :=
  mkStore [stored_old_quarter] []
          [World.alice_profile; World.carol_profile]
          [World.alice; World.bob; World.carol].

(** [carol] asks for the treasures around the Old Quarter one, and claims
    the North Gate treasure on the spot. *)
Definition carol_here : NearbyQuery.t :=
  NearbyQuery.mk "carol" (Num 21.0351) (Num 105.8520) None.

Definition claim_north_gate (userId : string) : Request.t :=
  Request.mk userId "hanoi_north_gate_001" (Num 21.0400) (Num 105.8520)
             "gps_verified" "" "".

(** A chain that mints, and reports an object id that is no Sui object
    id. *)
Definition short_id : Sui.t :=
  Sui.mk "" 1000000000 "0xregistry"
         (Sui.Mints "0xabc" "4d31TeYDEzPbwGXKYejrs154daGkDo56jm1ACt2w7HRd" (Some 42)).

(** The store after an offline claim of the Old Quarter treasure that the
    second variant stamped at [World.env]. *)
Definition stamped : Store :=
  mkStore [World.old_quarter; World.dong_xuan]
          [TreasureDiscovery.mk "d_old_quarter" "alice" "hanoi_old_quarter_001"
             "offline_hanoi_old_quarter_001_1700172800000" "offline_tx_1700172800000"
             (Num 21.0351) (Num 105.8520) "" "" 1700172800000 (Num 0)
             None (Some false) true (Some false) 1700172800000]
          [World.alice_progressed; World.carol_profile]
          [World.alice; World.bob; World.carol].
End Scenes.

(** ** Stores as the treasure schema holds them *)

(** [treasureSchema] declares [location.coordinates] and neither a
    [latitude] nor a [longitude] path: a treasure document read from the
    collection answers [undefined] under both names, whatever was given to
    [new Treasure(...)] (see [Treasure_save]). *)
Definition stored_by_the_schema (st : Store) : Prop :=
  Forall (fun t => Treasure.latitude t = NaN /\ Treasure.longitude t = NaN)
         (treasures st).

(** The contract of [$near]: the index answers nearest first, by whatever
    distance [metres] it measures from the query point to the
    [location] of a treasure. *)
Definition nearest_first (metres : string -> R) (geoNear : list string) : Prop :=
  StronglySorted (fun a b => (metres a <= metres b)%R) geoNear.

(** The order of the entries of an answer by that distance. *)
Definition in_ascending_distance (metres : string -> R) (l : list Nearby.t) : Prop :=
  StronglySorted (fun a b => (metres (Nearby.treasureId a) <= metres (Nearby.treasureId b))%R) l.

(** ** The stores that claims lead to

    Requests of either variant of [POST /discover], commits that read their
    checks from an earlier store, and the routes that leave the treasures
    and the discoveries alone; no reseeding and no change of a treasure by an
    administrator. *)
Inductive claim_step : Store -> Store -> Prop :=
| claim_discover_v1 env req st :
    claim_step st (snd (discover_v1 env req st))
| claim_discover_v2 env req st :
    claim_step st (snd (discover_v2 env req st))
| claim_commit_v1 env req st0 c st :
    checks_v1 req st0 = inr c ->
    claim_step st (snd (commit_v1 env req c (callChain_v1 env (Checked.user c)) st))
| claim_commit_v2 env req st0 c discoveryResult st :
    checks_v2 req st0 = inr c ->
    callChain_v2 env (Checked.user c) = inr discoveryResult ->
    claim_step st (snd (commit_v2 env req c discoveryResult st))
| claim_other st st' :
    treasures st' = treasures st ->
    discoveries st' = discoveries st ->
    claim_step st st'.

Inductive after_claims : Store -> Store -> Prop :=
| after_no_claim st : after_claims st st
| after_a_claim st st' st'' :
    after_claims st st' -> claim_step st' st'' -> after_claims st st''.

(** A later store that holds every treasure and every discovery of an
    earlier one, unchanged and in their order, and what was appended since:
    nothing was deleted, no treasure was changed. *)
Definition only_appended (st st' : Store) : Prop :=
  (exists added, treasures st' = treasures st ++ added)
  /\ (exists added, discoveries st' = discoveries st ++ added).

(** ** Scenes on a store of the schema *)

Module Schema.
Definition dong_xuan : Treasure.t :=
  Treasure.mk "hanoi_dong_xuan_001" "Dong Xuan Market Trader's Fortune"
              NaN NaN (Num 105.8500, Num 21.0380)
              1 120 1 true false.

Definition north_gate : Treasure.t :=
  Treasure.mk "hanoi_north_gate_001" "North Gate Sentinel's Seal"
              NaN NaN (Num 105.8520, Num 21.0400)
              2 300 2 true false.

(** The lane of [World.lane], its three treasures read from the
    collection. *)
Definition lane : Store :=
  mkStore [Scenes.stored_old_quarter; dong_xuan; north_gate]
          (discoveries World.lane)
          [World.alice_profile; World.carol_profile]
          [World.alice; World.bob; World.carol].

(** Metres from the Old Quarter treasure to the three treasures of the
    lane, to the metre. *)
Definition metres_from_here (treasureId : string) : R :=
  if String.eqb treasureId "hanoi_old_quarter_001" then 0%R
  else if String.eqb treasureId "hanoi_dong_xuan_001" then 383%R
  else 545%R.

End Schema.

(* ------------------------------------------------------------------ *)
(** * Properties *)

Section Distance.
Open Scope R_scope.

Lemma atan2_0_1 : atan2 0 1 = 0.
Proof.
  unfold atan2.
  destruct (Rlt_dec 0 1) as [_ | H]; [| lra].
  replace (0 / 1) with 0 by field.
  apply atan_0.
Qed.

Lemma calculateDistance_same (lat lng : R) :
  calculateDistance (Num lat) (Num lng) (Num lat) (Num lng) = Num 0.
Proof.
  unfold calculateDistance, Math_sin, Math_cos, Math_PI, Math_atan2. cbn [lift1 lift2].
  replace ((lat - lat) * PI / 180 / 2) with 0 by field.
  replace ((lng - lng) * PI / 180 / 2) with 0 by field.
  rewrite sin_0.
  replace (0 * 0 + cos (lat * PI / 180) * cos (lat * PI / 180) * 0 * 0) with 0 by ring.
  unfold Math_sqrt.
  destruct (Rlt_dec 0 0) as [H | _]; [lra |].
  replace (1 - 0) with 1 by ring.
  destruct (Rlt_dec 1 0) as [H | _]; [lra |].
  cbn [lift2]. rewrite sqrt_0, sqrt_1, atan2_0_1.
  f_equal. ring.
Qed.

Lemma calculateDistance_sym (lat1 lng1 lat2 lng2 : number) :
  calculateDistance lat1 lng1 lat2 lng2 = calculateDistance lat2 lng2 lat1 lng1.
Proof.
  destruct lat1 as [| a1], lng1 as [| b1], lat2 as [| a2], lng2 as [| b2];
    try reflexivity.
  unfold calculateDistance, Math_sin, Math_cos, Math_PI. cbn [lift1 lift2].
  replace ((a1 - a2) * PI / 180 / 2) with (- ((a2 - a1) * PI / 180 / 2)) by field.
  replace ((b1 - b2) * PI / 180 / 2) with (- ((b2 - b1) * PI / 180 / 2)) by field.
  rewrite !sin_neg.
  set (s := sin ((a2 - a1) * PI / 180 / 2)).
  set (t := sin ((b2 - b1) * PI / 180 / 2)).
  replace (- s * - s + cos (a2 * PI / 180) * cos (a1 * PI / 180) * - t * - t)
    with (s * s + cos (a1 * PI / 180) * cos (a2 * PI / 180) * t * t) by ring.
  reflexivity.
Qed.


(** A coordinate that is not a number makes the distance [NaN], and [NaN]
    is not greater than the tolerance. *)
Lemma calculateDistance_NaN (lat1 lng1 lat2 lng2 : number) :
  lat1 = NaN \/ lng1 = NaN \/ lat2 = NaN \/ lng2 = NaN ->
  calculateDistance lat1 lng1 lat2 lng2 = NaN
  /\ gt (calculateDistance lat1 lng1 lat2 lng2) (Num 100) = false.
Proof.
  intros H.
  assert (E : calculateDistance lat1 lng1 lat2 lng2 = NaN).
  { destruct lat1, lng1, lat2, lng2; try reflexivity;
      destruct H as [H | [H | [H | H]]]; discriminate H. }
  rewrite E. split; reflexivity.
Qed.


End Distance.

(** ** The discovery ledger *)

Section Ledger.

Lemma save_inr d coll coll' :
  TreasureDiscovery_save d coll = inr coll' ->
  coll' = coll ++ [d]
  /\ TreasureDiscovery_validate d = []
  /\ TreasureDiscovery_duplicate d coll = None.
Proof.
  unfold TreasureDiscovery_save.
  destruct (TreasureDiscovery_validate d) as [| e es]; [| discriminate].
  destruct (TreasureDiscovery_duplicate d coll) as [[index key] |]; [discriminate |].
  intros H. injection H as <-. auto.
Qed.

Lemma duplicate_None d coll :
  TreasureDiscovery_duplicate d coll = None ->
  existsb (fun x => String.eqb (TreasureDiscovery._id x) (TreasureDiscovery._id d)) coll = false
  /\ existsb (fun x => String.eqb (TreasureDiscovery.treasureId x)
                                  (TreasureDiscovery.treasureId d)) coll = false
  /\ existsb (fun x => String.eqb (TreasureDiscovery.nftObjectId x)
                                  (TreasureDiscovery.nftObjectId d)) coll = false
  /\ existsb (fun x => String.eqb (TreasureDiscovery.transactionDigest x)
                                  (TreasureDiscovery.transactionDigest d)) coll = false.
Proof.
  unfold TreasureDiscovery_duplicate.
  repeat match goal with
         | |- context [if existsb ?f ?l then _ else _] =>
             destruct (existsb f l) eqn:?; [discriminate |]
         end.
  auto.
Qed.

Lemma existsb_false_filter {A : Type} (p : A -> bool) (l : list A) :
  existsb p l = false -> filter p l = [].
Proof.
  induction l as [| x l IH]; cbn; [reflexivity |].
  destruct (p x); cbn; [discriminate | exact IH].
Qed.

(** The insert of the ledger keeps a field unique when the field has a
    unique index, whatever was checked before the insert. *)
Lemma save_unique_on f d coll coll' :
  (TreasureDiscovery_duplicate d coll = None ->
   existsb (fun x => String.eqb (f x) (f d)) coll = false) ->
  unique_on f coll ->
  TreasureDiscovery_save d coll = inr coll' ->
  unique_on f coll'.
Proof.
  intros Hindex Hinv Hsave key.
  apply save_inr in Hsave as (-> & _ & Hdup).
  apply Hindex in Hdup.
  rewrite filter_app, length_app. cbn [filter].
  destruct (String.eqb (f d) key) eqn:E.
  - apply String.eqb_eq in E. subst key.
    rewrite (existsb_false_filter _ _ Hdup). cbn. lia.
  - cbn. specialize (Hinv key). lia.
Qed.

Lemma save_at_most_once d coll coll' :
  at_most_once coll ->
  TreasureDiscovery_save d coll = inr coll' ->
  at_most_once coll'.
Proof.
  apply save_unique_on. intros Hdup. apply duplicate_None in Hdup. tauto.
Qed.

Lemma commit_v1_discoveries env req c discoveryResult st :
  discoveries (snd (commit_v1 env req c discoveryResult st)) = discoveries st
  \/ exists d, TreasureDiscovery_save d (discoveries st)
               = inr (discoveries (snd (commit_v1 env req c discoveryResult st))).
Proof.
  unfold commit_v1.
  match goal with
  | |- context [TreasureDiscovery_save ?d ?l] =>
      destruct (TreasureDiscovery_save d l) as [e | saved] eqn:E
  end.
  - left. reflexivity.
  - right. eexists. rewrite E. destruct (Checked.hunterProfile c); reflexivity.
Qed.

Lemma commit_v2_discoveries env req c discoveryResult st :
  discoveries (snd (commit_v2 env req c discoveryResult st)) = discoveries st
  \/ exists d, TreasureDiscovery_save d (discoveries st)
               = inr (discoveries (snd (commit_v2 env req c discoveryResult st))).
Proof.
  unfold commit_v2.
  match goal with
  | |- context [TreasureDiscovery_save ?d ?l] =>
      destruct (TreasureDiscovery_save d l) as [e | saved] eqn:E
  end.
  - left. reflexivity.
  - right. eexists. rewrite E.
    destruct (Checked.hunterProfile c); [| reflexivity].
    destruct (Treasure.fromBlockchain (Checked.treasure c)); [| reflexivity].
    match goal with
    | |- context [Treasure_save ?t ?l] => destruct (Treasure_save t l)
    end; reflexivity.
Qed.

Lemma step_unique_on f st st' :
  (forall d coll,
      TreasureDiscovery_duplicate d coll = None ->
      existsb (fun x => String.eqb (f x) (f d)) coll = false) ->
  step st st' -> unique_on f (discoveries st) -> unique_on f (discoveries st').
Proof.
  intros Hindex Hstep Hinv.
  assert (Hkeep : forall s : Store,
             discoveries s = discoveries st
             \/ (exists d, TreasureDiscovery_save d (discoveries st) = inr (discoveries s)) ->
             unique_on f (discoveries s)).
  { intros s [-> | [d Hd]]; [exact Hinv |].
    exact (save_unique_on f d _ _ (Hindex d _) Hinv Hd). }
  destruct Hstep as [env req st | env req st | env req st0 c st _
                    | env req st0 c discoveryResult st _ _ | st | st st' Hsame].
  - unfold discover_v1. destruct (checks_v1 req st); [exact Hinv |].
    apply Hkeep, commit_v1_discoveries.
  - unfold discover_v2. destruct (checks_v2 req st); [exact Hinv |].
    destruct (callChain_v2 env _); [exact Hinv |].
    apply Hkeep, commit_v2_discoveries.
  - apply Hkeep, commit_v1_discoveries.
  - apply Hkeep, commit_v2_discoveries.
  - intros key. cbn. lia.
  - rewrite Hsame. exact Hinv.
Qed.

Lemma reachable_unique_on f st :
  (forall d coll,
      TreasureDiscovery_duplicate d coll = None ->
      existsb (fun x => String.eqb (f x) (f d)) coll = false) ->
  reachable st -> unique_on f (discoveries st).
Proof.
  intros Hindex Hreach. induction Hreach as [st Hempty | st st' _ IH Hstep].
  - rewrite Hempty. intros key. cbn. lia.
  - exact (step_unique_on f st st' Hindex Hstep IH).
Qed.

End Ledger.

(** ** Running the checks *)

Section Checks.
Open Scope R_scope.

Lemma ge_true a b : b <= a -> ge (Num a) (Num b) = true.
Proof. intros H. unfold ge. destruct (Rle_dec b a); [reflexivity | contradiction]. Qed.

Lemma gt_false a b : a <= b -> gt (Num a) (Num b) = false.
Proof. intros H. unfold gt. destruct (Rlt_dec b a); [lra | reflexivity]. Qed.

Lemma gt_true a b : b < a -> gt (Num a) (Num b) = true.
Proof. intros H. unfold gt. destruct (Rlt_dec b a); [reflexivity | contradiction]. Qed.

Lemma gt_spec (x y : number) :
  gt x y = true <-> exists a b, x = Num a /\ y = Num b /\ a > b.
Proof.
  split.
  - destruct x as [| a], y as [| b]; cbn; try discriminate.
    destruct (Rlt_dec b a); [| discriminate]. intros _. exists a, b. auto.
  - intros (a & b & -> & -> & H). apply gt_true. exact H.
Qed.

Lemma in_range_true lo hi a : lo <= a <= hi -> in_range lo hi (Num a) = true.
Proof. intros [H1 H2]. unfold in_range. rewrite !ge_true by assumption. reflexivity. Qed.

Lemma validationResult_true req lat lng :
  Request.latitude req = Num lat -> Request.longitude req = Num lng ->
  -90 <= lat <= 90 -> -180 <= lng <= 180 ->
  truthy (Request.treasureId req) = true ->
  truthy (Request.locationProof req) = true ->
  validationResult req = true.
Proof.
  intros Hlat Hlng Rlat Rlng Hid Hproof. unfold validationResult.
  rewrite Hlat, Hlng, Hid, Hproof, !in_range_true by assumption. reflexivity.
Qed.

(** The checks of the first variant, when they all pass. *)
Lemma checks_v1_pass req st treasure user :
  validationResult req = true ->
  Treasure_findOne_active st (Request.treasureId req) = Some treasure ->
  TreasureDiscovery_findOne st (Request.treasureId req) = None ->
  gt (calculateDistance (Request.latitude req) (Request.longitude req)
                        (Treasure.latitude treasure) (Treasure.longitude treasure))
     (Num 100) = false ->
  (getRankNumber (rank_or_beginner (HunterProfile_findOne st (Request.userId req)))
   <? Treasure.requiredRank treasure)%N = false ->
  User_findById st (Request.userId req) = Some user ->
  checks_v1 req st =
  inr (Checked.mk treasure
         (calculateDistance (Request.latitude req) (Request.longitude req)
                            (Treasure.latitude treasure) (Treasure.longitude treasure))
         (HunterProfile_findOne st (Request.userId req)) user).
Proof.
  intros Hvalid Htreasure Hnone Hnear Hrank Huser. unfold checks_v1.
  rewrite Hvalid, Htreasure, Hnone, Hnear, Hrank, Huser. reflexivity.
Qed.

(** The checks of the second variant, when they all pass. *)
Lemma checks_v2_pass req st hunterProfile user :
  validationResult req = true ->
  TreasureDiscovery_findOne st (Request.treasureId req) = None ->
  gt (calculateDistance (Request.latitude req) (Request.longitude req)
                        (Treasure.latitude (resolveTreasure_v2 req st))
                        (Treasure.longitude (resolveTreasure_v2 req st)))
     (Num 100) = false ->
  HunterProfile_findOne st (Request.userId req) = Some hunterProfile ->
  (getRankNumber (or_else (HunterProfile.rank hunterProfile) "beginner")
   <? Treasure.requiredRank (resolveTreasure_v2 req st))%N = false ->
  User_findById st (Request.userId req) = Some user ->
  checks_v2 req st =
  inr (Checked.mk (resolveTreasure_v2 req st)
         (calculateDistance (Request.latitude req) (Request.longitude req)
                            (Treasure.latitude (resolveTreasure_v2 req st))
                            (Treasure.longitude (resolveTreasure_v2 req st)))
         (Some hunterProfile) user).
Proof.
  intros Hvalid Hnone Hnear Hprofile Hrank Huser. unfold checks_v2.
  rewrite Hvalid, Hnone. cbn [negb]. cbv zeta.
  rewrite Hnear, Hprofile, Hrank, Huser. reflexivity.
Qed.

Lemma world_claim_valid userId : validationResult (World.claim userId) = true.
Proof.
  apply (validationResult_true _ 21.0351 105.8520); try reflexivity; lra.
Qed.

Lemma world_checks_v1 userId user :
  User_findById World.store userId = Some user ->
  checks_v1 (World.claim userId) World.store =
  inr (Checked.mk World.old_quarter (Num 0)
                  (HunterProfile_findOne World.store userId) user).
Proof.
  intros Huser.
  rewrite (checks_v1_pass _ _ World.old_quarter user).
  - cbn [World.claim World.old_quarter Request.latitude Request.longitude
           Treasure.latitude Treasure.longitude Request.userId].
    rewrite calculateDistance_same. reflexivity.
  - apply world_claim_valid.
  - reflexivity.
  - reflexivity.
  - cbn [World.claim World.old_quarter Request.latitude Request.longitude
           Treasure.latitude Treasure.longitude].
    rewrite calculateDistance_same. apply gt_false. lra.
  - cbn [World.old_quarter Treasure.requiredRank].
    apply N.ltb_ge.
    unfold getRankNumber.
    repeat match goal with |- context [if ?b then _ else _] => destruct b end; lia.
  - exact Huser.
Qed.

End Checks.

(** ** What a passed check and a successful commit tell *)

Section Inversion.

Lemma checks_v1_inr req st c :
  checks_v1 req st = inr c ->
  validationResult req = true
  /\ Treasure_findOne_active st (Request.treasureId req) = Some (Checked.treasure c)
  /\ TreasureDiscovery_findOne st (Request.treasureId req) = None
  /\ Checked.distance c =
     calculateDistance (Request.latitude req) (Request.longitude req)
                       (Treasure.latitude (Checked.treasure c))
                       (Treasure.longitude (Checked.treasure c))
  /\ gt (Checked.distance c) (Num 100) = false
  /\ Checked.hunterProfile c = HunterProfile_findOne st (Request.userId req)
  /\ User_findById st (Request.userId req) = Some (Checked.user c).
Proof.
  unfold checks_v1.
  destruct (validationResult req); [| discriminate].
  destruct (Treasure_findOne_active st _) as [treasure |]; [| discriminate].
  destruct (TreasureDiscovery_findOne st _); [discriminate |].
  cbn [negb]. cbv zeta.
  destruct (gt _ (Num 100)) eqn:Hnear; [discriminate |].
  destruct (_ <? _)%N; [discriminate |].
  destruct (User_findById st _) as [user |]; [| discriminate].
  intros H. injection H as <-. cbn. auto 10.
Qed.

Lemma checks_v2_inr req st c :
  checks_v2 req st = inr c ->
  validationResult req = true
  /\ Checked.treasure c = resolveTreasure_v2 req st
  /\ TreasureDiscovery_findOne st (Request.treasureId req) = None
  /\ Checked.distance c =
     calculateDistance (Request.latitude req) (Request.longitude req)
                       (Treasure.latitude (Checked.treasure c))
                       (Treasure.longitude (Checked.treasure c))
  /\ gt (Checked.distance c) (Num 100) = false
  /\ (exists hunterProfile,
         Checked.hunterProfile c = Some hunterProfile
         /\ HunterProfile_findOne st (Request.userId req) = Some hunterProfile)
  /\ User_findById st (Request.userId req) = Some (Checked.user c).
Proof.
  unfold checks_v2.
  destruct (validationResult req); [| discriminate].
  destruct (TreasureDiscovery_findOne st _); [discriminate |].
  cbn [negb]. cbv zeta.
  destruct (gt _ (Num 100)) eqn:Hnear; [discriminate |].
  destruct (HunterProfile_findOne st _) as [hunterProfile |]; [| discriminate].
  destruct (_ <? _)%N; [discriminate |].
  destruct (User_findById st _) as [user |]; [| discriminate].
  intros H. injection H as <-. cbn. eauto 12.
Qed.

Lemma catch_v1_not_Discovered error report : catch_v1 error <> Discovered report.
Proof.
  unfold catch_v1.
  repeat match goal with |- context [if ?b then _ else _] => destruct b end;
    discriminate.
Qed.

Lemma updateHunterRank_userId p :
  HunterProfile.userId (updateHunterRank p) = HunterProfile.userId p.
Proof.
  unfold updateHunterRank.
  repeat match goal with |- context [if ?b then _ else _] => destruct b end;
    reflexivity.
Qed.

Lemma updateHunterProfile_userId env rewardPoints p :
  HunterProfile.userId (updateHunterProfile env rewardPoints p) = HunterProfile.userId p.
Proof.
  unfold updateHunterProfile. cbv zeta. rewrite updateHunterRank_userId.
  repeat match goal with |- context [if ?b then _ else _] => destruct b end;
    reflexivity.
Qed.

(** A saved profile is the one a later [findOne] of its player returns. *)
Lemma findOne_after_save coll userId p p' :
  find (fun q => String.eqb (HunterProfile.userId q) userId) coll = Some p ->
  HunterProfile.userId p' = HunterProfile.userId p ->
  find (fun q => String.eqb (HunterProfile.userId q) userId) (HunterProfile_save p' coll)
  = Some p'.
Proof.
  intros Hfind Hid.
  assert (Hp : HunterProfile.userId p = userId).
  { apply find_some in Hfind as [_ H]. apply String.eqb_eq in H. exact H. }
  assert (Hp' : HunterProfile.userId p' = userId) by congruence.
  unfold HunterProfile_save. rewrite Hp'. clear Hid Hp.
  induction coll as [| q coll IH]; [discriminate |].
  cbn in Hfind |- *.
  destruct (String.eqb (HunterProfile.userId q) userId) eqn:E.
  - cbn. rewrite Hp', String.eqb_refl. reflexivity.
  - cbn. rewrite E. apply IH. exact Hfind.
Qed.

(** A first-variant commit that answers 200 wrote the discovery and put
    the progressed profile in place of the one the checks read. *)
Lemma commit_v1_Discovered env req c discoveryResult st report st' :
  commit_v1 env req c discoveryResult st = (Discovered report, st') ->
  exists hunterProfile d,
    Checked.hunterProfile c = Some hunterProfile
    /\ TreasureDiscovery_save d (discoveries st) = inr (discoveries st')
    /\ TreasureDiscovery.treasureId d = Request.treasureId req
    /\ TreasureDiscovery.offline d = is_null discoveryResult
    /\ hunterProfiles st' =
       HunterProfile_save
         (updateHunterProfile env (Treasure.rewardPoints (Checked.treasure c)) hunterProfile)
         (hunterProfiles st)
    /\ Report.hunter report =
       profileReport hunterProfile
         (updateHunterProfile env (Treasure.rewardPoints (Checked.treasure c)) hunterProfile)
         (Treasure.rewardPoints (Checked.treasure c)).
Proof.
  unfold commit_v1. cbv zeta.
  match goal with
  | |- context [TreasureDiscovery_save ?d ?l] =>
      destruct (TreasureDiscovery_save d l) as [e | saved] eqn:E
  end.
  - intros H. injection H as H _. exfalso. exact (catch_v1_not_Discovered _ _ H).
  - destruct (Checked.hunterProfile c) as [hunterProfile |].
    + intros H. injection H as <- <-.
      eexists. eexists. split; [reflexivity |]. split; [exact E |]. cbn. auto.
    + intros H. injection H as H _. exfalso. exact (catch_v1_not_Discovered _ _ H).
Qed.

Lemma commit_v2_Discovered env req c discoveryResult st report st' :
  commit_v2 env req c discoveryResult st = (Discovered report, st') ->
  exists hunterProfile d,
    Checked.hunterProfile c = Some hunterProfile
    /\ TreasureDiscovery_save d (discoveries st) = inr (discoveries st')
    /\ TreasureDiscovery.treasureId d = Request.treasureId req
    /\ TreasureDiscovery.offline d = is_null discoveryResult
    /\ hunterProfiles st' =
       HunterProfile_save
         (updateHunterProfile env (Treasure.rewardPoints (Checked.treasure c)) hunterProfile)
         (hunterProfiles st)
    /\ Report.hunter report =
       profileReport hunterProfile
         (updateHunterProfile env (Treasure.rewardPoints (Checked.treasure c)) hunterProfile)
         (Treasure.rewardPoints (Checked.treasure c)).
Proof.
  unfold commit_v2. cbv zeta.
  match goal with
  | |- context [TreasureDiscovery_save ?d ?l] =>
      destruct (TreasureDiscovery_save d l) as [e | saved] eqn:E
  end.
  - discriminate.
  - destruct (Checked.hunterProfile c) as [hunterProfile |]; [| discriminate].
    intros H. injection H as <- <-.
    eexists. eexists. split; [reflexivity |]. split.
    + rewrite E. f_equal.
      destruct (Treasure.fromBlockchain (Checked.treasure c)); [| reflexivity].
      match goal with
      | |- context [Treasure_save ?t ?l] => destruct (Treasure_save t l)
      end; reflexivity.
    + cbn [TreasureDiscovery.treasureId TreasureDiscovery.offline Report.hunter].
      rewrite negb_involutive.
      repeat split; try reflexivity.
      destruct (Treasure.fromBlockchain (Checked.treasure c)); [| reflexivity].
      match goal with
      | |- context [Treasure_save ?t ?l] => destruct (Treasure_save t l)
      end; reflexivity.
Qed.

End Inversion.

(** ** The world at work *)

Section WorldRuns.

Lemma world_checks_v2 userId hunterProfile user :
  HunterProfile_findOne World.store userId = Some hunterProfile ->
  User_findById World.store userId = Some user ->
  checks_v2 (World.claim userId) World.store =
  inr (Checked.mk World.old_quarter (Num 0) (Some hunterProfile) user).
Proof.
  intros Hprofile Huser.
  rewrite (checks_v2_pass _ _ hunterProfile user).
  - change (resolveTreasure_v2 (World.claim userId) World.store) with World.old_quarter.
    cbn [World.claim World.old_quarter Request.latitude Request.longitude
           Treasure.latitude Treasure.longitude Request.userId].
    rewrite calculateDistance_same. reflexivity.
  - apply world_claim_valid.
  - reflexivity.
  - change (resolveTreasure_v2 (World.claim userId) World.store) with World.old_quarter.
    cbn [World.claim World.old_quarter Request.latitude Request.longitude
           Treasure.latitude Treasure.longitude].
    rewrite calculateDistance_same. apply gt_false. lra.
  - exact Hprofile.
  - change (resolveTreasure_v2 (World.claim userId) World.store) with World.old_quarter.
    cbn [World.old_quarter Treasure.requiredRank].
    apply N.ltb_ge.
    unfold getRankNumber.
    repeat match goal with |- context [if ?b then _ else _] => destruct b end; lia.
  - exact Huser.
Qed.

Lemma alice_discovers_v1 :
  exists report d,
    discover_v1 (World.env World.timeout) (World.claim "alice") World.store
    = (Discovered report,
       mkStore (treasures World.store) [d]
               [World.alice_progressed; World.carol_profile] (users World.store))
    /\ Report.hunter report
       = profileReport World.alice_profile World.alice_progressed 150
    /\ TreasureDiscovery.treasureId d = "hanoi_old_quarter_001"
    /\ TreasureDiscovery.transactionDigest d = "offline_transaction"
    /\ TreasureDiscovery.offline d = true.
Proof.
  unfold discover_v1.
  rewrite (world_checks_v1 "alice" World.alice eq_refl).
  eexists. eexists. split; [reflexivity |]. repeat split.
Qed.

Lemma alice_discovers_v2 :
  exists report d,
    discover_v2 (World.env World.timeout) (World.claim "alice") World.store
    = (Discovered report,
       mkStore (treasures World.store) [d]
               [World.alice_progressed; World.carol_profile] (users World.store))
    /\ Report.hunter report
       = profileReport World.alice_profile World.alice_progressed 150
    /\ TreasureDiscovery.treasureId d = "hanoi_old_quarter_001"
    /\ TreasureDiscovery.transactionDigest d = "offline_tx_1700172800000"
    /\ TreasureDiscovery.offline d = true.
Proof.
  unfold discover_v2.
  rewrite (world_checks_v2 "alice" World.alice_profile World.alice eq_refl eq_refl).
  eexists. eexists. split; [reflexivity |]. repeat split.
Qed.

End WorldRuns.

(** ** C1: at most one discovery per treasure *)

(** C1.  In every state the discovery store can reach there is at most one
    discovery per treasure id.  The states are those of [reachable]: the
    two [POST /discover] handlers, a commit whose checks ran on an earlier
    store (a concurrent claim), the seeding script and the routes that only
    read the discoveries.  The proof rests on the unique index of
    [TreasureDiscovery_save] alone ([save_at_most_once]); the existence
    check of step 2 is not used. *)
Theorem discovery_at_most_once :
  forall st : Store, reachable st -> at_most_once (discoveries st).
Proof.
  intros st Hreach. apply reachable_unique_on; [| exact Hreach].
  intros d coll Hdup. apply duplicate_None in Hdup. tauto.
Qed.

Lemma raced_store_reachable : reachable World.raced_store.
Proof.
  apply (reachable_step World.first_commit).
  - apply (reachable_step World.store).
    + apply reachable_init. reflexivity.
    + exact (step_commit_v1 _ _ World.store _ _ (world_checks_v1 "alice" World.alice eq_refl)).
  - exact (step_commit_v1 _ _ World.store _ _ (world_checks_v1 "carol" World.carol eq_refl)).
Qed.

Lemma discovery_at_most_once_witness :
  reachable World.raced_store /\ at_most_once (discoveries World.raced_store).
Proof.
  split.
  - exact raced_store_reachable.
  - exact (discovery_at_most_once World.raced_store raced_store_reachable).
Defined.

(** In that race the second insert is refused by the index on [treasureId]
    and the store keeps the discovery of [alice] only. *)
Example raced_store_has_one :
  fst (commit_v1 (World.later World.timeout) (World.claim "carol")
         (Checked.mk World.old_quarter (Num 0)
                     (HunterProfile_findOne World.store "carol") World.carol)
         (callChain_v1 (World.later World.timeout) World.carol) World.first_commit)
  = ServerError
      "E11000 duplicate key error index: treasureId_1 dup key: hanoi_old_quarter_001"
  /\ map TreasureDiscovery.userId (discoveries World.raced_store) = ["alice"].
Proof. split; reflexivity. Qed.

(** ** C2: the streak *)

Section Streak.

(** [lastHuntTimestamp] is overwritten before [timeDiff] reads it: the
    difference is the time between two successive readings of the clock. *)
Lemma updateHunterProfile_currentStreak env rewardPoints p :
  HunterProfile.currentStreak (updateHunterProfile env rewardPoints p)
  = if t_diff env - t_hunt env <=? 86400000
    then (HunterProfile.currentStreak p + 1)%N
    else 1%N.
Proof.
  unfold updateHunterProfile. cbv zeta.
  cbn [HunterProfile.lastHuntTimestamp HunterProfile.set_lastHuntTimestamp].
  replace (if t_hunt env =? 0 then 0 else t_hunt env) with (t_hunt env)
    by (destruct (Z.eqb_spec (t_hunt env) 0) as [-> |]; reflexivity).
  unfold updateHunterRank.
  repeat match goal with |- context [if ?b then _ else _] => destruct b end;
    reflexivity.
Qed.

Lemma updateHunterProfile_streak_increments env rewardPoints p :
  t_diff env - t_hunt env <= 86400000 ->
  HunterProfile.currentStreak (updateHunterProfile env rewardPoints p)
  = (HunterProfile.currentStreak p + 1)%N.
Proof.
  intros H. rewrite updateHunterProfile_currentStreak.
  destruct (Z.leb_spec (t_diff env - t_hunt env) 86400000); [reflexivity | lia].
Qed.

End Streak.

(** C2 (the code departs from the claim).  [alice] last hunted at
    1700000000000 with a streak of 5 and claims two days later, at
    1700172800000.  The streak law of the specification resets the streak
    to 1; the profile update of the handlers makes it 6, in the stored
    profile and in the response. *)
Theorem streak_survives_a_two_day_gap :
  let env := World.env World.timeout in
  let p := World.alice_profile in
  HunterProfile.lastHuntTimestamp p = Some 1700000000000
  /\ t_diff env - 1700000000000 > 86400000
  /\ HunterProfile.currentStreak p = 5%N
  /\ spec_streak (t_diff env) (HunterProfile.lastHuntTimestamp p)
                 (HunterProfile.currentStreak p) = 1%N
  /\ HunterProfile.currentStreak
       (updateHunterProfile env (Treasure.rewardPoints World.old_quarter) p) = 6%N
  /\ (exists report st',
         discover_v1 env (World.claim "alice") World.store = (Discovered report, st')
         /\ Report.currentStreak (Report.hunter report) = 6%N
         /\ option_map HunterProfile.currentStreak (HunterProfile_findOne st' "alice")
            = Some 6%N)
  /\ (exists report st',
         discover_v2 env (World.claim "alice") World.store = (Discovered report, st')
         /\ Report.currentStreak (Report.hunter report) = 6%N
         /\ option_map HunterProfile.currentStreak (HunterProfile_findOne st' "alice")
            = Some 6%N).
Proof.
  cbv zeta. repeat split; try reflexivity.
  - destruct alice_discovers_v1 as (report & d & Hrun & Hreport & _).
    eexists. eexists. split; [exact Hrun |]. rewrite Hreport. split; reflexivity.
  - destruct alice_discovers_v2 as (report & d & Hrun & Hreport & _).
    eexists. eexists. split; [exact Hrun |]. rewrite Hreport. split; reflexivity.
Qed.

(** ** C7: the rank *)

Section Rank.

Lemma updateHunterRank_total p :
  HunterProfile.totalTreasuresFound (updateHunterRank p)
  = HunterProfile.totalTreasuresFound p.
Proof.
  unfold updateHunterRank.
  repeat match goal with |- context [if ?b then _ else _] => destruct b end;
    reflexivity.
Qed.

Lemma updateHunterRank_cases p :
  let n := HunterProfile.totalTreasuresFound p in
  let r := HunterProfile.rank (updateHunterRank p) in
  ((50 <= n)%N /\ r = "master")
  \/ ((20 <= n < 50)%N /\ r = "hunter")
  \/ ((5 <= n < 20)%N /\ r = "explorer")
  \/ ((n < 5)%N /\ r = "beginner").
Proof.
  cbv zeta. unfold updateHunterRank.
  destruct (N.leb_spec 50 (HunterProfile.totalTreasuresFound p)); [left; auto |].
  destruct (N.leb_spec 20 (HunterProfile.totalTreasuresFound p)); [right; left; auto |].
  destruct (N.leb_spec 5 (HunterProfile.totalTreasuresFound p));
    [right; right; left; auto | right; right; right; auto].
Qed.

Lemma updateHunterRank_maximal p :
  maximal_rank (HunterProfile.totalTreasuresFound p)
               (getRankNumber (HunterProfile.rank (updateHunterRank p))).
Proof.
  unfold maximal_rank.
  destruct (updateHunterRank_cases p) as [[H ->] | [[H ->] | [[H ->] | [H ->]]]];
    cbn [getRankNumber String.eqb Ascii.eqb Bool.eqb getTreasuresNeededForRank];
    (split; [lia |]); (split; [cbn; lia |]);
    intros r' Hr' Hle;
    assert (Hcase : r' = 1%N \/ r' = 2%N \/ r' = 3%N \/ r' = 4%N) by lia;
    destruct Hcase as [-> | [-> | [-> | ->]]]; cbn in Hle; lia.
Qed.

(** The profile update ends with [updateHunterRank] on a profile that counts
    one treasure more. *)
Lemma updateHunterProfile_ranked env rewardPoints p :
  exists q,
    updateHunterProfile env rewardPoints p = updateHunterRank q
    /\ HunterProfile.totalTreasuresFound q = (HunterProfile.totalTreasuresFound p + 1)%N
    /\ HunterProfile.totalScore q = (HunterProfile.totalScore p + rewardPoints)%N.
Proof.
  unfold updateHunterProfile. cbv zeta.
  eexists. split; [reflexivity |].
  repeat match goal with |- context [if ?b then _ else _] => destruct b end;
    split; reflexivity.
Qed.

Lemma discover_v1_Discovered env req st report st' :
  discover_v1 env req st = (Discovered report, st') ->
  exists c hunterProfile,
    checks_v1 req st = inr c
    /\ HunterProfile_findOne st (Request.userId req) = Some hunterProfile
    /\ HunterProfile_findOne st' (Request.userId req)
       = Some (updateHunterProfile env (Treasure.rewardPoints (Checked.treasure c))
                                   hunterProfile)
    /\ Report.hunter report
       = profileReport hunterProfile
           (updateHunterProfile env (Treasure.rewardPoints (Checked.treasure c)) hunterProfile)
           (Treasure.rewardPoints (Checked.treasure c)).
Proof.
  unfold discover_v1.
  destruct (checks_v1 req st) as [response | c] eqn:Hchecks.
  - intros H. injection H as H _. subst response.
    exfalso. revert Hchecks. unfold checks_v1.
    repeat match goal with
           | |- context [match ?x with _ => _ end] => destruct x
           end; discriminate.
  - intros Hcommit.
    apply commit_v1_Discovered in Hcommit
      as (hunterProfile & d & Hsome & _ & _ & _ & Hprofiles & Hreport).
    apply checks_v1_inr in Hchecks as Hinv.
    destruct Hinv as (_ & _ & _ & _ & _ & Hfind & _).
    rewrite Hsome in Hfind. symmetry in Hfind.
    exists c, hunterProfile. repeat split; auto.
    unfold HunterProfile_findOne. rewrite Hprofiles.
    apply (findOne_after_save _ _ hunterProfile); [exact Hfind |].
    apply updateHunterProfile_userId.
Qed.

Lemma discover_v2_Discovered env req st report st' :
  discover_v2 env req st = (Discovered report, st') ->
  exists c hunterProfile,
    checks_v2 req st = inr c
    /\ HunterProfile_findOne st (Request.userId req) = Some hunterProfile
    /\ HunterProfile_findOne st' (Request.userId req)
       = Some (updateHunterProfile env (Treasure.rewardPoints (Checked.treasure c))
                                   hunterProfile)
    /\ Report.hunter report
       = profileReport hunterProfile
           (updateHunterProfile env (Treasure.rewardPoints (Checked.treasure c)) hunterProfile)
           (Treasure.rewardPoints (Checked.treasure c)).
Proof.
  unfold discover_v2.
  destruct (checks_v2 req st) as [response | c] eqn:Hchecks.
  - intros H. injection H as H _. subst response.
    exfalso. revert Hchecks. unfold checks_v2.
    repeat match goal with
           | |- context [match ?x with _ => _ end] => destruct x
           end; discriminate.
  - destruct (callChain_v2 env (Checked.user c)) as [response | discoveryResult] eqn:Hchain.
    + intros H. injection H as H _. subst response.
      exfalso. revert Hchain. unfold callChain_v2.
      repeat match goal with
             | |- context [match ?x with _ => _ end] => destruct x
             end; discriminate.
    + intros Hcommit.
      apply commit_v2_Discovered in Hcommit
        as (hunterProfile & d & Hsome & _ & _ & _ & Hprofiles & Hreport).
      apply checks_v2_inr in Hchecks as Hinv.
      destruct Hinv as (_ & _ & _ & _ & _ & (hp & Hc & Hfind) & _).
      rewrite Hsome in Hc. injection Hc as <-.
      exists c, hunterProfile. repeat split; auto.
      unfold HunterProfile_findOne. rewrite Hprofiles.
      apply (findOne_after_save _ _ hunterProfile); [exact Hfind |].
      apply updateHunterProfile_userId.
Qed.

End Rank.

(** C7.  [updateHunterRank] sets the rank to 'master' iff the profile counts
    at least 50 treasures, else 'hunter' iff at least 20, else 'explorer'
    iff at least 5, else 'beginner'; that rank is the maximal one whose
    threshold (0, 5, 20, 50) is at most the count; it depends on the count
    only; and after a successful discovery, through either handler, the
    stored profile counts one treasure more and carries the rank so computed
    from the new count, which is the rank the response reports. *)
Theorem rank_follows_treasures_found :
  (forall p : HunterProfile.t,
      let n := HunterProfile.totalTreasuresFound p in
      let r := HunterProfile.rank (updateHunterRank p) in
      (r = "master" <-> (50 <= n)%N)
      /\ (r = "hunter" <-> (20 <= n < 50)%N)
      /\ (r = "explorer" <-> (5 <= n < 20)%N)
      /\ (r = "beginner" <-> (n < 5)%N)
      /\ maximal_rank n (getRankNumber r))
  /\ (forall p q : HunterProfile.t,
         HunterProfile.totalTreasuresFound p = HunterProfile.totalTreasuresFound q ->
         HunterProfile.rank (updateHunterRank p) = HunterProfile.rank (updateHunterRank q))
  /\ (forall env req st report st',
         discover_v1 env req st = (Discovered report, st')
         \/ discover_v2 env req st = (Discovered report, st') ->
         exists p p',
           HunterProfile_findOne st (Request.userId req) = Some p
           /\ HunterProfile_findOne st' (Request.userId req) = Some p'
           /\ HunterProfile.totalTreasuresFound p'
              = (HunterProfile.totalTreasuresFound p + 1)%N
           /\ maximal_rank (HunterProfile.totalTreasuresFound p')
                           (getRankNumber (HunterProfile.rank p'))
           /\ Report.newRank (Report.hunter report) = HunterProfile.rank p').
Proof.
  split; [| split].
  - intros p. cbv zeta.
    pose proof (updateHunterRank_maximal p) as Hmax.
    destruct (updateHunterRank_cases p) as [[H Hr] | [[H Hr] | [[H Hr] | [H Hr]]]];
      rewrite Hr in *;
      refine (conj _ (conj _ (conj _ (conj _ Hmax))));
      split; intros; try discriminate; try lia; auto.
  - intros p q Heq. unfold updateHunterRank. rewrite Heq.
    repeat match goal with |- context [if ?b then _ else _] => destruct b end;
      reflexivity.
  - intros env req st report st' Hrun.
    assert (exists c p,
               HunterProfile_findOne st (Request.userId req) = Some p
               /\ HunterProfile_findOne st' (Request.userId req)
                  = Some (updateHunterProfile env (Treasure.rewardPoints (Checked.treasure c)) p)
               /\ Report.hunter report
                  = profileReport p
                      (updateHunterProfile env (Treasure.rewardPoints (Checked.treasure c)) p)
                      (Treasure.rewardPoints (Checked.treasure c)))
      as (c & p & Hold & Hnew & Hreport).
    { destruct Hrun as [Hrun | Hrun].
      - apply discover_v1_Discovered in Hrun as (c & p & _ & H1 & H2 & H3). eauto.
      - apply discover_v2_Discovered in Hrun as (c & p & _ & H1 & H2 & H3). eauto. }
    exists p, (updateHunterProfile env (Treasure.rewardPoints (Checked.treasure c)) p).
    destruct (updateHunterProfile_ranked env (Treasure.rewardPoints (Checked.treasure c)) p)
      as (q & Heq & Htotal & _).
    split; [exact Hold |]. split; [exact Hnew |]. split; [| split].
    + rewrite Heq, updateHunterRank_total. exact Htotal.
    + rewrite Heq, updateHunterRank_total. apply updateHunterRank_maximal.
    + rewrite Hreport. reflexivity.
Qed.

Lemma rank_follows_treasures_found_witness :
  exists report st' p',
    discover_v1 (World.env World.timeout) (World.claim "alice") World.store
    = (Discovered report, st')
    /\ HunterProfile_findOne st' "alice" = Some p'
    /\ HunterProfile.totalTreasuresFound p' = 8%N
    /\ maximal_rank 8 (getRankNumber (HunterProfile.rank p'))
    /\ Report.newRank (Report.hunter report) = HunterProfile.rank p'.
Proof.
  destruct alice_discovers_v1 as (report & d & Hrun & _).
  destruct (proj2 (proj2 rank_follows_treasures_found) _ _ _ _ _ (or_introl Hrun))
    as (p & p' & Hold & Hnew & Htotal & Hmax & Hreport).
  exists report. eexists. exists p'.
  split; [exact Hrun |].
  split; [exact Hnew |].
  assert (Hp : p = World.alice_profile).
  { cbn in Hold. injection Hold as <-. reflexivity. }
  subst p.
  assert (H8 : HunterProfile.totalTreasuresFound p' = 8%N) by (rewrite Htotal; reflexivity).
  split; [exact H8 |].
  split; [rewrite <- H8; exact Hmax | exact Hreport].
Defined.

(** ** The tolerance *)

Section Tolerance.

(** Once the treasure is resolved and found undiscovered, the first variant
    answers "too far" exactly when the computed distance exceeds 100. *)
Lemma checks_v1_TooFar req st treasure :
  validationResult req = true ->
  Treasure_findOne_active st (Request.treasureId req) = Some treasure ->
  TreasureDiscovery_findOne st (Request.treasureId req) = None ->
  let distance :=
    calculateDistance (Request.latitude req) (Request.longitude req)
                      (Treasure.latitude treasure) (Treasure.longitude treasure) in
  checks_v1 req st = inl (TooFar (Math_round distance) 100) <-> gt distance (Num 100) = true.
Proof.
  intros Hvalid Htreasure Hnone. cbv zeta. unfold checks_v1.
  rewrite Hvalid, Htreasure, Hnone. cbn [negb]. cbv zeta.
  destruct (gt _ (Num 100)).
  - split; reflexivity.
  - split; [| discriminate].
    destruct (_ <? _)%N; [discriminate |].
    destruct (User_findById st _); discriminate.
Qed.


End Tolerance.

(** ** The chain call and what the handlers make of its failures *)

Section Chain.

(** The balance guard of [discoverTreasure]: below 0.05 SUI (50000000 MIST)
    the call throws before it reaches the chain. *)
Lemma discoverTreasure_balance_guard sui :
  Sui.keyError sui = "" ->
  Sui.totalBalance sui < 50000000 ->
  SuiService_discoverTreasure sui =
  Throws "Insufficient SUI balance for transaction. Need at least 0.05 SUI for gas.".
Proof.
  intros Hkey Hlow. unfold SuiService_discoverTreasure. rewrite Hkey. cbn [truthy String.eqb negb].
  cbv zeta.
  destruct (Qle_bool (5 # 100) (inject_Z (Sui.totalBalance sui) / 1000000000)) eqn:E;
    [| reflexivity].
  exfalso. apply Qle_bool_iff in E.
  unfold Qle, Qdiv, Qmult, Qinv, inject_Z in E.
  cbn [Qnum Qden] in E. lia.
Qed.

End Chain.

Section Failures.

Lemma find_none_existsb {A : Type} (p : A -> bool) (l : list A) :
  find p l = None -> existsb p l = false.
Proof.
  induction l as [| x l IH]; cbn; [reflexivity |].
  destruct (p x); [discriminate | exact IH].
Qed.

Lemma existsb_In_true {A : Type} (p : A -> bool) (l : list A) (x : A) :
  In x l -> p x = true -> existsb p l = true.
Proof. intros Hin Hp. apply existsb_exists. exists x. auto. Qed.

(** The second variant ends the request on the three failures it names and
    goes offline on every other one. *)
Lemma callChain_v2_throws env user blockchainError :
  has_credentials user = true ->
  SuiService_discoverTreasure (chain env) = Throws blockchainError ->
  callChain_v2 env user =
  if includes blockchainError "E_TREASURE_ALREADY_FOUND" then inl BlockchainAlreadyFound
  else if includes blockchainError "E_INVALID_LOCATION" then inl BlockchainLocationFailed
  else if includes blockchainError "Insufficient SUI balance" then inl InsufficientGas
  else inr None.
Proof.
  intros Hcred Hthrows. unfold callChain_v2. rewrite Hcred, Hthrows. reflexivity.
Qed.

(** The first variant goes offline on every failure. *)
Lemma callChain_v1_throws env user blockchainError :
  SuiService_discoverTreasure (chain env) = Throws blockchainError ->
  callChain_v1 env user = None.
Proof.
  intros Hthrows. unfold callChain_v1. rewrite Hthrows.
  destruct (has_credentials user); reflexivity.
Qed.

Lemma offline_truthy s : truthy ("offline_" ++ s)%string = true.
Proof. reflexivity. Qed.

Lemma prefix_append p s : String.prefix p (p ++ s)%string = true.
Proof.
  induction p as [| a p IH]; cbn.
  - destruct s; reflexivity.
  - destruct (ascii_dec a a) as [_ | H]; [exact IH | contradiction].
Qed.

Lemma offline_nftObjectId_valid s : nftObjectId_validator ("offline_" ++ s)%string = true.
Proof.
  unfold nftObjectId_validator, offlineRegex. rewrite prefix_append. apply orb_true_r.
Qed.

Lemma offline_transactionDigest_valid s :
  transactionDigest_validator ("offline_" ++ s)%string = true.
Proof.
  unfold transactionDigest_validator.
  unfold offlineRegex. rewrite prefix_append. apply orb_true_r.
Qed.

(** An offline commit of the second variant, when the identifiers it draws
    are not in use. *)
Lemma commit_v2_offline env req c hunterProfile st :
  Checked.hunterProfile c = Some hunterProfile ->
  truthy (Request.userId req) = true ->
  validationResult req = true ->
  TreasureDiscovery_findOne st (Request.treasureId req) = None ->
  existsb (fun x => String.eqb (TreasureDiscovery._id x) (uuid env)) (discoveries st) = false ->
  existsb (fun x => String.eqb (TreasureDiscovery.nftObjectId x)
                      ("offline_" ++ Request.treasureId req ++ "_" ++ string_of_Z (t_nft env))%string)
          (discoveries st) = false ->
  existsb (fun x => String.eqb (TreasureDiscovery.transactionDigest x)
                      ("offline_tx_" ++ string_of_Z (t_tx env))%string)
          (discoveries st) = false ->
  exists report d st',
    commit_v2 env req c None st = (Discovered report, st')
    /\ discoveries st' = discoveries st ++ [d]
    /\ TreasureDiscovery.userId d = Request.userId req
    /\ TreasureDiscovery.treasureId d = Request.treasureId req
    /\ TreasureDiscovery.nftObjectId d
       = ("offline_" ++ Request.treasureId req ++ "_" ++ string_of_Z (t_nft env))%string
    /\ TreasureDiscovery.transactionDigest d = ("offline_tx_" ++ string_of_Z (t_tx env))%string
    /\ TreasureDiscovery.offline d = true
    /\ hunterProfiles st' =
       HunterProfile_save
         (updateHunterProfile env (Treasure.rewardPoints (Checked.treasure c)) hunterProfile)
         (hunterProfiles st)
    /\ users st' = users st.
Proof.
  intros Hprofile Huser Hvalid Hnone Hid Hnft Htx.
  assert (Htid : truthy (Request.treasureId req) = true).
  { unfold validationResult in Hvalid.
    destruct (truthy (Request.treasureId req)); [reflexivity | discriminate]. }
  apply find_none_existsb in Hnone.
  unfold commit_v2. cbv zeta.
  unfold TreasureDiscovery_save, TreasureDiscovery_validate, TreasureDiscovery_duplicate.
  cbn [TreasureDiscovery._id TreasureDiscovery.userId TreasureDiscovery.treasureId
         TreasureDiscovery.nftObjectId TreasureDiscovery.transactionDigest
         null_or or_else String.eqb is_null negb].
  change ("offline_tx_" ++ string_of_Z (t_tx env))%string
    with ("offline_" ++ ("tx_" ++ string_of_Z (t_tx env)))%string in *.
  rewrite Huser, Htid, !offline_truthy, offline_nftObjectId_valid,
    offline_transactionDigest_valid.
  cbn [app]. rewrite Hid, Hnone, Hnft, Htx, Hprofile.
  destruct (Treasure.fromBlockchain (Checked.treasure c)).
  - match goal with
    | |- context [Treasure_save ?t ?l] => destruct (Treasure_save t l)
    end;
      (eexists; eexists; eexists; split; [reflexivity |]; repeat split; reflexivity).
  - eexists. eexists. eexists. split; [reflexivity |]. repeat split; reflexivity.
Qed.

(** Once a discovery carries the digest 'offline_transaction', no offline
    commit of the first variant gets past the insert. *)
Lemma commit_v1_offline_refused env req c st :
  existsb (fun x => String.eqb (TreasureDiscovery.transactionDigest x) "offline_transaction")
          (discoveries st) = true ->
  exists error, commit_v1 env req c None st = (catch_v1 error, st).
Proof.
  intros Hdup. unfold commit_v1. cbv zeta.
  match goal with
  | |- context [TreasureDiscovery_save ?d ?l] =>
      destruct (TreasureDiscovery_save d l) as [error | saved] eqn:E
  end.
  - exists error. reflexivity.
  - exfalso. apply save_inr in E as (_ & _ & E).
    apply duplicate_None in E as (_ & _ & _ & E).
    cbn [TreasureDiscovery.transactionDigest null_or or_else String.eqb] in E.
    rewrite Hdup in E. discriminate.
Qed.

(** What an offline commit of the first variant stores. *)
Lemma commit_v1_offline_digest env req c st report st' :
  commit_v1 env req c None st = (Discovered report, st') ->
  exists d,
    discoveries st' = discoveries st ++ [d]
    /\ TreasureDiscovery.transactionDigest d = "offline_transaction"
    /\ TreasureDiscovery.offline d = true.
Proof.
  unfold commit_v1. cbv zeta.
  match goal with
  | |- context [TreasureDiscovery_save ?d ?l] =>
      destruct (TreasureDiscovery_save d l) as [error | saved] eqn:E
  end.
  - intros H. injection H as H _. exfalso. exact (catch_v1_not_Discovered _ _ H).
  - apply save_inr in E as (-> & _ & _).
    destruct (Checked.hunterProfile c).
    + intros H. injection H as _ <-. eexists. split; [reflexivity |]. split; reflexivity.
    + intros H. injection H as H _. exfalso. exact (catch_v1_not_Discovered _ _ H).
Qed.

(** Without a profile the second variant stops before it writes. *)
Lemma discover_v2_without_profile env req st :
  HunterProfile_findOne st (Request.userId req) = None ->
  snd (discover_v2 env req st) = st
  /\ (validationResult req = true ->
      TreasureDiscovery_findOne st (Request.treasureId req) = None ->
      gt (calculateDistance (Request.latitude req) (Request.longitude req)
                            (Treasure.latitude (resolveTreasure_v2 req st))
                            (Treasure.longitude (resolveTreasure_v2 req st)))
         (Num 100) = false ->
      fst (discover_v2 env req st) = ProfileNotFound).
Proof.
  intros Hnone. unfold discover_v2, checks_v2. rewrite Hnone. split.
  - destruct (validationResult req); [| reflexivity]. cbn [negb].
    destruct (TreasureDiscovery_findOne st _); [reflexivity |]. cbv zeta.
    destruct (gt _ _); reflexivity.
  - intros -> -> Hnear. cbn [negb]. cbv zeta. rewrite Hnear. reflexivity.
Qed.

(** A chain rejection ends a claim of the second variant with the store
    untouched. *)
Lemma discover_v2_chain_rejected env req st c blockchainError :
  checks_v2 req st = inr c ->
  has_credentials (Checked.user c) = true ->
  SuiService_discoverTreasure (chain env) = Throws blockchainError ->
  includes blockchainError "E_TREASURE_ALREADY_FOUND" = true
  \/ includes blockchainError "E_INVALID_LOCATION" = true ->
  snd (discover_v2 env req st) = st
  /\ (fst (discover_v2 env req st) = BlockchainAlreadyFound
      \/ fst (discover_v2 env req st) = BlockchainLocationFailed).
Proof.
  intros Hchecks Hcred Hthrows Hmarker. unfold discover_v2.
  rewrite Hchecks, (callChain_v2_throws _ _ _ Hcred Hthrows).
  destruct (includes blockchainError "E_TREASURE_ALREADY_FOUND"); [cbn; auto |].
  destruct Hmarker as [H | H]; [discriminate |]. rewrite H. cbn. auto.
Qed.

End Failures.

(** ** The world under a failing chain *)

Section WorldFailures.

Lemma world_unfunded_throws :
  SuiService_discoverTreasure World.unfunded =
  Throws "Insufficient SUI balance for transaction. Need at least 0.05 SUI for gas.".
Proof. apply discoverTreasure_balance_guard; [reflexivity | cbn; lia]. Qed.

Lemma world_already_found_throws :
  SuiService_discoverTreasure World.already_found =
  Throws "Transaction failed: MoveAbort in treasure_nft::find_treasure: E_TREASURE_ALREADY_FOUND".
Proof. reflexivity. Qed.

Lemma world_timeout_throws :
  SuiService_discoverTreasure World.timeout = Throws "Request timed out".
Proof. reflexivity. Qed.

Lemma carol_checks_v2 :
  checks_v2 (World.claim "carol") World.store =
  inr (Checked.mk World.old_quarter (Num 0) (Some World.carol_profile) World.carol).
Proof. exact (world_checks_v2 "carol" World.carol_profile World.carol eq_refl eq_refl). Qed.

Lemma carol_unfunded_v2 :
  discover_v2 (World.env World.unfunded) (World.claim "carol") World.store
  = (InsufficientGas, World.store).
Proof.
  unfold discover_v2. rewrite carol_checks_v2. cbn [Checked.user].
  rewrite (callChain_v2_throws (World.env World.unfunded) World.carol _ eq_refl
           world_unfunded_throws). reflexivity.
Qed.

(** [carol]'s claim of the second treasure, checked on the store that
    [alice]'s offline discovery of the first one left. *)
Lemma carol_checks_after_alice :
  checks_v1 (World.claim_dong_xuan "carol") World.first_commit =
  inr (Checked.mk World.dong_xuan (Num 0) (Some World.carol_profile) World.carol).
Proof.
  rewrite (checks_v1_pass _ _ World.dong_xuan World.carol).
  - cbn [World.claim_dong_xuan World.dong_xuan Request.latitude Request.longitude
           Treasure.latitude Treasure.longitude Request.userId].
    rewrite calculateDistance_same. reflexivity.
  - apply (validationResult_true _ 21.0380%R 105.8500%R); try reflexivity; lra.
  - reflexivity.
  - reflexivity.
  - cbn [World.claim_dong_xuan World.dong_xuan Request.latitude Request.longitude
           Treasure.latitude Treasure.longitude].
    rewrite calculateDistance_same. apply gt_false. lra.
  - reflexivity.
  - reflexivity.
Qed.

End WorldFailures.

(** ** C3: a chain call that fails for want of funds *)

(** C3, as amended.  In the second variant, for a claim that passed the
    checks and whose chain call fails with neither of the two rejection
    markers: when the failure is for want of funds (its message carries
    'Insufficient SUI balance') the claim ends with INSUFFICIENT_GAS and the
    store is untouched; when it is any other failure the claim commits
    offline, provided the identifiers it draws are not in use: a discovery
    with the references [offline_<treasureId>_<time>] and
    [offline_tx_<time>] and the offline flag is appended to the ledger and
    the stored profile is the progressed one. *)
Theorem chain_failure_v2 :
  forall env req st c blockchainError,
    checks_v2 req st = inr c ->
    has_credentials (Checked.user c) = true ->
    SuiService_discoverTreasure (chain env) = Throws blockchainError ->
    includes blockchainError "E_TREASURE_ALREADY_FOUND" = false ->
    includes blockchainError "E_INVALID_LOCATION" = false ->
    (includes blockchainError "Insufficient SUI balance" = true ->
     discover_v2 env req st = (InsufficientGas, st))
    /\ (includes blockchainError "Insufficient SUI balance" = false ->
        truthy (Request.userId req) = true ->
        existsb (fun x => String.eqb (TreasureDiscovery._id x) (uuid env))
                (discoveries st) = false ->
        existsb (fun x => String.eqb (TreasureDiscovery.nftObjectId x)
                            ("offline_" ++ Request.treasureId req ++ "_"
                                        ++ string_of_Z (t_nft env))%string)
                (discoveries st) = false ->
        existsb (fun x => String.eqb (TreasureDiscovery.transactionDigest x)
                            ("offline_tx_" ++ string_of_Z (t_tx env))%string)
                (discoveries st) = false ->
        exists report d st' hunterProfile,
          discover_v2 env req st = (Discovered report, st')
          /\ discoveries st' = discoveries st ++ [d]
          /\ TreasureDiscovery.userId d = Request.userId req
          /\ TreasureDiscovery.treasureId d = Request.treasureId req
          /\ TreasureDiscovery.nftObjectId d
             = ("offline_" ++ Request.treasureId req ++ "_"
                           ++ string_of_Z (t_nft env))%string
          /\ TreasureDiscovery.transactionDigest d
             = ("offline_tx_" ++ string_of_Z (t_tx env))%string
          /\ TreasureDiscovery.offline d = true
          /\ HunterProfile_findOne st (Request.userId req) = Some hunterProfile
          /\ HunterProfile_findOne st' (Request.userId req)
             = Some (updateHunterProfile env (Treasure.rewardPoints (Checked.treasure c))
                                         hunterProfile)).
Proof.
  intros env req st c blockchainError Hchecks Hcred Hthrows Hfound Hlocation.
  pose proof (callChain_v2_throws _ _ _ Hcred Hthrows) as Hchain.
  rewrite Hfound, Hlocation in Hchain.
  split.
  - intros Hfunds. rewrite Hfunds in Hchain.
    unfold discover_v2. rewrite Hchecks, Hchain. reflexivity.
  - intros Hfunds Huser Hid Hnft Htx. rewrite Hfunds in Hchain.
    apply checks_v2_inr in Hchecks as Hinv.
    destruct Hinv as (Hvalid & _ & Hnone & _ & _ & (hunterProfile & Hc & Hfind) & _).
    destruct (commit_v2_offline env req c hunterProfile st Hc Huser Hvalid Hnone Hid Hnft Htx)
      as (report & d & st' & Hcommit & Hsaved & Hd1 & Hd2 & Hd3 & Hd4 & Hd5 & Hprofiles & _).
    exists report, d, st', hunterProfile.
    split; [unfold discover_v2; rewrite Hchecks, Hchain; exact Hcommit |].
    repeat (split; [assumption |]).
    unfold HunterProfile_findOne. rewrite Hprofiles.
    apply (findOne_after_save _ _ hunterProfile); [exact Hfind |].
    apply updateHunterProfile_userId.
Qed.

Lemma chain_failure_v2_witness :
  discover_v2 (World.env World.unfunded) (World.claim "carol") World.store
  = (InsufficientGas, World.store)
  /\ exists report d st',
      discover_v2 (World.env World.timeout) (World.claim "carol") World.store
      = (Discovered report, st')
      /\ discoveries st' = [d]
      /\ TreasureDiscovery.transactionDigest d = "offline_tx_1700172800000"
      /\ TreasureDiscovery.offline d = true
      /\ HunterProfile_findOne st' "carol" = Some World.carol_progressed.
Proof.
  split.
  - exact (proj1 (chain_failure_v2 (World.env World.unfunded) (World.claim "carol")
                    World.store _ _ carol_checks_v2 eq_refl world_unfunded_throws
                    eq_refl eq_refl)
                 eq_refl).
  - destruct (proj2 (chain_failure_v2 (World.env World.timeout) (World.claim "carol")
                       World.store _ _ carol_checks_v2 eq_refl world_timeout_throws
                       eq_refl eq_refl)
                    eq_refl eq_refl eq_refl eq_refl eq_refl)
      as (report & d & st' & hunterProfile & Hrun & Hsaved & _ & _ & _ & Htx & Hoff & Hold & Hnew).
    exists report, d, st'.
    split; [exact Hrun |]. split; [exact Hsaved |].
    split; [exact Htx |]. split; [exact Hoff |].
    cbn in Hold. injection Hold as <-. exact Hnew.
Defined.

(** The claim as stated fails: [carol] has credentials and 0.01 SUI, her
    claim passes every check, the chain call fails for want of funds, and
    the claim ends with INSUFFICIENT_GAS: nothing is written. *)
Lemma insufficient_funds_end_the_claim_v2 :
  (exists c, checks_v2 (World.claim "carol") World.store = inr c
             /\ has_credentials (Checked.user c) = true)
  /\ SuiService_discoverTreasure (chain (World.env World.unfunded))
     = Throws "Insufficient SUI balance for transaction. Need at least 0.05 SUI for gas."
  /\ discover_v2 (World.env World.unfunded) (World.claim "carol") World.store
     = (InsufficientGas, World.store)
  /\ discoveries World.store = []
  /\ HunterProfile_findOne World.store "carol" = Some World.carol_profile.
Proof.
  split; [eexists; split; [exact carol_checks_v2 | reflexivity] |].
  split; [exact world_unfunded_throws |].
  split; [exact carol_unfunded_v2 |].
  split; reflexivity.
Qed.

(** ** C4: a chain call that the contract rejects *)

(** C4 (the code departs from the claim).  [carol] has credentials and
    funds; the contract rejects her claim with E_TREASURE_ALREADY_FOUND.
    The first variant drops the failure in its inner [catch] and commits: an
    offline discovery is written and her profile progresses.  The second
    variant ends the claim with the store untouched. *)
Theorem chain_rejection_is_committed_v1 :
  let env := World.env World.already_found in
  let req := World.claim "carol" in
  has_credentials World.carol = true
  /\ (exists blockchainError,
         SuiService_discoverTreasure (chain env) = Throws blockchainError
         /\ includes blockchainError "E_TREASURE_ALREADY_FOUND" = true)
  /\ (exists report d,
         discover_v1 env req World.store
         = (Discovered report,
            mkStore (treasures World.store) [d]
                    [World.alice_profile; World.carol_progressed] (users World.store))
         /\ TreasureDiscovery.userId d = "carol"
         /\ TreasureDiscovery.treasureId d = "hanoi_old_quarter_001"
         /\ TreasureDiscovery.transactionDigest d = "offline_transaction"
         /\ TreasureDiscovery.offline d = true)
  /\ discover_v2 env req World.store = (BlockchainAlreadyFound, World.store).
Proof.
  cbv zeta. split; [reflexivity |]. split; [| split].
  - eexists. split; [exact world_already_found_throws | reflexivity].
  - unfold discover_v1.
    rewrite (world_checks_v1 "carol" World.carol eq_refl).
    eexists. eexists. split; [reflexivity |]. repeat split.
  - unfold discover_v2. rewrite carol_checks_v2. cbn [Checked.user].
    rewrite (callChain_v2_throws (World.env World.already_found) World.carol _ eq_refl
             world_already_found_throws). reflexivity.
Qed.

(** ** C5: a player without a profile *)

(** C5 (the code departs from the claim).  [bob] has an account and no
    profile.  In the first variant his claim of a rank-1 treasure passes the
    rank check as a beginner, the discovery is written, and only then the
    handler fails on the missing profile: it answers 500 and the discovery
    stays in the ledger.  The second variant answers "profile not found"
    with the store untouched. *)
Theorem claim_without_profile_is_recorded_v1 :
  let env := World.env World.timeout in
  let req := World.claim "bob" in
  HunterProfile_findOne World.store "bob" = None
  /\ (exists d,
         discover_v1 env req World.store
         = (ServerError "Cannot read properties of null (reading 'rank')",
            set_discoveries [d] World.store)
         /\ TreasureDiscovery.userId d = "bob"
         /\ TreasureDiscovery.treasureId d = "hanoi_old_quarter_001")
  /\ discover_v2 env req World.store = (ProfileNotFound, World.store).
Proof.
  cbv zeta. split; [reflexivity |]. split.
  - unfold discover_v1.
    rewrite (world_checks_v1 "bob" World.bob eq_refl).
    eexists. split; [reflexivity |]. split; reflexivity.
  - pose proof (discover_v2_without_profile (World.env World.timeout) (World.claim "bob")
                  World.store eq_refl) as [Hstore Hresponse].
    specialize (Hresponse (world_claim_valid "bob") eq_refl).
    change (resolveTreasure_v2 (World.claim "bob") World.store) with World.old_quarter
      in Hresponse.
    cbn [World.claim World.old_quarter Request.latitude Request.longitude
           Treasure.latitude Treasure.longitude] in Hresponse.
    rewrite calculateDistance_same in Hresponse.
    assert (Hnear : gt (Num 0) (Num 100) = false) by (apply gt_false; lra).
    specialize (Hresponse Hnear).
    destruct (discover_v2 _ _ _) as [response st'].
    cbn in Hstore, Hresponse. subst. reflexivity.
Qed.

(** ** C10: the constant digest of the first variant *)

(** C10.  An offline commit of the first variant stores the digest
    'offline_transaction'; once a discovery of the ledger carries it, every
    claim that passes the checks of the first variant and goes offline is
    refused at the insert and leaves the store as it was; and no reachable
    ledger holds two discoveries with that digest. *)
Theorem one_offline_discovery_v1 :
  (forall env req c st report st',
      commit_v1 env req c None st = (Discovered report, st') ->
      exists d,
        discoveries st' = discoveries st ++ [d]
        /\ TreasureDiscovery.transactionDigest d = "offline_transaction"
        /\ TreasureDiscovery.offline d = true)
  /\ (forall env req st c,
         checks_v1 req st = inr c ->
         callChain_v1 env (Checked.user c) = None ->
         (exists d, In d (discoveries st)
                    /\ TreasureDiscovery.transactionDigest d = "offline_transaction") ->
         exists error,
           discover_v1 env req st = (catch_v1 error, st)
           /\ forall report, catch_v1 error <> Discovered report)
  /\ (forall st,
         reachable st ->
         (List.length
            (filter (fun d => String.eqb (TreasureDiscovery.transactionDigest d)
                                         "offline_transaction")
                    (discoveries st)) <= 1)%nat).
Proof.
  split; [exact commit_v1_offline_digest |]. split.
  - intros env req st c Hchecks Hoffline (d & Hin & Hdigest).
    destruct (commit_v1_offline_refused env req c st) as [error Herror].
    { apply (existsb_In_true _ _ d Hin). rewrite Hdigest. reflexivity. }
    exists error. split.
    + unfold discover_v1. rewrite Hchecks, Hoffline. exact Herror.
    + intros report. apply catch_v1_not_Discovered.
  - intros st Hreach.
    apply (reachable_unique_on TreasureDiscovery.transactionDigest st); [| exact Hreach].
    intros d coll Hdup. apply duplicate_None in Hdup. tauto.
Qed.

Lemma one_offline_discovery_v1_witness :
  (exists d, discoveries World.first_commit = [d]
             /\ TreasureDiscovery.userId d = "alice"
             /\ TreasureDiscovery.transactionDigest d = "offline_transaction")
  /\ exists error,
      discover_v1 (World.later World.timeout) (World.claim_dong_xuan "carol")
                  World.first_commit
      = (catch_v1 error, World.first_commit)
      /\ forall report, catch_v1 error <> Discovered report.
Proof.
  split.
  - eexists. split; [reflexivity |]. split; reflexivity.
  - apply (proj1 (proj2 one_offline_discovery_v1)
             (World.later World.timeout) (World.claim_dong_xuan "carol") World.first_commit
             _ carol_checks_after_alice eq_refl).
    eexists. split; [left; reflexivity | reflexivity].
Defined.

(** The answer of that second claim: the insert fails on the index of
    [transactionDigest]. *)
Example second_offline_claim_v1 :
  discover_v1 (World.later World.timeout) (World.claim_dong_xuan "carol") World.first_commit
  = (ServerError
       "E11000 duplicate key error index: transactionDigest_1 dup key: offline_transaction",
     World.first_commit).
Proof.
  unfold discover_v1. rewrite carol_checks_after_alice. reflexivity.
Qed.

(** ** C9: the treasure of a claim *)

Section Resolution.





End Resolution.




Lemma parseFloat_lat : parseFloat "21.0351" = Num 21.0351.
Proof.
  unfold parseFloat.
  replace (parseDecimal "21.0351") with (Some (false, 210351, -4))
    by (vm_compute; reflexivity).
  unfold scale10. cbn. f_equal. lra.
Qed.

Lemma parseFloat_lng : parseFloat "105.8520" = Num 105.8520.
Proof.
  unfold parseFloat.
  replace (parseDecimal "105.8520") with (Some (false, 1058520, -4))
    by (vm_compute; reflexivity).
  unfold scale10. cbn. f_equal. lra.
Qed.

Lemma commit_v2_report env req c discoveryResult st report st' :
  commit_v2 env req c discoveryResult st = (Discovered report, st') ->
  Report.treasure report = Checked.treasure c.
Proof.
  unfold commit_v2. cbv zeta.
  match goal with
  | |- context [TreasureDiscovery_save ?d ?l] => destruct (TreasureDiscovery_save d l)
  end; [discriminate |].
  destruct (Checked.hunterProfile c); [| discriminate].
  intros H. injection H as <- _. reflexivity.
Qed.

(** The degraded path at work in the second variant: the claim of the
    unknown 'VN_RARE_777', with the claimed coordinates as location proof,
    is committed against a synthesized rare treasure worth 300 points. *)
Example unknown_treasure_is_synthesized_v2 :
  exists report st',
    discover_v2 (World.env World.timeout) (World.claim_unknown "alice") World.store
    = (Discovered report, st')
    /\ Treasure.fromBlockchain (Report.treasure report) = true
    /\ Treasure.latitude (Report.treasure report) = Num 21.0351
    /\ Treasure.longitude (Report.treasure report) = Num 105.8520
    /\ Treasure.rarity (Report.treasure report) = 2%N
    /\ Treasure.rewardPoints (Report.treasure report) = 300%N
    /\ map TreasureDiscovery.treasureId (discoveries st') = ["VN_RARE_777"].
Proof.
  set (req := World.claim_unknown "alice").
  set (synthesized := parseBlockchainTreasure "VN_RARE_777" "21.0351,105.8520").
  assert (Hlat : Treasure.latitude synthesized = Num 21.0351) by exact parseFloat_lat.
  assert (Hlng : Treasure.longitude synthesized = Num 105.8520) by exact parseFloat_lng.
  assert (Hvalid : validationResult req = true).
  { apply (validationResult_true _ 21.0351%R 105.8520%R); try reflexivity; lra. }
  assert (Hchecks : checks_v2 req World.store =
                    inr (Checked.mk synthesized (Num 0) (Some World.alice_profile) World.alice)).
  { rewrite (checks_v2_pass _ _ World.alice_profile World.alice).
    - change (resolveTreasure_v2 req World.store) with synthesized.
      rewrite Hlat, Hlng.
      cbn [req World.claim_unknown Request.latitude Request.longitude].
      rewrite calculateDistance_same. reflexivity.
    - exact Hvalid.
    - reflexivity.
    - change (resolveTreasure_v2 req World.store) with synthesized.
      rewrite Hlat, Hlng.
      cbn [req World.claim_unknown Request.latitude Request.longitude].
      rewrite calculateDistance_same. apply gt_false. lra.
    - reflexivity.
    - reflexivity.
    - reflexivity. }
  destruct (commit_v2_offline (World.env World.timeout) req
              (Checked.mk synthesized (Num 0) (Some World.alice_profile) World.alice)
              World.alice_profile World.store
              eq_refl eq_refl Hvalid eq_refl eq_refl eq_refl eq_refl)
    as (report & d & st' & Hcommit & Hsaved & _ & Hid & _).
  exists report, st'. split.
  - unfold discover_v2. rewrite Hchecks. exact Hcommit.
  - apply commit_v2_report in Hcommit. rewrite Hcommit.
    cbn [Checked.treasure]. rewrite Hlat, Hlng, Hsaved. cbn [map app discoveries World.store].
    rewrite Hid. repeat split.
Qed.

(** In the second variant a treasure that exists and is inactive is not
    found by the query for active treasures either: the claim goes on with
    a synthesized treasure whose coordinates, read from the [locationProof]
    'gps_verified', are not numbers, so that no distance check can fail, and
    the discovery is committed. *)
Example inactive_treasure_is_synthesized_v2 :
  let env := World.env World.timeout in
  let req := World.claim "alice" in
  (exists t, In t (treasures World.closed_store)
             /\ Treasure.treasureId t = Request.treasureId req
             /\ Treasure.isActive t = false)
  /\ (exists report d,
         discover_v2 env req World.closed_store
         = (Discovered report,
            mkStore (treasures World.closed_store) [d]
                    [World.alice_progressed_100; World.carol_profile]
                    (users World.closed_store))
         /\ Treasure.fromBlockchain (Report.treasure report) = true
         /\ Treasure.latitude (Report.treasure report) = NaN
         /\ Treasure.longitude (Report.treasure report) = NaN
         /\ Treasure.rewardPoints (Report.treasure report) = 100%N
         /\ TreasureDiscovery.treasureId d = "hanoi_old_quarter_001"
         /\ TreasureDiscovery.autoGeneratedTreasure d = Some true).
Proof.
  cbv zeta. split.
  - exists World.old_quarter_closed. split; [left; reflexivity |]. split; reflexivity.
  - unfold discover_v2.
    rewrite (checks_v2_pass _ _ World.alice_profile World.alice);
      [| apply world_claim_valid | reflexivity | reflexivity | reflexivity
       | reflexivity | reflexivity].
    eexists. eexists. split; [reflexivity |]. repeat split.
Qed.

(** ** C6: the proximity check on a stored treasure *)

Section StoredTreasure.

Open Scope R_scope.






End StoredTreasure.


(** ** C8: the nearby query *)

Section NearbyList.

Open Scope R_scope.

Lemma insert_Permutation {A : Type} (compareFn : A -> A -> number) x l :
  Permutation (insert compareFn x l) (x :: l).
Proof.
  induction l as [| y l IH]; cbn; [reflexivity |].
  destruct (gt (compareFn x y) (Num 0)); [| reflexivity].
  rewrite IH. apply perm_swap.
Qed.

Lemma sort_Permutation {A : Type} (compareFn : A -> A -> number) l :
  Permutation (sort compareFn l) l.
Proof.
  induction l as [| x l IH]; cbn; [reflexivity |].
  rewrite insert_Permutation. apply perm_skip. exact IH.
Qed.

Lemma In_firstn {A : Type} (n : nat) (l : list A) (x : A) :
  In x (firstn n l) -> In x l.
Proof.
  revert l. induction n as [| n IH]; intros [| y l]; cbn; try tauto.
  intros [H | H]; [left; exact H | right; apply IH; exact H].
Qed.

Lemma filter_length {A : Type} (p : A -> bool) (l : list A) :
  (List.length (filter p l) <= List.length l)%nat.
Proof.
  induction l as [| x l IH]; cbn; [lia |]. destruct (p x); cbn; lia.
Qed.

Lemma find_near_In geoNear st t :
  In t (Treasure_find_near geoNear st) <->
  In t (treasures st) /\ In (Treasure.treasureId t) geoNear /\ Treasure.isActive t = true.
Proof.
  unfold Treasure_find_near. rewrite filter_In, in_flat_map. split.
  - intros [(id & Hid & Hin) Hactive]. apply filter_In in Hin as [Hin Heq].
    apply String.eqb_eq in Heq. subst id. auto.
  - intros (Hin & Hid & Hactive). split; [| exact Hactive].
    exists (Treasure.treasureId t). split; [exact Hid |].
    apply filter_In. split; [exact Hin | apply String.eqb_refl].
Qed.

Lemma discovered_includes st treasureId :
  existsb (String.eqb treasureId) (TreasureDiscovery_distinct_treasureId st) = true <->
  In treasureId (map TreasureDiscovery.treasureId (discoveries st)).
Proof.
  unfold TreasureDiscovery_distinct_treasureId. rewrite existsb_exists. split.
  - intros (x & Hin & Heq). apply String.eqb_eq in Heq. subst x.
    apply nodup_In in Hin. exact Hin.
  - intros Hin. exists treasureId. split; [apply nodup_In; exact Hin | apply String.eqb_refl].
Qed.

Lemma nearby_here_valid : nearby_validationResult World.here = true.
Proof.
  unfold nearby_validationResult, World.here. cbn [NearbyQuery.lat NearbyQuery.lng NearbyQuery.radius].
  rewrite !in_range_true by lra. reflexivity.
Qed.

End NearbyList.

Section IndexOrder.

Open Scope R_scope.

(** [(a, b) => a.distance - b.distance] is [NaN] when the first distance is:
    the sort then leaves the array as it is. *)
Lemma insert_NaN x l :
  Nearby.distance x = NaN -> insert by_distance x l = x :: l.
Proof.
  intros Hx. destruct l as [| y l]; [reflexivity |]. cbn.
  unfold by_distance. rewrite Hx. reflexivity.
Qed.

Lemma sort_NaN l :
  Forall (fun e => Nearby.distance e = NaN) l -> sort by_distance l = l.
Proof.
  induction 1 as [| x l Hx _ IH]; [reflexivity |].
  unfold sort in *. cbn. rewrite IH. apply insert_NaN. exact Hx.
Qed.

Lemma StronglySorted_app {A : Type} (R : A -> A -> Prop) l m :
  StronglySorted R l -> StronglySorted R m ->
  (forall x y, In x l -> In y m -> R x y) ->
  StronglySorted R (l ++ m).
Proof.
  intros Hl Hm Hlm. induction Hl as [| x l Hl IH Hx]; [exact Hm |].
  cbn. constructor.
  - apply IH. intros a b Ha Hb. apply Hlm; [right; exact Ha | exact Hb].
  - apply Forall_app. split; [exact Hx |].
    apply Forall_forall. intros y Hy. apply Hlm; [left; reflexivity | exact Hy].
Qed.

Lemma StronglySorted_filter {A : Type} (R : A -> A -> Prop) (p : A -> bool) l :
  StronglySorted R l -> StronglySorted R (filter p l).
Proof.
  induction 1 as [| x l Hl IH Hx]; [constructor |].
  cbn. destruct (p x); [| exact IH].
  constructor; [exact IH |].
  apply Forall_forall. intros y Hy. apply filter_In in Hy as [Hy _].
  rewrite Forall_forall in Hx. apply Hx. exact Hy.
Qed.

Lemma StronglySorted_firstn {A : Type} (R : A -> A -> Prop) n l :
  StronglySorted R l -> StronglySorted R (firstn n l).
Proof.
  intros Hl. revert n. induction Hl as [| x l Hl IH Hx]; intros [| n]; cbn; try constructor.
  - apply IH.
  - apply Forall_forall. intros y Hy. apply In_firstn in Hy.
    rewrite Forall_forall in Hx. apply Hx. exact Hy.
Qed.

Lemma StronglySorted_map {A B : Type} (R : B -> B -> Prop) (f : A -> B) l :
  StronglySorted (fun a b => R (f a) (f b)) l -> StronglySorted R (map f l).
Proof.
  induction 1 as [| x l Hl IH Hx]; cbn; constructor; [exact IH |].
  apply Forall_map. exact Hx.
Qed.

(** The documents of the query come in the order of the index. *)
Lemma find_near_nearest_first metres geoNear st :
  nearest_first metres geoNear ->
  StronglySorted (fun a b => metres (Treasure.treasureId a) <= metres (Treasure.treasureId b))
                 (Treasure_find_near geoNear st).
Proof.
  intros Hnear. unfold Treasure_find_near. apply StronglySorted_filter.
  induction Hnear as [| id geoNear Hnear IH Hid]; [constructor |].
  cbn [flat_map]. apply StronglySorted_app.
  - assert (Hsame : forall l : list Treasure.t,
               Forall (fun t => Treasure.treasureId t = id) l ->
               StronglySorted
                 (fun a b => metres (Treasure.treasureId a) <= metres (Treasure.treasureId b)) l).
    { induction 1 as [| x l Hx Hl IHl]; constructor; [exact IHl |].
      eapply Forall_impl; [| exact Hl]. intros y Hy. rewrite Hx, Hy. lra. }
    apply Hsame. apply Forall_forall. intros t Ht.
    apply filter_In in Ht as [_ Ht]. apply String.eqb_eq in Ht. exact Ht.
  - exact IH.
  - intros x y Hx Hy.
    apply filter_In in Hx as [_ Hx]. apply String.eqb_eq in Hx.
    apply in_flat_map in Hy as (id' & Hid' & Hy).
    apply filter_In in Hy as [_ Hy]. apply String.eqb_eq in Hy.
    rewrite Hx, Hy. rewrite Forall_forall in Hid. apply Hid. exact Hid'.
Qed.

End IndexOrder.

(** C8, as amended.  The list a nearby query returns has at most 20 entries;
    each of them stands for an active treasure of the store that the index
    reports within the radius, that is among the first 20 such treasures and
    that has no discovery; every undiscovered treasure among those first 20
    appears in it (and none beyond them, however short the list); and on a
    store as the schema holds it the entries come in the order of the
    index, which is the ascending order of the distance from the query
    point. *)
Theorem nearby_lists_the_undiscovered_of_the_first_twenty :
  forall geoNear q st l,
    nearby geoNear q st = NearbyFound l ->
    let first20 := firstn 20 (Treasure_find_near geoNear st) in
    let discovered := map TreasureDiscovery.treasureId (discoveries st) in
    (List.length l <= 20)%nat
    /\ (forall e, In e l ->
          exists t,
            In t first20
            /\ In t (treasures st)
            /\ Treasure.isActive t = true
            /\ In (Treasure.treasureId t) geoNear
            /\ ~ In (Treasure.treasureId t) discovered
            /\ Nearby.treasureId e = Treasure.treasureId t)
    /\ (forall t, In t first20 ->
          ~ In (Treasure.treasureId t) discovered ->
          exists e, In e l /\ Nearby.treasureId e = Treasure.treasureId t)
    /\ (stored_by_the_schema st ->
        map Nearby.treasureId l
        = map Treasure.treasureId
              (filter (fun t => negb (existsb (String.eqb (Treasure.treasureId t)) discovered))
                      first20)
        /\ forall metres, nearest_first metres geoNear -> in_ascending_distance metres l).
Proof.
  intros geoNear q st l. unfold nearby.
  destruct (nearby_validationResult q); [| discriminate]. cbn [negb]. cbv zeta.
  set (first20 := firstn 20 (Treasure_find_near geoNear st)).
  set (available :=
         filter (fun treasure =>
                   negb (existsb (String.eqb (Treasure.treasureId treasure))
                                 (TreasureDiscovery_distinct_treasureId st))) first20).
  set (entry := fun treasure : Treasure.t => Nearby.mk _ _ _ _ _ _ _ _ _ _ _).
  intros H. injection H as <-.
  pose proof (sort_Permutation by_distance (map entry available)) as Hperm.
  assert (Havailable : forall t,
             In t available <->
             In t first20
             /\ ~ In (Treasure.treasureId t)
                     (map TreasureDiscovery.treasureId (discoveries st))).
  { intros t. unfold available. rewrite filter_In, negb_true_iff.
    rewrite <- discovered_includes, not_true_iff_false. reflexivity. }
  split; [| split; [| split]].
  - rewrite (Permutation_length Hperm), length_map.
    apply Nat.le_trans with (List.length first20).
    + apply filter_length.
    + apply firstn_le_length.
  - intros e He. apply (Permutation_in _ Hperm) in He.
    apply in_map_iff in He as (t & <- & Ht).
    apply Havailable in Ht as [Hfirst Hnew].
    exists t. split; [exact Hfirst |].
    apply In_firstn, find_near_In in Hfirst as (Hin & Hnear & Hactive).
    repeat (split; [assumption |]). reflexivity.
  - intros t Hfirst Hnew. exists (entry t). split; [| reflexivity].
    apply (Permutation_in _ (Permutation_sym Hperm)).
    apply in_map. apply Havailable. auto.
  - intros Hschema.
    assert (Hsort : sort by_distance (map entry available) = map entry available).
    { apply sort_NaN. apply Forall_forall. intros e He.
      apply in_map_iff in He as (t & <- & Ht).
      apply Havailable in Ht as [Hfirst _].
      apply In_firstn, find_near_In in Hfirst as (Hin & _).
      unfold stored_by_the_schema in Hschema. rewrite Forall_forall in Hschema.
      destruct (Hschema t Hin) as [Hlat Hlng].
      unfold entry. cbn [Nearby.distance]. cbv zeta.
      rewrite (proj1 (calculateDistance_NaN (NearbyQuery.lat q) (NearbyQuery.lng q)
                        (Treasure.latitude t) (Treasure.longitude t)
                        (or_intror (or_intror (or_introl Hlat))))).
      reflexivity. }
    rewrite Hsort. split.
    + rewrite map_map. cbn [entry Nearby.treasureId]. unfold available.
      f_equal. apply filter_ext. intros t. f_equal.
      apply eq_true_iff_eq. rewrite discovered_includes, existsb_exists. split.
      * intros Hin. exists (Treasure.treasureId t). split; [exact Hin | apply String.eqb_refl].
      * intros (x & Hin & Heq). apply String.eqb_eq in Heq. subst x. exact Hin.
    + intros metres Hnear. unfold in_ascending_distance.
      apply StronglySorted_map. cbn [entry Nearby.treasureId].
      unfold available, first20.
      apply StronglySorted_filter, StronglySorted_firstn, find_near_nearest_first.
      exact Hnear.
Qed.

Lemma nearby_lists_the_undiscovered_of_the_first_twenty_witness :
  exists l,
    nearby World.lane_near World.here Schema.lane = NearbyFound l
    /\ (List.length l <= 20)%nat
    /\ (exists e, In e l /\ Nearby.treasureId e = "hanoi_old_quarter_001")
    /\ (exists e, In e l /\ Nearby.treasureId e = "hanoi_north_gate_001")
    /\ stored_by_the_schema Schema.lane
    /\ nearest_first Schema.metres_from_here World.lane_near
    /\ map Nearby.treasureId l = ["hanoi_old_quarter_001"; "hanoi_north_gate_001"]
    /\ in_ascending_distance Schema.metres_from_here l.
Proof.
  destruct (nearby World.lane_near World.here Schema.lane) as [| l] eqn:Hrun.
  { exfalso. revert Hrun. unfold nearby. rewrite nearby_here_valid. discriminate. }
  destruct (nearby_lists_the_undiscovered_of_the_first_twenty
              World.lane_near World.here Schema.lane l Hrun)
    as (Hlen & Hsound & Hcomplete & Horder).
  change (firstn 20 (Treasure_find_near World.lane_near Schema.lane))
    with [Scenes.stored_old_quarter; Schema.dong_xuan; Schema.north_gate]
    in Hsound, Hcomplete, Horder.
  assert (Hschema : stored_by_the_schema Schema.lane).
  { repeat constructor. }
  assert (Hnear : nearest_first Schema.metres_from_here World.lane_near).
  { unfold nearest_first, World.lane_near.
    repeat constructor; unfold Schema.metres_from_here; cbn; lra. }
  destruct (Horder Hschema) as [Hids Hsorted].
  exists l. split; [reflexivity |]. split; [exact Hlen |].
  split.
  { apply (Hcomplete Scenes.stored_old_quarter).
    - left. reflexivity.
    - intros [H | []]. discriminate H. }
  split.
  { apply (Hcomplete Schema.north_gate).
    - right. right. left. reflexivity.
    - intros [H | []]. discriminate H. }
  split; [exact Hschema |]. split; [exact Hnear |].
  split; [exact Hids | exact (Hsorted _ Hnear)].
Defined.

(** The claim as stated fails where the nearest twenty are discovered: the
    query returns no entry at all, far fewer than 20, while an active,
    undiscovered treasure lies within the radius. *)
Lemma nearby_misses_the_twenty_first :
  nearby World.crowded_near World.here World.crowded = NearbyFound []
  /\ In World.far_treasure (treasures World.crowded)
  /\ Treasure.isActive World.far_treasure = true
  /\ In (Treasure.treasureId World.far_treasure) World.crowded_near
  /\ ~ In (Treasure.treasureId World.far_treasure)
          (map TreasureDiscovery.treasureId (discoveries World.crowded)).
Proof.
  split; [| split; [| split; [| split]]].
  - unfold nearby. rewrite nearby_here_valid. reflexivity.
  - apply in_or_app. right. left. reflexivity.
  - reflexivity.
  - apply in_or_app. right. left. reflexivity.
  - cbn. intros H.
    repeat (destruct H as [H | H]; [discriminate H |]). exact H.
Qed.

(** ** The helpers on a few inputs *)

Section Helpers.

Example includes_balance_message :
  includes "Insufficient SUI balance for transaction. Need at least 0.05 SUI for gas."
           "Insufficient SUI balance" = true
  /\ includes "Request timed out" "Insufficient SUI balance" = false.
Proof. split; reflexivity. Qed.

Example split_coordinates :
  split "," "21.0285, 105.8542" = ["21.0285"; " 105.8542"]
  /\ split "," "gps_verified" = ["gps_verified"]
  /\ split "," "" = [""].
Proof. repeat split. Qed.

Example parseDecimal_literals :
  parseDecimal " 105.8542" = Some (false, 1058542, -4)
  /\ parseDecimal "-.5e-3" = Some (true, 5, -4)
  /\ parseDecimal "1e" = Some (false, 1, 0)
  /\ parseDecimal "gps_verified" = None.
Proof. repeat split. Qed.

Example generateTreasureName_patterns :
  generateTreasureName "VN_RARE_777" = "Vietnamese Rare 777 Treasure"
  /\ generateTreasureName "VN_COMMON_001" = "Vietnamese Common 001"
  /\ generateTreasureName "golden_DRAGON_x" = "Golden Dragon X Dragon Artifact".
Proof. repeat split. Qed.

Example discoverTreasure_at_the_limit :
  SuiService_discoverTreasure (Sui.mk "" 50000000 "0xregistry" (Sui.Mints "0xabc" "digest" None))
  = Returns (Sui.mkMinted "digest" "0xabc" None)
  /\ SuiService_discoverTreasure (Sui.mk "" 50000000 "0xregistry" (Sui.Fails ""))
     = Throws "Transaction failed: Unknown error".
Proof. split; reflexivity. Qed.

End Helpers.

(* ------------------------------------------------------------------ *)
(** * Further properties: what a claim writes, the verifiers, the middleware *)

(** ** What a claim writes *)

Section Writes.

Lemma find_app_last {A : Type} (p : A -> bool) (l : list A) (x : A) :
  existsb p l = false -> p x = true -> find p (l ++ [x]) = Some x.
Proof.
  intros Hl Hx. induction l as [| y l IH]; cbn in *.
  - rewrite Hx. reflexivity.
  - apply orb_false_iff in Hl as [Hy Hl]. rewrite Hy. apply IH. exact Hl.
Qed.

Lemma findOne_other_after_save coll userId p' :
  HunterProfile.userId p' <> userId ->
  find (fun q => String.eqb (HunterProfile.userId q) userId) (HunterProfile_save p' coll)
  = find (fun q => String.eqb (HunterProfile.userId q) userId) coll.
Proof.
  intros Hne. apply String.eqb_neq in Hne. unfold HunterProfile_save.
  induction coll as [| q coll IH]; [reflexivity |]. cbn.
  destruct (String.eqb (HunterProfile.userId q) (HunterProfile.userId p')) eqn:E.
  - apply String.eqb_eq in E. rewrite Hne, E, Hne. exact IH.
  - destruct (String.eqb (HunterProfile.userId q) userId); [reflexivity | exact IH].
Qed.

Lemma findOne_userId st userId p :
  HunterProfile_findOne st userId = Some p -> HunterProfile.userId p = userId.
Proof.
  intros H. apply find_some in H as [_ H]. apply String.eqb_eq in H. exact H.
Qed.

Lemma Treasure_save_inr t coll coll' :
  Treasure_save t coll = inr coll' ->
  exists x,
    coll' = coll ++ [x]
    /\ Treasure.treasureId x = trim (Treasure.treasureId t)
    /\ Treasure.latitude x = NaN
    /\ Treasure.longitude x = NaN
    /\ existsb (fun y => String.eqb (Treasure.treasureId y) (Treasure.treasureId x)) coll
       = false.
Proof.
  unfold Treasure_save. cbv zeta.
  destruct (negb _); [discriminate |].
  destruct (existsb _ coll) eqn:E; [discriminate |].
  intros H. injection H as <-. eexists. split; [reflexivity |]. cbn. auto.
Qed.

(** What a commit of the first variant leaves behind, whatever it answers. *)
Lemma commit_v1_writes env req c discoveryResult st :
  let st' := snd (commit_v1 env req c discoveryResult st) in
  users st' = users st
  /\ treasures st' = treasures st
  /\ (discoveries st' = discoveries st
      \/ exists d,
          discoveries st' = discoveries st ++ [d]
          /\ TreasureDiscovery_validate d = []
          /\ TreasureDiscovery_duplicate d (discoveries st) = None
          /\ TreasureDiscovery.userId d = Request.userId req
          /\ TreasureDiscovery.treasureId d = Request.treasureId req
          /\ TreasureDiscovery.discoveredAt d = t_found env)
  /\ (hunterProfiles st' = hunterProfiles st
      \/ exists hunterProfile,
          Checked.hunterProfile c = Some hunterProfile
          /\ hunterProfiles st' =
             HunterProfile_save
               (updateHunterProfile env (Treasure.rewardPoints (Checked.treasure c))
                                    hunterProfile)
               (hunterProfiles st)).
Proof.
  unfold commit_v1. cbv zeta.
  match goal with
  | |- context [TreasureDiscovery_save ?d ?l] =>
      destruct (TreasureDiscovery_save d l) as [e | saved] eqn:E
  end.
  - cbn. auto.
  - apply save_inr in E as (-> & Hvalid & Hdup).
    destruct (Checked.hunterProfile c) as [hunterProfile |]; cbn.
    + split; [reflexivity |]. split; [reflexivity |]. split.
      * right. eexists. split; [reflexivity |]. split; [exact Hvalid |].
        split; [exact Hdup |]. cbn. auto.
      * right. eexists. split; reflexivity.
    + split; [reflexivity |]. split; [reflexivity |]. split; [| left; reflexivity].
      right. eexists. split; [reflexivity |]. split; [exact Hvalid |].
      split; [exact Hdup |]. cbn. auto.
Qed.

(** What a commit of the second variant leaves behind. *)
Lemma commit_v2_writes env req c discoveryResult st :
  let st' := snd (commit_v2 env req c discoveryResult st) in
  users st' = users st
  /\ (treasures st' = treasures st
      \/ exists t, Treasure_save t (treasures st) = inr (treasures st'))
  /\ (discoveries st' = discoveries st
      \/ exists d,
          discoveries st' = discoveries st ++ [d]
          /\ TreasureDiscovery_validate d = []
          /\ TreasureDiscovery_duplicate d (discoveries st) = None
          /\ TreasureDiscovery.userId d = Request.userId req
          /\ TreasureDiscovery.treasureId d = Request.treasureId req
          /\ TreasureDiscovery.discoveredAt d = t_found env)
  /\ (hunterProfiles st' = hunterProfiles st
      \/ exists hunterProfile,
          Checked.hunterProfile c = Some hunterProfile
          /\ hunterProfiles st' =
             HunterProfile_save
               (updateHunterProfile env (Treasure.rewardPoints (Checked.treasure c))
                                    hunterProfile)
               (hunterProfiles st)).
Proof.
  unfold commit_v2. cbv zeta.
  match goal with
  | |- context [TreasureDiscovery_save ?d ?l] =>
      destruct (TreasureDiscovery_save d l) as [e | saved] eqn:E
  end.
  - cbn. auto.
  - apply save_inr in E as (-> & Hvalid & Hdup).
    destruct (Checked.hunterProfile c) as [hunterProfile |]; cbn [snd].
    + destruct (Treasure.fromBlockchain (Checked.treasure c)).
      * match goal with
        | |- context [Treasure_save ?t ?l] =>
            destruct (Treasure_save t l) as [e | saved] eqn:E
        end.
        -- cbn. split; [reflexivity |]. split; [left; reflexivity |]. split.
           ++ right. eexists. split; [reflexivity |]. split; [exact Hvalid |].
              split; [exact Hdup |]. cbn. auto.
           ++ right. eexists. split; reflexivity.
        -- cbn. split; [reflexivity |]. split; [right; eexists; exact E |].
           split.
           ++ right. eexists. split; [reflexivity |]. split; [exact Hvalid |].
              split; [exact Hdup |]. cbn. auto.
           ++ right. eexists. split; reflexivity.
      * cbn. split; [reflexivity |]. split; [left; reflexivity |]. split.
        -- right. eexists. split; [reflexivity |]. split; [exact Hvalid |].
           split; [exact Hdup |]. cbn. auto.
        -- right. eexists. split; reflexivity.
    + cbn. split; [reflexivity |]. split; [left; reflexivity |]. split; [| left; reflexivity].
      right. eexists. split; [reflexivity |]. split; [exact Hvalid |].
      split; [exact Hdup |]. cbn. auto.
Qed.

End Writes.

(** ** All or nothing *)

Section Outcomes.

Lemma checks_v1_inl_not_Discovered req st r report :
  checks_v1 req st = inl r -> r <> Discovered report.
Proof.
  unfold checks_v1.
  destruct (validationResult req); cbn [negb]; [| intros H; injection H as <-; discriminate].
  destruct (Treasure_findOne_active st _); [| intros H; injection H as <-; discriminate].
  destruct (TreasureDiscovery_findOne st _); [intros H; injection H as <-; discriminate |].
  cbv zeta.
  destruct (gt _ (Num 100)); [intros H; injection H as <-; discriminate |].
  destruct (_ <? _)%N; [intros H; injection H as <-; discriminate |].
  destruct (User_findById st _); [discriminate | intros H; injection H as <-; discriminate].
Qed.

Lemma checks_v2_inl_not_Discovered req st r report :
  checks_v2 req st = inl r -> r <> Discovered report.
Proof.
  unfold checks_v2.
  destruct (validationResult req); cbn [negb]; [| intros H; injection H as <-; discriminate].
  cbv zeta.
  destruct (TreasureDiscovery_findOne st _); [intros H; injection H as <-; discriminate |].
  destruct (gt _ (Num 100)); [intros H; injection H as <-; discriminate |].
  destruct (HunterProfile_findOne st _); [| intros H; injection H as <-; discriminate].
  destruct (_ <? _)%N; [intros H; injection H as <-; discriminate |].
  destruct (User_findById st _); [discriminate | intros H; injection H as <-; discriminate].
Qed.

Lemma callChain_v2_inl_not_Discovered env user r report :
  callChain_v2 env user = inl r -> r <> Discovered report.
Proof.
  unfold callChain_v2.
  destruct (has_credentials user); [| discriminate].
  destruct (SuiService_discoverTreasure (chain env)); [discriminate |].
  repeat match goal with |- context [if ?b then _ else _] => destruct b end;
    try discriminate; intros H; injection H as <-; discriminate.
Qed.

Lemma commit_v1_report_treasure env req c discoveryResult st report st' :
  commit_v1 env req c discoveryResult st = (Discovered report, st') ->
  Report.treasure report = Checked.treasure c.
Proof.
  unfold commit_v1. cbv zeta.
  match goal with
  | |- context [TreasureDiscovery_save ?d ?l] => destruct (TreasureDiscovery_save d l)
  end.
  - intros H. injection H as H _. exfalso. exact (catch_v1_not_Discovered _ _ H).
  - destruct (Checked.hunterProfile c).
    + intros H. injection H as <- _. reflexivity.
    + intros H. injection H as H _. exfalso. exact (catch_v1_not_Discovered _ _ H).
Qed.

(** A 200 answer of the first variant comes from its commit. *)
Lemma discover_v1_commit env req st report st' :
  discover_v1 env req st = (Discovered report, st') ->
  exists c,
    checks_v1 req st = inr c
    /\ commit_v1 env req c (callChain_v1 env (Checked.user c)) st = (Discovered report, st').
Proof.
  unfold discover_v1. destruct (checks_v1 req st) as [r | c] eqn:Hc.
  - intros H. injection H as -> _. exfalso.
    exact (checks_v1_inl_not_Discovered _ _ _ report Hc eq_refl).
  - intros H. exists c. auto.
Qed.

Lemma discover_v2_commit env req st report st' :
  discover_v2 env req st = (Discovered report, st') ->
  exists c discoveryResult,
    checks_v2 req st = inr c
    /\ callChain_v2 env (Checked.user c) = inr discoveryResult
    /\ commit_v2 env req c discoveryResult st = (Discovered report, st').
Proof.
  unfold discover_v2. destruct (checks_v2 req st) as [r | c] eqn:Hc.
  - intros H. injection H as -> _. exfalso.
    exact (checks_v2_inl_not_Discovered _ _ _ report Hc eq_refl).
  - destruct (callChain_v2 env (Checked.user c)) as [r | discoveryResult] eqn:Hchain.
    + intros H. injection H as -> _. exfalso.
      exact (callChain_v2_inl_not_Discovered _ _ _ report Hchain eq_refl).
    + intros H. exists c, discoveryResult. auto.
Qed.

End Outcomes.

(** X1.  The second variant of [POST /discover] is all or nothing: a request
    that is not answered 200 leaves the store as it found it, with no
    discovery, no progressed profile and no new treasure. *)
Theorem discover_v2_is_all_or_nothing :
  forall env req st,
    (exists report, fst (discover_v2 env req st) = Discovered report)
    \/ snd (discover_v2 env req st) = st.
Proof.
  intros env req st. unfold discover_v2.
  destruct (checks_v2 req st) as [r | c] eqn:Hc; [right; reflexivity |].
  destruct (callChain_v2 env (Checked.user c)); [right; reflexivity |].
  apply checks_v2_inr in Hc as (_ & _ & _ & _ & _ & (hunterProfile & Hp & _) & _).
  unfold commit_v2. cbv zeta.
  match goal with
  | |- context [TreasureDiscovery_save ?d ?l] => destruct (TreasureDiscovery_save d l)
  end; [right; reflexivity |].
  rewrite Hp. left. eexists. reflexivity.
Qed.

(** X2.  Whatever it answers, a claim through either variant leaves the
    users alone, keeps every treasure and every discovery that was stored,
    appends at most one treasure and at most one discovery, that one being a
    discovery by the claimant of the claimed treasure, and changes the
    profile of no other player. *)
Theorem a_claim_writes_only_its_own_records :
  forall env req st st',
    st' = snd (discover_v1 env req st) \/ st' = snd (discover_v2 env req st) ->
    users st' = users st
    /\ (exists added, treasures st' = treasures st ++ added /\ (List.length added <= 1)%nat)
    /\ (exists added,
           discoveries st' = discoveries st ++ added
           /\ (List.length added <= 1)%nat
           /\ Forall (fun d => TreasureDiscovery.userId d = Request.userId req
                               /\ TreasureDiscovery.treasureId d = Request.treasureId req)
                     added)
    /\ (forall userId,
           userId <> Request.userId req ->
           HunterProfile_findOne st' userId = HunterProfile_findOne st userId).
Proof.
  intros env req' st st' Hst'.
  destruct Hst' as [-> | ->].
  - unfold discover_v1. destruct (checks_v1 req' st) as [r | c] eqn:Hc.
    + cbn [snd]. split; [reflexivity |].
      split; [exists []; rewrite app_nil_r; cbn; auto |].
      split; [exists []; rewrite app_nil_r; cbn; auto |]. reflexivity.
    + destruct (commit_v1_writes env req' c (callChain_v1 env (Checked.user c)) st)
        as (Husers & Htreasures & Hdiscoveries & Hsaved).
      split; [exact Husers |].
      split; [exists []; rewrite app_nil_r; cbn; auto |].
      split.
      * destruct Hdiscoveries as [-> | (d & -> & _ & _ & Hu & Ht & _)].
        -- exists []. rewrite app_nil_r. cbn. auto.
        -- exists [d]. cbn. auto.
      * intros userId Hother. unfold HunterProfile_findOne.
        destruct Hsaved as [-> | (p & Hp & ->)]; [reflexivity |].
        apply findOne_other_after_save.
        rewrite updateHunterProfile_userId.
        apply checks_v1_inr in Hc as (_ & _ & _ & _ & _ & Hfind & _).
        rewrite Hfind in Hp. rewrite (findOne_userId _ _ _ Hp). congruence.
  - unfold discover_v2. destruct (checks_v2 req' st) as [r | c] eqn:Hc.
    + cbn [snd]. split; [reflexivity |].
      split; [exists []; rewrite app_nil_r; cbn; auto |].
      split; [exists []; rewrite app_nil_r; cbn; auto |]. reflexivity.
    + destruct (callChain_v2 env (Checked.user c)) as [r | discoveryResult].
      { cbn [snd]. split; [reflexivity |].
        split; [exists []; rewrite app_nil_r; cbn; auto |].
        split; [exists []; rewrite app_nil_r; cbn; auto |]. reflexivity. }
      destruct (commit_v2_writes env req' c discoveryResult st)
        as (Husers & Htreasures & Hdiscoveries & Hsaved).
      split; [exact Husers |].
      split.
      * destruct Htreasures as [-> | (t & Hsave)].
        -- exists []. rewrite app_nil_r. cbn. auto.
        -- apply Treasure_save_inr in Hsave as (x & -> & _). exists [x]. cbn. auto.
      * split.
        -- destruct Hdiscoveries as [-> | (d & -> & _ & _ & Hu & Ht & _)].
           ++ exists []. rewrite app_nil_r. cbn. auto.
           ++ exists [d]. cbn. auto.
        -- intros userId Hother. unfold HunterProfile_findOne.
           destruct Hsaved as [-> | (p & Hp & ->)]; [reflexivity |].
           apply findOne_other_after_save.
           rewrite updateHunterProfile_userId.
           apply checks_v2_inr in Hc as (_ & _ & _ & _ & _ & (q & Hq & Hfind) & _).
           rewrite Hq in Hp. injection Hp as <-.
           rewrite (findOne_userId _ _ _ Hfind). congruence.
Qed.

Lemma a_claim_writes_only_its_own_records_witness :
  let st' := snd (discover_v1 (World.env World.timeout) (World.claim "alice") World.store) in
  users st' = users World.store
  /\ (exists added, treasures st' = treasures World.store ++ added
                    /\ (List.length added <= 1)%nat)
  /\ (exists added,
         discoveries st' = discoveries World.store ++ added
         /\ (List.length added <= 1)%nat
         /\ Forall (fun d => TreasureDiscovery.userId d = "alice"
                             /\ TreasureDiscovery.treasureId d = "hanoi_old_quarter_001")
                   added)
  /\ (forall userId,
         userId <> "alice" ->
         HunterProfile_findOne st' userId = HunterProfile_findOne World.store userId).
Proof.
  exact (a_claim_writes_only_its_own_records
           (World.env World.timeout) (World.claim "alice") World.store _ (or_introl eq_refl)).
Defined.

(** Claims keep a store as the schema holds it: the one treasure a claim may
    add is stored by [Treasure_save]. *)
Lemma claims_keep_the_schema st st' :
  after_claims st st' -> stored_by_the_schema st -> stored_by_the_schema st'.
Proof.
  unfold stored_by_the_schema.
  induction 1 as [| st st' st'' _ IH Hstep]; intros Hst; [exact Hst |].
  specialize (IH Hst).
  assert (Hv1 : forall env req c discoveryResult,
             Forall (fun t => Treasure.latitude t = NaN /\ Treasure.longitude t = NaN)
                    (treasures (snd (commit_v1 env req c discoveryResult st')))).
  { intros env req c discoveryResult.
    destruct (commit_v1_writes env req c discoveryResult st') as (_ & -> & _). exact IH. }
  assert (Hv2 : forall env req c discoveryResult,
             Forall (fun t => Treasure.latitude t = NaN /\ Treasure.longitude t = NaN)
                    (treasures (snd (commit_v2 env req c discoveryResult st')))).
  { intros env req c discoveryResult.
    destruct (commit_v2_writes env req c discoveryResult st') as (_ & [-> | (t & Hsave)] & _);
      [exact IH |].
    apply Treasure_save_inr in Hsave as (x & -> & _ & Hlat & Hlng & _).
    apply Forall_app. split; [exact IH |]. constructor; [auto | constructor]. }
  destruct Hstep as [env req st' | env req st' | env req st0 c st' _
                    | env req st0 c discoveryResult st' _ _ | st' st'' Htreasures _].
  - unfold discover_v1. destruct (checks_v1 req st'); [exact IH | apply Hv1].
  - unfold discover_v2. destruct (checks_v2 req st'); [exact IH |].
    destruct (callChain_v2 env _); [exact IH | apply Hv2].
  - apply Hv1.
  - apply Hv2.
  - rewrite Htreasures. exact IH.
Qed.

Section LaterClaims.

Lemma find_app_some {A : Type} (p : A -> bool) (l m : list A) (x : A) :
  find p l = Some x -> find p (l ++ m) = Some x.
Proof.
  induction l as [| y l IH]; cbn; [discriminate |].
  destruct (p y); [auto | exact IH].
Qed.

(** A claim keeps every treasure and every discovery, in their order. *)
Lemma claim_step_appends st st' :
  claim_step st st' -> only_appended st st'.
Proof.
  unfold only_appended.
  assert (Hsame : forall s : Store,
             (exists added, treasures s = treasures s ++ added)
             /\ (exists added, discoveries s = discoveries s ++ added)).
  { intros s. split; exists []; rewrite app_nil_r; reflexivity. }
  assert (Hv1 : forall env req c discoveryResult s,
             (exists added,
                 treasures (snd (commit_v1 env req c discoveryResult s)) = treasures s ++ added)
             /\ (exists added,
                    discoveries (snd (commit_v1 env req c discoveryResult s))
                    = discoveries s ++ added)).
  { intros env req c discoveryResult s.
    destruct (commit_v1_writes env req c discoveryResult s) as (_ & -> & Hd & _).
    split; [exists []; rewrite app_nil_r; reflexivity |].
    destruct Hd as [-> | (d & -> & _)];
      [exists []; rewrite app_nil_r; reflexivity | exists [d]; reflexivity]. }
  assert (Hv2 : forall env req c discoveryResult s,
             (exists added,
                 treasures (snd (commit_v2 env req c discoveryResult s)) = treasures s ++ added)
             /\ (exists added,
                    discoveries (snd (commit_v2 env req c discoveryResult s))
                    = discoveries s ++ added)).
  { intros env req c discoveryResult s.
    destruct (commit_v2_writes env req c discoveryResult s) as (_ & Ht & Hd & _).
    split.
    - destruct Ht as [-> | (t & Hsave)]; [exists []; rewrite app_nil_r; reflexivity |].
      apply Treasure_save_inr in Hsave as (x & -> & _). exists [x]. reflexivity.
    - destruct Hd as [-> | (d & -> & _)];
        [exists []; rewrite app_nil_r; reflexivity | exists [d]; reflexivity]. }
  intros [env req s | env req s | env req st0 c s _
         | env req st0 c discoveryResult s _ _ | s s' Htreasures Hdiscoveries].
  - unfold discover_v1. destruct (checks_v1 req s); [apply Hsame | apply Hv1].
  - unfold discover_v2. destruct (checks_v2 req s); [apply Hsame |].
    destruct (callChain_v2 env _); [apply Hsame | apply Hv2].
  - apply Hv1.
  - apply Hv2.
  - rewrite Htreasures, Hdiscoveries. apply Hsame.
Qed.

(** Every interleaving of claims only appends. *)
Lemma after_claims_appends st st' :
  after_claims st st' -> only_appended st st'.
Proof.
  unfold only_appended.
  induction 1 as [| st st' st'' _ [[t Ht] [d Hd]] Hstep].
  - split; exists []; rewrite app_nil_r; reflexivity.
  - apply claim_step_appends in Hstep as [[t' Ht'] [d' Hd']].
    split; [exists (t ++ t') | exists (d ++ d')]; rewrite app_assoc; congruence.
Qed.

(** What the first claim finds stays the first match of both queries. *)
Lemma found_later st st' treasureId :
  only_appended st st' ->
  (forall t, Treasure_findOne_active st treasureId = Some t ->
             Treasure_findOne_active st' treasureId = Some t)
  /\ (forall d, TreasureDiscovery_findOne st treasureId = Some d ->
                TreasureDiscovery_findOne st' treasureId = Some d).
Proof.
  intros [[t Ht] [d Hd]].
  unfold Treasure_findOne_active, TreasureDiscovery_findOne. rewrite Ht, Hd.
  split; intros x Hx; apply find_app_some; exact Hx.
Qed.

(** The discovery that a 200 answer leaves behind. *)
Lemma discover_v1_leaves env req st report st' :
  discover_v1 env req st = (Discovered report, st') ->
  exists t d,
    Treasure_findOne_active st' (Request.treasureId req) = Some t
    /\ TreasureDiscovery_findOne st' (Request.treasureId req) = Some d
    /\ TreasureDiscovery.userId d = Request.userId req
    /\ TreasureDiscovery.discoveredAt d = t_found env.
Proof.
  intros Hrun.
  apply discover_v1_commit in Hrun as (c & Hc & Hcommit).
  pose proof (commit_v1_writes env req c (callChain_v1 env (Checked.user c)) st) as Hw.
  rewrite Hcommit in Hw. cbn [snd] in Hw.
  destruct Hw as (_ & Htreasures & Hdiscoveries & _).
  apply checks_v1_inr in Hc as (_ & Hactive & Hnone & _).
  destruct Hdiscoveries as [Hsame | (d & Hst' & _ & Hdup & Hu & Ht & Hat)].
  { exfalso.
    apply commit_v1_Discovered in Hcommit as (_ & d & _ & Hsave & _).
    apply save_inr in Hsave as (Hsave & _). rewrite Hsame in Hsave.
    apply (f_equal (@List.length _)) in Hsave. rewrite length_app in Hsave. cbn in Hsave. lia. }
  exists (Checked.treasure c), d.
  split; [unfold Treasure_findOne_active in *; rewrite Htreasures; exact Hactive |].
  split; [| auto].
  unfold TreasureDiscovery_findOne. rewrite Hst'. apply find_app_last.
  - apply duplicate_None in Hdup as (_ & H & _). rewrite <- Ht. exact H.
  - rewrite Ht. apply String.eqb_refl.
Qed.

Lemma discover_v2_leaves env req st report st' :
  discover_v2 env req st = (Discovered report, st') ->
  exists d,
    TreasureDiscovery_findOne st' (Request.treasureId req) = Some d
    /\ TreasureDiscovery.userId d = Request.userId req
    /\ TreasureDiscovery.discoveredAt d = t_found env.
Proof.
  intros Hrun.
  apply discover_v2_commit in Hrun as (c & discoveryResult & Hc & _ & Hcommit).
  pose proof (commit_v2_writes env req c discoveryResult st) as Hw.
  rewrite Hcommit in Hw. cbn [snd] in Hw.
  destruct Hw as (_ & _ & Hdiscoveries & _).
  destruct Hdiscoveries as [Hsame | (d & Hst' & _ & Hdup & Hu & Ht & Hat)].
  { exfalso.
    apply commit_v2_Discovered in Hcommit as (_ & d & _ & Hsave & _).
    apply save_inr in Hsave as (Hsave & _). rewrite Hsame in Hsave.
    apply (f_equal (@List.length _)) in Hsave. rewrite length_app in Hsave. cbn in Hsave. lia. }
  exists d. split; [| auto].
  unfold TreasureDiscovery_findOne. rewrite Hst'. apply find_app_last.
  - apply duplicate_None in Hdup as (_ & H & _). rewrite <- Ht. exact H.
  - rewrite Ht. apply String.eqb_refl.
Qed.

(** A valid claim of a treasure that has a discovery. *)
Lemma discover_v1_already env req st t d :
  validationResult req = true ->
  Treasure_findOne_active st (Request.treasureId req) = Some t ->
  TreasureDiscovery_findOne st (Request.treasureId req) = Some d ->
  discover_v1 env req st
  = (AlreadyDiscovered (TreasureDiscovery.userId d) (TreasureDiscovery.discoveredAt d), st).
Proof.
  intros Hvalid Ht Hd. unfold discover_v1, checks_v1. rewrite Hvalid, Ht, Hd. reflexivity.
Qed.

Lemma discover_v2_already env req st d :
  validationResult req = true ->
  TreasureDiscovery_findOne st (Request.treasureId req) = Some d ->
  discover_v2 env req st
  = (AlreadyDiscovered (TreasureDiscovery.userId d) (TreasureDiscovery.discoveredAt d), st).
Proof.
  intros Hvalid Hd. unfold discover_v2, checks_v2. rewrite Hvalid, Hd. reflexivity.
Qed.

End LaterClaims.

(** X3.  Once a claim is answered 200, a valid claim of the same treasure
    is answered "already discovered" with the first claimant and the time of
    the first discovery, and writes nothing, on the store the first claim
    left and on every later store that still holds its treasures and its
    discoveries, unchanged, in their order: through both variants after a
    success of the first variant, through the second variant after a success
    of the second.  Every interleaving of claims leads to such a store
    ([after_claims_appends]); the seed script, which deletes the
    discoveries, and the routes of the administrator, which change a
    treasure, do not. *)
Theorem a_second_claim_is_answered_already_discovered :
  (forall env req st report st' st'' env' req',
      discover_v1 env req st = (Discovered report, st') ->
      only_appended st' st'' ->
      Request.treasureId req' = Request.treasureId req ->
      validationResult req' = true ->
      discover_v1 env' req' st''
      = (AlreadyDiscovered (Request.userId req) (t_found env), st'')
      /\ discover_v2 env' req' st''
         = (AlreadyDiscovered (Request.userId req) (t_found env), st''))
  /\ (forall env req st report st' st'' env' req',
         discover_v2 env req st = (Discovered report, st') ->
         only_appended st' st'' ->
         Request.treasureId req' = Request.treasureId req ->
         validationResult req' = true ->
         discover_v2 env' req' st''
         = (AlreadyDiscovered (Request.userId req) (t_found env), st'')).
Proof.
  split.
  - intros env req st report st' st'' env' req' Hrun Hlater Hid Hvalid.
    apply discover_v1_leaves in Hrun as (t & d & Ht & Hd & Hu & Hat).
    destruct (found_later st' st'' (Request.treasureId req) Hlater) as [Hts Hds].
    apply Hts in Ht. apply Hds in Hd. rewrite <- Hid in Ht, Hd.
    rewrite <- Hu, <- Hat. split.
    + exact (discover_v1_already env' req' st'' t d Hvalid Ht Hd).
    + exact (discover_v2_already env' req' st'' d Hvalid Hd).
  - intros env req st report st' st'' env' req' Hrun Hlater Hid Hvalid.
    apply discover_v2_leaves in Hrun as (d & Hd & Hu & Hat).
    destruct (found_later st' st'' (Request.treasureId req) Hlater) as [_ Hds].
    apply Hds in Hd. rewrite <- Hid in Hd.
    rewrite <- Hu, <- Hat.
    exact (discover_v2_already env' req' st'' d Hvalid Hd).
Qed.

Lemma a_second_claim_is_answered_already_discovered_witness :
  exists report st',
    discover_v1 (World.env World.timeout) (World.claim "alice") World.store
    = (Discovered report, st')
    /\ let st'' :=
         snd (discover_v2 (World.later World.timeout) (World.claim_dong_xuan "carol") st') in
       discover_v1 (World.later World.timeout) (World.claim "carol") st''
       = (AlreadyDiscovered "alice" 1700172800000, st'')
       /\ discover_v2 (World.later World.timeout) (World.claim "carol") st''
          = (AlreadyDiscovered "alice" 1700172800000, st'').
Proof.
  destruct alice_discovers_v1 as (report & d & Hrun & _).
  eexists. eexists. split; [exact Hrun |].
  exact (proj1 a_second_claim_is_answered_already_discovered
           _ _ _ _ _ _ (World.later World.timeout) (World.claim "carol")
           Hrun
           (after_claims_appends _ _
              (after_a_claim _ _ _ (after_no_claim _)
                 (claim_discover_v2 (World.later World.timeout)
                                    (World.claim_dong_xuan "carol") _)))
           eq_refl (world_claim_valid "carol")).
Defined.

(** ** The ledger *)

(** X4.  In every state the store can reach no two discoveries share an
    [_id], an NFT object id or a transaction digest: the three unique
    indexes hold under every interleaving of claims. *)
Theorem no_two_discoveries_share_a_reference :
  forall st : Store,
    reachable st ->
    unique_on TreasureDiscovery._id (discoveries st)
    /\ unique_on TreasureDiscovery.nftObjectId (discoveries st)
    /\ unique_on TreasureDiscovery.transactionDigest (discoveries st).
Proof.
  intros st Hst. repeat split; apply reachable_unique_on; try exact Hst;
    intros d coll Hdup; apply duplicate_None in Hdup; tauto.
Qed.

Lemma no_two_discoveries_share_a_reference_witness :
  unique_on TreasureDiscovery._id (discoveries World.raced_store)
  /\ unique_on TreasureDiscovery.nftObjectId (discoveries World.raced_store)
  /\ unique_on TreasureDiscovery.transactionDigest (discoveries World.raced_store).
Proof.
  exact (no_two_discoveries_share_a_reference World.raced_store raced_store_reachable).
Defined.

Section WellFormed.

Lemma validate_nil d : TreasureDiscovery_validate d = [] -> well_formed d.
Proof.
  unfold TreasureDiscovery_validate, well_formed.
  destruct (truthy (TreasureDiscovery.userId d)); [| discriminate].
  destruct (truthy (TreasureDiscovery.treasureId d)); [| discriminate].
  destruct (truthy (TreasureDiscovery.nftObjectId d)); [| discriminate].
  destruct (nftObjectId_validator _); [| discriminate].
  destruct (truthy (TreasureDiscovery.transactionDigest d)); [| discriminate].
  destruct (transactionDigest_validator _); [| discriminate].
  auto.
Qed.

Lemma step_well_formed st st' :
  step st st' -> Forall well_formed (discoveries st) -> Forall well_formed (discoveries st').
Proof.
  assert (Hsave : forall d coll coll',
             TreasureDiscovery_save d coll = inr coll' ->
             Forall well_formed coll -> Forall well_formed coll').
  { intros d coll coll' H Hcoll. apply save_inr in H as (-> & Hvalid & _).
    apply Forall_app. split; [exact Hcoll |]. constructor; [| constructor].
    apply validate_nil. exact Hvalid. }
  intros Hstep Hst. destruct Hstep.
  - unfold discover_v1. destruct (checks_v1 req st); [exact Hst |].
    destruct (commit_v1_discoveries env req t (callChain_v1 env (Checked.user t)) st)
      as [-> | (d & Hd)]; [exact Hst | exact (Hsave _ _ _ Hd Hst)].
  - unfold discover_v2. destruct (checks_v2 req st); [exact Hst |].
    destruct (callChain_v2 env (Checked.user t)); [exact Hst |].
    destruct (commit_v2_discoveries env req t o st)
      as [-> | (d & Hd)]; [exact Hst | exact (Hsave _ _ _ Hd Hst)].
  - destruct (commit_v1_discoveries env req c (callChain_v1 env (Checked.user c)) st)
      as [-> | (d & Hd)]; [exact Hst | exact (Hsave _ _ _ Hd Hst)].
  - destruct (commit_v2_discoveries env req c discoveryResult st)
      as [-> | (d & Hd)]; [exact Hst | exact (Hsave _ _ _ Hd Hst)].
  - constructor.
  - rewrite H. exact Hst.
Qed.

End WellFormed.

(** X5.  Every discovery of a reachable store passed the validators of its
    schema: it names a user and a treasure, its NFT object id is a Sui
    object id or an offline reference, and its transaction digest is in
    Base58, in hexadecimal or an offline reference. *)
Theorem stored_discoveries_are_well_formed :
  forall st : Store,
    reachable st ->
    Forall (fun d =>
              truthy (TreasureDiscovery.userId d) = true
              /\ truthy (TreasureDiscovery.treasureId d) = true
              /\ nftObjectId_validator (TreasureDiscovery.nftObjectId d) = true
              /\ transactionDigest_validator (TreasureDiscovery.transactionDigest d) = true)
           (discoveries st).
Proof.
  intros st Hst. induction Hst as [st Hinit | st st' _ IH Hstep].
  - rewrite Hinit. constructor.
  - exact (step_well_formed st st' Hstep IH).
Qed.

Lemma stored_discoveries_are_well_formed_witness :
  Forall (fun d =>
            truthy (TreasureDiscovery.userId d) = true
            /\ truthy (TreasureDiscovery.treasureId d) = true
            /\ nftObjectId_validator (TreasureDiscovery.nftObjectId d) = true
            /\ transactionDigest_validator (TreasureDiscovery.transactionDigest d) = true)
         (discoveries World.raced_store).
Proof.
  exact (stored_discoveries_are_well_formed World.raced_store raced_store_reachable).
Defined.

(** ** The progression *)

Section Progress.

Lemma updateHunterRank_fields p :
  HunterProfile.totalScore (updateHunterRank p) = HunterProfile.totalScore p
  /\ HunterProfile.currentStreak (updateHunterRank p) = HunterProfile.currentStreak p
  /\ HunterProfile.longestStreak (updateHunterRank p) = HunterProfile.longestStreak p
  /\ HunterProfile.lastHuntTimestamp (updateHunterRank p) = HunterProfile.lastHuntTimestamp p.
Proof.
  unfold updateHunterRank.
  repeat match goal with |- context [if ?b then _ else _] => destruct b end;
    repeat split.
Qed.

Lemma updateHunterProfile_fields env rewardPoints p :
  let p' := updateHunterProfile env rewardPoints p in
  HunterProfile.totalTreasuresFound p' = (HunterProfile.totalTreasuresFound p + 1)%N
  /\ HunterProfile.totalScore p' = (HunterProfile.totalScore p + rewardPoints)%N
  /\ HunterProfile.lastHuntTimestamp p' = Some (t_hunt env)
  /\ HunterProfile.longestStreak p'
     = N.max (HunterProfile.longestStreak p) (HunterProfile.currentStreak p').
Proof.
  cbv zeta. unfold updateHunterProfile. cbv zeta.
  rewrite updateHunterRank_total.
  match goal with
  | |- context [updateHunterRank ?q] =>
      destruct (updateHunterRank_fields q) as (-> & -> & -> & ->)
  end.
  cbn [HunterProfile.set_totalTreasuresFound HunterProfile.set_totalScore
       HunterProfile.set_lastHuntTimestamp HunterProfile.totalTreasuresFound
       HunterProfile.totalScore HunterProfile.lastHuntTimestamp
       HunterProfile.currentStreak HunterProfile.longestStreak HunterProfile.userId
       HunterProfile.rank].
  destruct (_ <=? 86400000);
    cbn [HunterProfile.set_currentStreak HunterProfile.currentStreak
         HunterProfile.longestStreak];
    match goal with
    | |- context [(?a <? ?b)%N] => destruct (N.ltb_spec a b)
    end;
    cbn in *; repeat split; lia.
Qed.

End Progress.

(** X6.  What a 200 answer reports is what is stored.  The points earned
    are the reward of the treasure in the answer; the old score is the score
    the profile had and the new score the one it has now, the old score plus
    the reward; the treasures found and the two streaks are those of the
    stored profile; the longest streak is the larger of the former longest
    streak and the new current streak; the last hunt is stamped with the
    clock. *)
Theorem the_reported_progress_is_the_stored_progress :
  forall env req st report st',
    discover_v1 env req st = (Discovered report, st')
    \/ discover_v2 env req st = (Discovered report, st') ->
    exists p p',
      HunterProfile_findOne st (Request.userId req) = Some p
      /\ HunterProfile_findOne st' (Request.userId req) = Some p'
      /\ Report.pointsEarned (Report.hunter report)
         = Treasure.rewardPoints (Report.treasure report)
      /\ Report.oldScore (Report.hunter report) = HunterProfile.totalScore p
      /\ Report.newScore (Report.hunter report) = HunterProfile.totalScore p'
      /\ HunterProfile.totalScore p'
         = (HunterProfile.totalScore p + Treasure.rewardPoints (Report.treasure report))%N
      /\ Report.totalTreasures (Report.hunter report) = HunterProfile.totalTreasuresFound p'
      /\ Report.currentStreak (Report.hunter report) = HunterProfile.currentStreak p'
      /\ Report.longestStreak (Report.hunter report) = HunterProfile.longestStreak p'
      /\ HunterProfile.longestStreak p'
         = N.max (HunterProfile.longestStreak p) (HunterProfile.currentStreak p')
      /\ HunterProfile.lastHuntTimestamp p' = Some (t_hunt env).
Proof.
  intros env req st report st' Hrun.
  assert (H : exists c hunterProfile,
             Report.treasure report = Checked.treasure c
             /\ HunterProfile_findOne st (Request.userId req) = Some hunterProfile
             /\ HunterProfile_findOne st' (Request.userId req)
                = Some (updateHunterProfile env (Treasure.rewardPoints (Checked.treasure c))
                                            hunterProfile)
             /\ Report.hunter report
                = profileReport hunterProfile
                    (updateHunterProfile env (Treasure.rewardPoints (Checked.treasure c))
                                         hunterProfile)
                    (Treasure.rewardPoints (Checked.treasure c))).
  { destruct Hrun as [Hrun | Hrun].
    - destruct (discover_v1_Discovered _ _ _ _ _ Hrun) as (c & p & Hc & Hp & Hp' & Hreport).
      apply discover_v1_commit in Hrun as (c' & Hc' & Hcommit).
      rewrite Hc in Hc'. injection Hc' as <-.
      apply commit_v1_report_treasure in Hcommit. eauto 6.
    - destruct (discover_v2_Discovered _ _ _ _ _ Hrun) as (c & p & Hc & Hp & Hp' & Hreport).
      apply discover_v2_commit in Hrun as (c' & discoveryResult & Hc' & _ & Hcommit).
      rewrite Hc in Hc'. injection Hc' as <-.
      apply commit_v2_report in Hcommit. eauto 6. }
  destruct H as (c & p & Htreasure & Hp & Hp' & Hreport).
  exists p. eexists. split; [exact Hp |]. split; [exact Hp' |].
  rewrite Hreport, Htreasure.
  destruct (updateHunterProfile_fields env (Treasure.rewardPoints (Checked.treasure c)) p)
    as (_ & Hscore & Hlast & Hlongest).
  cbn [profileReport Report.pointsEarned Report.oldScore Report.newScore
       Report.totalTreasures Report.currentStreak Report.longestStreak].
  repeat split; assumption.
Qed.

Lemma the_reported_progress_is_the_stored_progress_witness :
  exists report st' p p',
    discover_v2 (World.env World.timeout) (World.claim "alice") World.store
    = (Discovered report, st')
    /\ HunterProfile_findOne World.store "alice" = Some p
    /\ HunterProfile_findOne st' "alice" = Some p'
    /\ Report.pointsEarned (Report.hunter report)
       = Treasure.rewardPoints (Report.treasure report)
    /\ Report.newScore (Report.hunter report) = HunterProfile.totalScore p'
    /\ HunterProfile.totalScore p'
       = (HunterProfile.totalScore p + Treasure.rewardPoints (Report.treasure report))%N.
Proof.
  destruct alice_discovers_v2 as (report & d & Hrun & _).
  destruct (the_reported_progress_is_the_stored_progress _ _ _ _ _ (or_intror Hrun))
    as (p & p' & Hp & Hp' & Hpoints & _ & Hnew & Hscore & _).
  exists report. eexists. exists p, p'. split; [exact Hrun |]. auto 7.
Defined.

Section RankOrder.

Lemma getRankNumber_updateHunterRank p :
  let n := HunterProfile.totalTreasuresFound p in
  getRankNumber (HunterProfile.rank (updateHunterRank p))
  = if (50 <=? n)%N then 4%N
    else if (20 <=? n)%N then 3%N
    else if (5 <=? n)%N then 2%N
    else 1%N.
Proof.
  cbv zeta. unfold updateHunterRank.
  repeat match goal with |- context [if ?b then _ else _] => destruct b end;
    reflexivity.
Qed.

End RankOrder.

(** X7.  The rank [updateHunterRank] gives is monotone in the number of
    treasures found.  Hence a profile whose rank is the rank of its count is
    never demoted by a discovery, and the [rankUpgraded] flag of the answer
    is raised exactly when the rank number rose. *)
Theorem the_rank_never_drops_with_more_treasures :
  (forall p q : HunterProfile.t,
      (HunterProfile.totalTreasuresFound p <= HunterProfile.totalTreasuresFound q)%N ->
      (getRankNumber (HunterProfile.rank (updateHunterRank p))
       <= getRankNumber (HunterProfile.rank (updateHunterRank q)))%N)
  /\ (forall env rewardPoints p,
         HunterProfile.rank p = HunterProfile.rank (updateHunterRank p) ->
         let p' := updateHunterProfile env rewardPoints p in
         (getRankNumber (HunterProfile.rank p) <= getRankNumber (HunterProfile.rank p'))%N
         /\ (Report.rankUpgraded (profileReport p p' rewardPoints) = true
             <-> (getRankNumber (HunterProfile.rank p)
                  < getRankNumber (HunterProfile.rank p'))%N)).
Proof.
  split.
  - intros p q Hle. rewrite !getRankNumber_updateHunterRank. cbv zeta.
    repeat match goal with
           | |- context [(?a <=? ?b)%N] => destruct (N.leb_spec a b)
           end; lia.
  - intros env rewardPoints p Hrank. cbv zeta.
    destruct (updateHunterProfile_ranked env rewardPoints p) as (q & Hq & Htotal & _).
    rewrite Hq.
    cbn [profileReport Report.rankUpgraded]. rewrite negb_true_iff, String.eqb_neq.
    rewrite Hrank at 1 2 3.
    rewrite !getRankNumber_updateHunterRank. cbv zeta. rewrite Htotal.
    unfold updateHunterRank. rewrite Htotal.
    repeat match goal with
           | |- context [(?a <=? ?b)%N] => destruct (N.leb_spec a b)
           end; cbn [HunterProfile.set_rank HunterProfile.rank];
      try lia;
      (split; [lia |]); split; intros Hup; try lia; try discriminate;
      try (exfalso; apply Hup; reflexivity).
Qed.

Lemma the_rank_never_drops_with_more_treasures_witness :
  (getRankNumber (HunterProfile.rank (updateHunterRank World.carol_profile))
   <= getRankNumber (HunterProfile.rank (updateHunterRank World.alice_profile)))%N
  /\ (getRankNumber (HunterProfile.rank World.carol_profile)
      <= getRankNumber
           (HunterProfile.rank
              (updateHunterProfile (World.env World.timeout) 150 World.carol_profile)))%N.
Proof.
  split.
  - apply (proj1 the_rank_never_drops_with_more_treasures
             World.carol_profile World.alice_profile).
    cbn. lia.
  - apply (proj2 the_rank_never_drops_with_more_treasures
             (World.env World.timeout) 150%N World.carol_profile eq_refl).
Defined.

(** X8.  The [treasuresNeeded] figure of a rank refusal of the second
    variant is right for a profile whose rank is the rank of its count: it is
    positive, and the rank check of the same treasure passes after that many
    further discoveries and after no fewer. *)
Theorem treasuresNeeded_is_the_way_to_the_rank :
  forall treasure p,
    (1 <= Treasure.requiredRank treasure <= 4)%N ->
    HunterProfile.rank p = HunterProfile.rank (updateHunterRank p) ->
    (getRankNumber (or_else (HunterProfile.rank p) "beginner")
     <? Treasure.requiredRank treasure)%N = true ->
    0 < treasuresNeeded treasure p
    /\ forall k : N,
        let p' :=
          updateHunterRank
            (HunterProfile.set_totalTreasuresFound
               (HunterProfile.totalTreasuresFound p + k)%N p) in
        (getRankNumber (or_else (HunterProfile.rank p') "beginner")
         <? Treasure.requiredRank treasure)%N = false
        <-> treasuresNeeded treasure p <= Z.of_N k.
Proof.
  intros treasure p Hrange Hrank Hlow.
  assert (Hname : forall q, or_else (HunterProfile.rank (updateHunterRank q)) "beginner"
                            = HunterProfile.rank (updateHunterRank q)).
  { intros q. unfold updateHunterRank.
    repeat match goal with |- context [if ?b then _ else _] => destruct b end;
      reflexivity. }
  rewrite Hrank, Hname, getRankNumber_updateHunterRank in Hlow. cbv zeta in Hlow.
  apply N.ltb_lt in Hlow.
  unfold treasuresNeeded.
  assert (Hr : Treasure.requiredRank treasure = 1%N \/ Treasure.requiredRank treasure = 2%N
               \/ Treasure.requiredRank treasure = 3%N
               \/ Treasure.requiredRank treasure = 4%N) by lia.
  split.
  - revert Hlow.
    repeat match goal with
           | |- context [(?a <=? ?b)%N] => destruct (N.leb_spec a b)
           end;
      destruct Hr as [-> | [-> | [-> | ->]]]; cbn [getTreasuresNeededForRank]; lia.
  - intros k. cbv zeta. rewrite Hname, getRankNumber_updateHunterRank. cbv zeta.
    cbn [HunterProfile.set_totalTreasuresFound HunterProfile.totalTreasuresFound].
    rewrite N.ltb_ge. revert Hlow.
    repeat match goal with
           | |- context [(?a <=? ?b)%N] => destruct (N.leb_spec a b)
           end;
      destruct Hr as [-> | [-> | [-> | ->]]]; cbn [getTreasuresNeededForRank]; lia.
Qed.

Lemma treasuresNeeded_is_the_way_to_the_rank_witness :
  0 < treasuresNeeded World.north_gate World.carol_profile
  /\ forall k : N,
      let p' :=
        updateHunterRank
          (HunterProfile.set_totalTreasuresFound
             (HunterProfile.totalTreasuresFound World.carol_profile + k)%N
             World.carol_profile) in
      (getRankNumber (or_else (HunterProfile.rank p') "beginner")
       <? Treasure.requiredRank World.north_gate)%N = false
      <-> treasuresNeeded World.north_gate World.carol_profile <= Z.of_N k.
Proof.
  apply (treasuresNeeded_is_the_way_to_the_rank World.north_gate World.carol_profile).
  - cbn. lia.
  - reflexivity.
  - reflexivity.
Defined.

(** ** Treasures without coordinates *)

Section NoCoordinates.

Open Scope R_scope.

Lemma catch_v1_not_TooFar error distance maxDistance :
  catch_v1 error <> TooFar distance maxDistance.
Proof.
  unfold catch_v1.
  repeat match goal with |- context [if ?b then _ else _] => destruct b end;
    discriminate.
Qed.

Lemma commit_v1_not_TooFar env req c discoveryResult st distance maxDistance :
  fst (commit_v1 env req c discoveryResult st) <> TooFar distance maxDistance.
Proof.
  unfold commit_v1. cbv zeta.
  match goal with
  | |- context [TreasureDiscovery_save ?d ?l] => destruct (TreasureDiscovery_save d l)
  end; [apply catch_v1_not_TooFar |].
  destruct (Checked.hunterProfile c); [discriminate | apply catch_v1_not_TooFar].
Qed.

Lemma commit_v2_not_TooFar env req c discoveryResult st distance maxDistance :
  fst (commit_v2 env req c discoveryResult st) <> TooFar distance maxDistance.
Proof.
  unfold commit_v2. cbv zeta.
  match goal with
  | |- context [TreasureDiscovery_save ?d ?l] => destruct (TreasureDiscovery_save d l)
  end; [discriminate |].
  destruct (Checked.hunterProfile c); discriminate.
Qed.

Lemma callChain_v2_not_TooFar env user r distance maxDistance :
  callChain_v2 env user = inl r -> r <> TooFar distance maxDistance.
Proof.
  unfold callChain_v2.
  destruct (has_credentials user); [| discriminate].
  destruct (SuiService_discoverTreasure (chain env)); [discriminate |].
  repeat match goal with |- context [if ?b then _ else _] => destruct b end;
    try discriminate; intros H; injection H as <-; discriminate.
Qed.

Lemma save_old_quarter :
  Treasure_save World.old_quarter [] = inr [Scenes.stored_old_quarter].
Proof.
  unfold Treasure_save. cbv zeta.
  replace (coordinates_validator (Treasure.coordinates World.old_quarter)) with true.
  - reflexivity.
  - unfold coordinates_validator. cbn [World.old_quarter Treasure.coordinates fst snd].
    rewrite !ge_true by lra. reflexivity.
Qed.

Lemma discover_v1_not_TooFar env req st treasure distance maxDistance :
  Treasure_findOne_active st (Request.treasureId req) = Some treasure ->
  Treasure.latitude treasure = NaN \/ Treasure.longitude treasure = NaN ->
  fst (discover_v1 env req st) <> TooFar distance maxDistance.
Proof.
  intros Hactive Hnan.
  assert (Hnear : gt (calculateDistance (Request.latitude req) (Request.longitude req)
                                        (Treasure.latitude treasure)
                                        (Treasure.longitude treasure)) (Num 100) = false).
  { apply calculateDistance_NaN. tauto. }
  unfold discover_v1.
  destruct (checks_v1 req st) as [r | c] eqn:Hc; [| apply commit_v1_not_TooFar].
  cbn [fst]. revert Hc. unfold checks_v1. rewrite Hactive. cbv zeta. rewrite Hnear.
  destruct (validationResult req); cbn [negb];
    [| intros H; injection H as <-; discriminate].
  destruct (TreasureDiscovery_findOne st _); [intros H; injection H as <-; discriminate |].
  destruct (_ <? _)%N; [intros H; injection H as <-; discriminate |].
  destruct (User_findById st _); [discriminate | intros H; injection H as <-; discriminate].
Qed.

Lemma discover_v2_not_TooFar env req st distance maxDistance :
  Treasure.latitude (resolveTreasure_v2 req st) = NaN
  \/ Treasure.longitude (resolveTreasure_v2 req st) = NaN ->
  fst (discover_v2 env req st) <> TooFar distance maxDistance.
Proof.
  intros Hnan.
  assert (Hnear : gt (calculateDistance (Request.latitude req) (Request.longitude req)
                                        (Treasure.latitude (resolveTreasure_v2 req st))
                                        (Treasure.longitude (resolveTreasure_v2 req st)))
                     (Num 100) = false).
  { apply calculateDistance_NaN. tauto. }
  unfold discover_v2.
  destruct (checks_v2 req st) as [r | c] eqn:Hc.
  - cbn [fst]. revert Hc. unfold checks_v2. cbv zeta. rewrite Hnear.
    destruct (validationResult req); cbn [negb];
      [| intros H; injection H as <-; discriminate].
    destruct (TreasureDiscovery_findOne st _);
      [intros H; injection H as <-; discriminate |].
    destruct (HunterProfile_findOne st _); [| intros H; injection H as <-; discriminate].
    destruct (_ <? _)%N; [intros H; injection H as <-; discriminate |].
    destruct (User_findById st _);
      [discriminate | intros H; injection H as <-; discriminate].
  - destruct (callChain_v2 env (Checked.user c)) as [r | discoveryResult] eqn:Hchain.
    + cbn [fst]. exact (callChain_v2_not_TooFar _ _ _ _ _ Hchain).
    + apply commit_v2_not_TooFar.
Qed.

Lemma split_without_separator sep s :
  includes s (String sep "") = false -> split sep s = [s].
Proof.
  induction s as [| c s IH]; [reflexivity |].
  cbn [includes split]. intros H. apply orb_false_iff in H as [Hprefix Hrest].
  assert (Hc : Ascii.eqb c sep = false).
  { destruct (Ascii.eqb c sep) eqn:E; [| reflexivity].
    apply Ascii.eqb_eq in E. subst c. cbn in Hprefix.
    destruct (Ascii.ascii_dec sep sep) as [_ | Hne]; [| destruct (Hne eq_refl)].
    destruct s; discriminate Hprefix. }
  rewrite Hc, (IH Hrest). reflexivity.
Qed.

End NoCoordinates.

(** X9.  The treasure schema has no [latitude] and no [longitude] path,
    so a document that [save] stored reads as not-a-number under both names;
    and a claim of an active treasure of which one coordinate is not a number
    is never refused as too far, from wherever it is made, in either
    variant. *)
Theorem a_treasure_of_the_schema_has_no_proximity_check :
  (forall t coll coll',
      Treasure_save t coll = inr coll' ->
      exists x,
        coll' = coll ++ [x]
        /\ Treasure.treasureId x = trim (Treasure.treasureId t)
        /\ Treasure.latitude x = NaN
        /\ Treasure.longitude x = NaN)
  /\ (forall env req st treasure distance maxDistance,
         Treasure_findOne_active st (Request.treasureId req) = Some treasure ->
         Treasure.latitude treasure = NaN \/ Treasure.longitude treasure = NaN ->
         fst (discover_v1 env req st) <> TooFar distance maxDistance
         /\ fst (discover_v2 env req st) <> TooFar distance maxDistance).
Proof.
  split.
  - intros t coll coll' Hsave.
    apply Treasure_save_inr in Hsave as (x & Hx & Hid & Hlat & Hlng & _).
    exists x. auto.
  - intros env req st treasure distance maxDistance Hactive Hnan. split.
    + exact (discover_v1_not_TooFar env req st treasure _ _ Hactive Hnan).
    + apply discover_v2_not_TooFar. unfold resolveTreasure_v2. rewrite Hactive. exact Hnan.
Qed.

Lemma a_treasure_of_the_schema_has_no_proximity_check_witness :
  (exists x,
      [Scenes.stored_old_quarter] = [] ++ [x]
      /\ Treasure.treasureId x = trim (Treasure.treasureId World.old_quarter)
      /\ Treasure.latitude x = NaN
      /\ Treasure.longitude x = NaN)
  /\ forall distance maxDistance,
      fst (discover_v1 (World.env World.timeout) (World.claim_from_afar "alice")
                       Scenes.schema_store) <> TooFar distance maxDistance
      /\ fst (discover_v2 (World.env World.timeout) (World.claim_from_afar "alice")
                          Scenes.schema_store) <> TooFar distance maxDistance.
Proof.
  split.
  - exact (proj1 a_treasure_of_the_schema_has_no_proximity_check
             World.old_quarter [] _ save_old_quarter).
  - intros distance maxDistance.
    exact (proj2 a_treasure_of_the_schema_has_no_proximity_check
             (World.env World.timeout) (World.claim_from_afar "alice") Scenes.schema_store
             Scenes.stored_old_quarter distance maxDistance eq_refl (or_introl eq_refl)).
Defined.

(** ** The error handler *)

Section ErrorHandler.

Lemma mongooseErrors_canned err r :
  Err.name err <> "ValidationError" ->
  mongooseErrors err = Returns r -> In r cannedResponses.
Proof.
  intros Hname. apply String.eqb_neq in Hname. unfold mongooseErrors. rewrite Hname.
  intros H. injection H as <-.
  repeat match goal with |- context [if ?b then _ else _] => destruct b end;
    cbn; tauto.
Qed.

Lemma jwtErrors_canned err r : In r cannedResponses -> In (jwtErrors err r) cannedResponses.
Proof.
  intros Hr. unfold jwtErrors.
  repeat match goal with |- context [if ?b then _ else _] => destruct b end;
    try exact Hr; cbn; tauto.
Qed.

Lemma postgresErrors_canned err r r' :
  In r cannedResponses -> postgresErrors err r = Returns r' -> In r' cannedResponses.
Proof.
  intros Hr. unfold postgresErrors. cbv zeta.
  repeat match goal with |- context [if ?b then _ else _] => destruct b end;
    try (intros H; injection H as <-; first [exact Hr | cbn; tauto]).
  destruct (Err.code err) as [| n | s]; try discriminate.
  intros H. injection H as <-.
  destruct (String.prefix "23" s); [cbn; tauto | exact Hr].
Qed.

Lemma suiErrors_canned err r : In r cannedResponses -> In (suiErrors err r) cannedResponses.
Proof.
  intros Hr. unfold suiErrors. cbv zeta.
  repeat match goal with |- context [if ?b then _ else _] => destruct b end;
    try exact Hr; cbn; tauto.
Qed.

Lemma serviceErrors_canned err r :
  In r cannedResponses -> In (serviceErrors err r) cannedResponses.
Proof.
  intros Hr. unfold serviceErrors. cbv zeta.
  repeat match goal with |- context [if ?b then _ else _] => destruct b end;
    try exact Hr; cbn; tauto.
Qed.

End ErrorHandler.

(** X10.  [errorHandler] throws on every error whose [code] is a non-zero
    number, such as the duplicate-key error 11000 of MongoDB: the [switch]
    on the PostgreSQL codes falls to its default case, which calls
    [err.code.startsWith].  The answer "400 Duplicate field value entered"
    prepared a few lines above is never sent. *)
Theorem errorHandler_fails_on_a_numeric_code :
  forall err n,
    Err.code err = Number n -> n <> 0 ->
    exists e, errorHandler err = Throws e.
Proof.
  intros err n Hcode Hn. unfold errorHandler.
  destruct (mongooseErrors err) as [r | e]; [| eexists; reflexivity].
  unfold postgresErrors. rewrite Hcode. cbn [isTruthy is_text].
  apply Z.eqb_neq in Hn. rewrite Hn. cbn [negb]. eexists. reflexivity.
Qed.

Lemma errorHandler_fails_on_a_numeric_code_witness :
  exists e,
    errorHandler
      (Err.mk "MongoServerError"
              "E11000 duplicate key error index: treasureId_1 dup key: hanoi_old_quarter_001"
              (Number 11000) Undefined 0 None)
    = Throws e.
Proof.
  apply (errorHandler_fails_on_a_numeric_code
           (Err.mk "MongoServerError"
                   "E11000 duplicate key error index: treasureId_1 dup key: hanoi_old_quarter_001"
                   (Number 11000) Undefined 0 None)
           11000 eq_refl).
  discriminate.
Defined.

(** X11.  An error that carries a [statusCode] is answered with that
    status and with its own message, whichever of the other rules it
    matches, provided its [code] is no non-zero number and it is no
    validation error without [errors].  So each error the helpers build
    ([createValidationError], [createAuthError], [createAuthorizationError],
    [createNotFoundError], [createConflictError],
    [createServiceUnavailableError]) and the error of [notFoundHandler] is
    answered with the status and the text of its constructor. *)
Theorem an_application_error_is_answered_as_thrown :
  (forall err,
      Err.statusCode err <> 0 ->
      (forall n, Err.code err = Number n -> n = 0) ->
      (Err.name err = "ValidationError" -> Err.errors err <> None) ->
      errorHandler err = Returns (Err.statusCode err, Err.message err))
  /\ (forall message field,
         errorHandler (createValidationError message field) = Returns (400, message))
  /\ (forall message,
         errorHandler (createAuthError message)
         = Returns (401, or_default message "Authentication failed"))
  /\ (forall message,
         errorHandler (createAuthorizationError message)
         = Returns (403, or_default message "Access denied"))
  /\ (forall resource,
         errorHandler (createNotFoundError resource)
         = Returns (404, (or_default resource "Resource" ++ " not found")%string))
  /\ (forall message,
         errorHandler (createConflictError message) = Returns (409, message))
  /\ (forall message,
         errorHandler (createServiceUnavailableError message)
         = Returns (503, or_default message "Service temporarily unavailable"))
  /\ (forall originalUrl,
         errorHandler (notFoundHandler originalUrl)
         = Returns (404, ("Route " ++ originalUrl ++ " not found")%string)).
Proof.
  assert (Hcustom : forall err,
             Err.statusCode err <> 0 ->
             (forall n, Err.code err = Number n -> n = 0) ->
             (Err.name err = "ValidationError" -> Err.errors err <> None) ->
             errorHandler err = Returns (Err.statusCode err, Err.message err)).
  { intros err Hstatus Hcode Herrors. unfold errorHandler.
    assert (H1 : exists r, mongooseErrors err = Returns r).
    { unfold mongooseErrors. cbv zeta.
      destruct (String.eqb (Err.name err) "ValidationError") eqn:E; [| eexists; reflexivity].
      apply String.eqb_eq in E. destruct (Err.errors err) as [messages |].
      - eexists. reflexivity.
      - destruct (Herrors E eq_refl). }
    destruct H1 as (r1 & ->).
    assert (H2 : exists r, postgresErrors err (jwtErrors err r1) = Returns r).
    { unfold postgresErrors. cbv zeta.
      destruct (Err.code err) as [| n | s] eqn:E.
      - eexists. reflexivity.
      - rewrite (Hcode n eq_refl). eexists. reflexivity.
      - cbn [is_text].
        repeat match goal with |- context [if ?b then _ else _] => destruct b end;
          eexists; reflexivity. }
    destruct H2 as (r2 & ->).
    unfold customErrors. apply Z.eqb_neq in Hstatus. rewrite Hstatus. reflexivity. }
  split; [exact Hcustom |].
  repeat split; intros; apply Hcustom; cbn; try discriminate.
Qed.

Lemma an_application_error_is_answered_as_thrown_witness :
  errorHandler (AppError "Treasure is locked" (Some 423) (Text "23505"))
  = Returns (423, "Treasure is locked").
Proof.
  apply (proj1 an_application_error_is_answered_as_thrown
           (AppError "Treasure is locked" (Some 423) (Text "23505"))).
  - discriminate.
  - discriminate.
  - discriminate.
Defined.

(** X12.  For an error without a [statusCode] that is no validation error,
    [errorHandler] sends one of nineteen fixed pairs of status and text,
    never the message of the error, and the status is one of 400, 401, 404,
    429, 500 and 503. *)
Theorem errorHandler_sends_a_canned_text :
  forall err r,
    Err.statusCode err = 0 ->
    Err.name err <> "ValidationError" ->
    errorHandler err = Returns r ->
    In r cannedResponses
    /\ In (fst r) [400; 401; 404; 429; 500; 503].
Proof.
  intros err r Hstatus Hname. unfold errorHandler.
  destruct (mongooseErrors err) as [r1 | e] eqn:E1; [| discriminate].
  destruct (postgresErrors err (jwtErrors err r1)) as [r2 | e] eqn:E2; [| discriminate].
  intros H. injection H as <-.
  assert (Hin : In (customErrors err (serviceErrors err (suiErrors err r2))) cannedResponses).
  { unfold customErrors. rewrite Hstatus. cbn [Z.eqb negb].
    apply serviceErrors_canned, suiErrors_canned.
    apply (postgresErrors_canned err (jwtErrors err r1)); [| exact E2].
    apply jwtErrors_canned. apply (mongooseErrors_canned err); assumption. }
  split; [exact Hin |].
  revert Hin. generalize (customErrors err (serviceErrors err (suiErrors err r2))).
  intros p Hin. cbn in Hin.
  repeat (destruct Hin as [<- | Hin]; [cbn; tauto |]). destruct Hin.
Qed.

Lemma errorHandler_sends_a_canned_text_witness :
  errorHandler (new_Error "connect ECONNRESET 10.0.0.7:27017")
  = Returns (500, "Internal Server Error")
  /\ In (500, "Internal Server Error") cannedResponses
  /\ In (fst (500, "Internal Server Error")) [400; 401; 404; 429; 500; 503].
Proof.
  split; [reflexivity |].
  apply (errorHandler_sends_a_canned_text
           (new_Error "connect ECONNRESET 10.0.0.7:27017") (500, "Internal Server Error")).
  - reflexivity.
  - discriminate.
  - reflexivity.
Defined.

(** X13.  [errorHandler] answers a plain [Error] with 400 exactly when its
    message holds one of the four chain markers (insufficient balance,
    treasure already found, invalid location, insufficient rank), and with
    500 exactly when it holds none. *)
Theorem a_chain_error_is_answered_400 :
  forall message,
    exists r,
      errorHandler (new_Error message) = Returns r
      /\ (fst r = 400 <->
          includes message "Insufficient SUI balance" = true
          \/ includes message "E_TREASURE_ALREADY_FOUND" = true
          \/ includes message "E_INVALID_LOCATION" = true
          \/ includes message "E_INSUFFICIENT_RANK" = true)
      /\ (fst r = 500 <->
          includes message "Insufficient SUI balance" = false
          /\ includes message "E_TREASURE_ALREADY_FOUND" = false
          /\ includes message "E_INVALID_LOCATION" = false
          /\ includes message "E_INSUFFICIENT_RANK" = false).
Proof.
  intros message. eexists. split; [reflexivity |].
  unfold customErrors, serviceErrors, suiErrors, jwtErrors.
  cbn [new_Error Err.name Err.message Err.code Err.status Err.statusCode
       String.eqb Ascii.eqb Bool.eqb is_text is_number orb negb Z.eqb].
  cbv zeta.
  destruct (includes message "Insufficient SUI balance");
    destruct (includes message "E_TREASURE_ALREADY_FOUND");
    destruct (includes message "E_INVALID_LOCATION");
    destruct (includes message "E_INSUFFICIENT_RANK");
    cbn [fst]; intuition (try discriminate; try reflexivity).
Qed.

(** ** The authentication middleware *)

Section Auth.

Lemma prefix_split p s : String.prefix p s = true -> s = (p ++ dropString (String.length p) s)%string.
Proof.
  revert s. induction p as [| c p IH]; intros s H; [reflexivity |].
  destruct s as [| d s]; [discriminate |]. cbn in H.
  destruct (Ascii.ascii_dec c d) as [<- | Hne]; [| discriminate].
  cbn. f_equal. apply IH. exact H.
Qed.

Lemma dropString_append p s : dropString (String.length p) (p ++ s)%string = s.
Proof. induction p as [| c p IH]; [destruct s; reflexivity | exact IH]. Qed.

Lemma auth_Next verify authHeader user :
  auth verify authHeader = Next user <->
  exists token decoded,
    authHeader = ("Bearer " ++ token)%string
    /\ verify token = Jwt.Decoded decoded
    /\ user = req_user decoded.
Proof.
  unfold auth. split.
  - destruct (truthy authHeader); cbn [negb]; [| discriminate].
    destruct (String.prefix "Bearer " authHeader) eqn:Hprefix; cbn [negb]; [| discriminate].
    cbv zeta. destruct (verify (dropString 7 authHeader)) as [decoded | name] eqn:Hverify.
    + intros H. injection H as <-.
      exists (dropString 7 authHeader), decoded. split; [| auto].
      exact (prefix_split "Bearer " authHeader Hprefix).
    + repeat match goal with |- context [if ?b then _ else _] => destruct b end;
        discriminate.
  - intros (token & decoded & -> & Hverify & ->).
    change (truthy ("Bearer " ++ token)) with true.
    rewrite (prefix_append "Bearer " token). cbn [negb]. cbv zeta.
    change 7%nat with (String.length "Bearer ").
    rewrite dropString_append, Hverify. reflexivity.
Qed.

Lemma auth_Denied verify authHeader status message code :
  auth verify authHeader = Denied status message code -> status = 401.
Proof.
  unfold auth.
  repeat match goal with
         | |- context [if ?b then _ else _] => destruct b
         | |- context [match verify ?t with _ => _ end] => destruct (verify t)
         end;
    intros H; try discriminate; injection H as <- _ _; reflexivity.
Qed.

End Auth.

(** X14.  [auth] calls [next] exactly for a header 'Bearer <token>' whose
    token [jwt.verify] accepts; [req.user] then carries the user id, the
    address and the name of the payload, and its role or 'user' when the
    payload has none.  Every refusal of [auth] is a 401. *)
Theorem auth_admits_a_verified_bearer_token_only :
  forall verify authHeader,
    (forall user,
        auth verify authHeader = Next user <->
        exists token decoded,
          authHeader = ("Bearer " ++ token)%string
          /\ verify token = Jwt.Decoded decoded
          /\ AuthUser.userId user = Jwt.userId decoded
          /\ AuthUser.suiAddress user = Jwt.suiAddress decoded
          /\ AuthUser.username user = Jwt.username decoded
          /\ AuthUser.role user = (if String.eqb (Jwt.role decoded) "" then "user"
                                   else Jwt.role decoded))
    /\ (forall status message code,
           auth verify authHeader = Denied status message code -> status = 401).
Proof.
  intros verify authHeader. split.
  - intros user. rewrite auth_Next. split.
    + intros (token & decoded & Hheader & Hverify & ->).
      exists token, decoded. cbn. auto 6.
    + intros (token & decoded & Hheader & Hverify & Hid & Haddress & Hname & Hrole).
      exists token, decoded. split; [exact Hheader |]. split; [exact Hverify |].
      destruct user. cbn in *. unfold req_user, or_else. congruence.
  - intros status message code. apply auth_Denied.
Qed.

Lemma auth_admits_a_verified_bearer_token_only_witness :
  let verify := fun token : string =>
                  if String.eqb token "t0k3n"
                  then Jwt.Decoded (Jwt.mkPayload "alice" "0xa11ce" "alice" "")
                  else Jwt.Fails "JsonWebTokenError" in
  auth verify "Bearer t0k3n" = Next (AuthUser.mk "alice" "0xa11ce" "alice" "user")
  /\ forall status message code,
      auth verify "Basic YWxpY2U6c2VjcmV0" = Denied status message code -> status = 401.
Proof.
  cbv zeta. split.
  - apply (proj1 (auth_admits_a_verified_bearer_token_only _ "Bearer t0k3n")).
    exists "t0k3n", (Jwt.mkPayload "alice" "0xa11ce" "alice" ""). repeat split.
  - apply (proj2 (auth_admits_a_verified_bearer_token_only _ "Basic YWxpY2U6c2VjcmV0")).
Defined.

(** X15.  [adminAuth] calls [next] exactly when [auth] does and the role is
    'admin'; the accepted token then carries the role 'admin' itself (the
    default role 'user' never passes).  A refusal is the 401 of [auth], or a
    403 for an authenticated user who is no admin. *)
Theorem adminAuth_admits_the_admin_role_only :
  forall verify authHeader,
    (forall user,
        adminAuth verify authHeader = Next user <->
        auth verify authHeader = Next user /\ AuthUser.role user = "admin")
    /\ (forall user,
           adminAuth verify authHeader = Next user ->
           exists token decoded,
             authHeader = ("Bearer " ++ token)%string
             /\ verify token = Jwt.Decoded decoded
             /\ Jwt.role decoded = "admin")
    /\ (forall status message code,
           adminAuth verify authHeader = Denied status message code ->
           (status = 401 /\ auth verify authHeader = Denied status message code)
           \/ (status = 403 /\ exists user, auth verify authHeader = Next user
                                            /\ AuthUser.role user <> "admin")).
Proof.
  intros verify authHeader.
  assert (Hnext : forall user,
             adminAuth verify authHeader = Next user <->
             auth verify authHeader = Next user /\ AuthUser.role user = "admin").
  { intros user. unfold adminAuth.
    destruct (auth verify authHeader) as [u | status message code].
    - destruct (String.eqb (AuthUser.role u) "admin") eqn:E; cbn [negb].
      + apply String.eqb_eq in E. split.
        * intros H. injection H as <-. auto.
        * intros [H _]. exact H.
      + apply String.eqb_neq in E. split; [discriminate |].
        intros [H Hrole]. injection H as ->. destruct (E Hrole).
    - split; [discriminate | intros [H _]; discriminate]. }
  split; [exact Hnext |]. split.
  - intros user H. apply Hnext in H as [H Hrole].
    apply auth_Next in H as (token & decoded & Hheader & Hverify & ->).
    exists token, decoded. split; [exact Hheader |]. split; [exact Hverify |].
    revert Hrole. unfold req_user, or_else. cbn [AuthUser.role].
    destruct (String.eqb (Jwt.role decoded) ""); [discriminate | auto].
  - intros status message code. unfold adminAuth.
    destruct (auth verify authHeader) as [u | status' message' code'] eqn:Hauth.
    + destruct (String.eqb (AuthUser.role u) "admin") eqn:E; cbn [negb]; [discriminate |].
      intros H. injection H as <- _ _. right. split; [reflexivity |].
      exists u. split; [reflexivity |]. apply String.eqb_neq. exact E.
    + intros H. injection H as <- <- <-. left. split; [| reflexivity].
      exact (auth_Denied _ _ _ _ _ Hauth).
Qed.

Lemma adminAuth_admits_the_admin_role_only_witness :
  let verify := fun token : string =>
                  if String.eqb token "r00t"
                  then Jwt.Decoded (Jwt.mkPayload "root" "0x0" "root" "admin")
                  else Jwt.Fails "JsonWebTokenError" in
  adminAuth verify "Bearer r00t" = Next (AuthUser.mk "root" "0x0" "root" "admin")
  /\ exists token decoded,
      "Bearer r00t" = ("Bearer " ++ token)%string
      /\ verify token = Jwt.Decoded decoded
      /\ Jwt.role decoded = "admin".
Proof.
  cbv zeta.
  assert (H : adminAuth
                (fun token : string =>
                   if String.eqb token "r00t"
                   then Jwt.Decoded (Jwt.mkPayload "root" "0x0" "root" "admin")
                   else Jwt.Fails "JsonWebTokenError")
                "Bearer r00t"
              = Next (AuthUser.mk "root" "0x0" "root" "admin")).
  { apply (proj1 (adminAuth_admits_the_admin_role_only _ "Bearer r00t")).
    split; reflexivity. }
  split; [exact H |].
  exact (proj1 (proj2 (adminAuth_admits_the_admin_role_only _ "Bearer r00t")) _ H).
Defined.

(** X16.  [optionalAuth] never refuses a request, and the user it sets is
    the one [auth] would admit: [null] exactly where [auth] would answer
    401. *)
Theorem optionalAuth_sets_the_user_auth_would_admit :
  forall verify authHeader,
    optionalAuth verify authHeader
    = match auth verify authHeader with
      | Next user => Some user
      | Denied _ _ _ => None
      end.
Proof.
  intros verify authHeader. unfold optionalAuth, auth.
  destruct (truthy authHeader); cbn [negb orb]; [| reflexivity].
  destruct (String.prefix "Bearer " authHeader); cbn [negb]; [| reflexivity].
  cbv zeta. destruct (verify (dropString 7 authHeader)) as [decoded | name]; [reflexivity |].
  repeat match goal with |- context [if ?b then _ else _] => destruct b end; reflexivity.
Qed.

(** ** The registry and the verification route *)

(** X17.  [verifyTreasureInRegistry] says that a treasure does not exist
    only when the registry is configured, the inspection of the registry
    object did not find the treasure and the view function answered, with
    something other than 1 or with no return value.  A registry that is not
    configured or cannot be read never denies a treasure. *)
Theorem an_unreadable_registry_never_denies_a_treasure :
  forall registry treasureId,
    Verification.exists_ (verifyTreasureInRegistry registry treasureId) = false ->
    truthy (Registry.treasureRegistryId registry) = true
    /\ (Registry.devInspectTransactionBlock registry = Registry.NoReturnValues
        \/ exists first,
            Registry.devInspectTransactionBlock registry = Registry.ReturnValues first
            /\ first <> Number 1)
    /\ Verification.method (verifyTreasureInRegistry registry treasureId) = "view_function".
Proof.
  intros registry treasureId. unfold verifyTreasureInRegistry.
  destruct (truthy (Registry.treasureRegistryId registry)); cbn [negb]; [| discriminate].
  cbv zeta.
  match goal with |- context [if ?b then _ else _] => destruct b end; [discriminate |].
  destruct (Registry.devInspectTransactionBlock registry) as [| | first];
    cbn [Verification.exists_ Verification.method]; try discriminate.
  - auto.
  - intros H. split; [reflexivity |]. split; [| reflexivity].
    right. exists first. split; [reflexivity |]. intros ->. discriminate H.
Qed.

Lemma an_unreadable_registry_never_denies_a_treasure_witness :
  let registry :=
    Registry.mk "0xregistry" (Registry.Content (Registry.ArrayOf []))
                (Registry.ReturnValues (Number 0)) in
  truthy (Registry.treasureRegistryId registry) = true
  /\ (Registry.devInspectTransactionBlock registry = Registry.NoReturnValues
      \/ exists first,
          Registry.devInspectTransactionBlock registry = Registry.ReturnValues first
          /\ first <> Number 1)
  /\ Verification.method (verifyTreasureInRegistry registry "VN_RARE_777") = "view_function".
Proof.
  exact (an_unreadable_registry_never_denies_a_treasure
           (Registry.mk "0xregistry" (Registry.Content (Registry.ArrayOf []))
                        (Registry.ReturnValues (Number 0)))
           "VN_RARE_777" eq_refl).
Defined.

(** X18.  [GET /verify/:treasureId] tells what a valid claim of that
    treasure meets.  If [canHunt] is set, the first variant answers neither
    "not found" nor "already discovered", nor does the second answer
    "already discovered".  If the chain knows the treasure and [canHunt] is
    not set, the first variant answers "not found", or "already discovered"
    with the [discoveredBy] and [discoveredAt] of the verification.  If
    [discovered] is set, the second variant answers "already discovered" with
    these two and writes nothing. *)
Theorem verify_agrees_with_the_claim_handlers :
  forall registry treasureId st data env req,
    verify (Returns registry) treasureId st = Verified data ->
    Request.treasureId req = treasureId ->
    validationResult req = true ->
    (Verify.canHunt data = true ->
     fst (discover_v1 env req st) <> TreasureNotFound
     /\ (forall discoveredBy discoveredAt,
            fst (discover_v1 env req st) <> AlreadyDiscovered discoveredBy discoveredAt)
     /\ (forall discoveredBy discoveredAt,
            fst (discover_v2 env req st) <> AlreadyDiscovered discoveredBy discoveredAt))
    /\ (Verify.blockchain_exists data = true ->
        Verify.canHunt data = false ->
        fst (discover_v1 env req st) = TreasureNotFound
        \/ exists discoveredAt,
            Verify.discoveredAt data = Some discoveredAt
            /\ fst (discover_v1 env req st)
               = AlreadyDiscovered (Verify.discoveredBy data) discoveredAt)
    /\ (Verify.discovered data = true ->
        exists discoveredAt,
          Verify.discoveredAt data = Some discoveredAt
          /\ discover_v2 env req st
             = (AlreadyDiscovered (Verify.discoveredBy data) discoveredAt, st)).
Proof.
  intros registry treasureId st data env req Hverify <- Hvalid.
  unfold verify in Hverify. cbv zeta in Hverify. injection Hverify as <-.
  cbn [Verify.canHunt Verify.blockchain_exists Verify.discovered Verify.discoveredAt
       Verify.discoveredBy].
  unfold is_some.
  assert (Hv1 : forall r, checks_v1 req st = inl r -> discover_v1 env req st = (r, st)).
  { intros r Hr. unfold discover_v1. rewrite Hr. reflexivity. }
  assert (Hv2 : forall r, checks_v2 req st = inl r -> discover_v2 env req st = (r, st)).
  { intros r Hr. unfold discover_v2. rewrite Hr. reflexivity. }
  destruct (Treasure_findOne_active st (Request.treasureId req)) as [treasure |] eqn:Hactive;
    destruct (TreasureDiscovery_findOne st (Request.treasureId req)) as [discovery |]
      eqn:Hdiscovery;
    cbn [is_null negb andb option_map null_or].
  - (* active and discovered *)
    assert (H1 : checks_v1 req st
                 = inl (AlreadyDiscovered (TreasureDiscovery.userId discovery)
                                          (TreasureDiscovery.discoveredAt discovery))).
    { unfold checks_v1. rewrite Hvalid, Hactive, Hdiscovery. reflexivity. }
    assert (H2 : checks_v2 req st
                 = inl (AlreadyDiscovered (TreasureDiscovery.userId discovery)
                                          (TreasureDiscovery.discoveredAt discovery))).
    { unfold checks_v2. rewrite Hvalid, Hdiscovery. reflexivity. }
    rewrite (Hv1 _ H1), (Hv2 _ H2). cbn [fst].
    split; [rewrite andb_false_r; discriminate |].
    split; [intros _ _; right; eauto | intros _; eauto].
  - (* active and not discovered *)
    rewrite andb_true_r. split; [| split; [intros ->; discriminate | discriminate]].
    intros _.
    assert (Hr1 : forall r, checks_v1 req st = inl r ->
                            r <> TreasureNotFound
                            /\ forall a b, r <> AlreadyDiscovered a b).
    { intros r. unfold checks_v1. rewrite Hvalid, Hactive, Hdiscovery. cbn [negb]. cbv zeta.
      destruct (gt _ (Num 100)); [intros H; injection H as <-; split; discriminate |].
      destruct (_ <? _)%N; [intros H; injection H as <-; split; discriminate |].
      destruct (User_findById st _);
        [discriminate | intros H; injection H as <-; split; discriminate]. }
    assert (Hr2 : forall r, checks_v2 req st = inl r -> forall a b, r <> AlreadyDiscovered a b).
    { intros r. unfold checks_v2. rewrite Hvalid, Hdiscovery. cbn [negb]. cbv zeta.
      destruct (gt _ (Num 100)); [intros H; injection H as <-; discriminate |].
      destruct (HunterProfile_findOne st _); [| intros H; injection H as <-; discriminate].
      destruct (_ <? _)%N; [intros H; injection H as <-; discriminate |].
      destruct (User_findById st _);
        [discriminate | intros H; injection H as <-; discriminate]. }
    assert (Hc1 : forall c' dr (s : Store),
               fst (commit_v1 env req c' dr s) <> TreasureNotFound
               /\ forall a b, fst (commit_v1 env req c' dr s) <> AlreadyDiscovered a b).
    { intros c' dr s. unfold commit_v1. cbv zeta.
      assert (Hcatch : forall e, catch_v1 e <> TreasureNotFound
                                 /\ forall a b, catch_v1 e <> AlreadyDiscovered a b).
      { intros e. unfold catch_v1.
        repeat match goal with |- context [if ?b then _ else _] => destruct b end;
          split; discriminate. }
      match goal with
      | |- context [TreasureDiscovery_save ?d ?l] => destruct (TreasureDiscovery_save d l)
      end; [apply Hcatch |].
      destruct (Checked.hunterProfile c'); [split; discriminate | apply Hcatch]. }
    assert (Hc2 : forall c' dr (s : Store) a b,
               fst (commit_v2 env req c' dr s) <> AlreadyDiscovered a b).
    { intros c' dr s a b. unfold commit_v2. cbv zeta.
      match goal with
      | |- context [TreasureDiscovery_save ?d ?l] => destruct (TreasureDiscovery_save d l)
      end; [discriminate |].
      destruct (Checked.hunterProfile c'); discriminate. }
    assert (Hchain : forall user r a b,
               callChain_v2 env user = inl r -> r <> AlreadyDiscovered a b).
    { intros user r a b. unfold callChain_v2.
      destruct (has_credentials user); [| discriminate].
      destruct (SuiService_discoverTreasure (chain env)); [discriminate |].
      repeat match goal with |- context [if ?b then _ else _] => destruct b end;
        try discriminate; intros H; injection H as <-; discriminate. }
    split; [| split].
    + unfold discover_v1. destruct (checks_v1 req st) as [r | c] eqn:Hc.
      * exact (proj1 (Hr1 r eq_refl)).
      * apply Hc1.
    + intros a b. unfold discover_v1. destruct (checks_v1 req st) as [r | c] eqn:Hc.
      * exact (proj2 (Hr1 r eq_refl) a b).
      * apply Hc1.
    + intros a b. unfold discover_v2. destruct (checks_v2 req st) as [r | c] eqn:Hc.
      * exact (Hr2 r eq_refl a b).
      * destruct (callChain_v2 env (Checked.user c)) as [r | dr] eqn:Hcall.
        -- exact (Hchain _ _ a b Hcall).
        -- apply Hc2.
  - (* not active, discovered *)
    assert (H1 : checks_v1 req st = inl TreasureNotFound).
    { unfold checks_v1. rewrite Hvalid, Hactive. reflexivity. }
    assert (H2 : checks_v2 req st
                 = inl (AlreadyDiscovered (TreasureDiscovery.userId discovery)
                                          (TreasureDiscovery.discoveredAt discovery))).
    { unfold checks_v2. rewrite Hvalid, Hdiscovery. reflexivity. }
    rewrite (Hv1 _ H1), (Hv2 _ H2). cbn [fst].
    split; [discriminate |]. split; [intros _ _; left; reflexivity | intros _; eauto].
  - (* not active, not discovered *)
    assert (H1 : checks_v1 req st = inl TreasureNotFound).
    { unfold checks_v1. rewrite Hvalid, Hactive. reflexivity. }
    rewrite (Hv1 _ H1). cbn [fst].
    split; [discriminate |]. split; [intros _ _; left; reflexivity | discriminate].
Qed.

Lemma verify_agrees_with_the_claim_handlers_witness :
  exists data discoveredAt,
    verify (Returns (Registry.mk "" Registry.NoContent Registry.ViewThrows))
           "hanoi_dong_xuan_001" World.lane = Verified data
    /\ Verify.discovered data = true
    /\ Verify.discoveredAt data = Some discoveredAt
    /\ discover_v2 (World.env World.timeout) (World.claim_dong_xuan "alice") World.lane
       = (AlreadyDiscovered (Verify.discoveredBy data) discoveredAt, World.lane).
Proof.
  assert (Hvalid : validationResult (World.claim_dong_xuan "alice") = true).
  { apply (validationResult_true _ 21.0380%R 105.8500%R); try reflexivity; lra. }
  destruct (proj2 (proj2 (verify_agrees_with_the_claim_handlers
                            (Registry.mk "" Registry.NoContent Registry.ViewThrows)
                            "hanoi_dong_xuan_001" World.lane _
                            (World.env World.timeout) (World.claim_dong_xuan "alice")
                            eq_refl eq_refl Hvalid)) eq_refl)
    as (discoveredAt & Hat & Hrun).
  eexists. exists discoveredAt. split; [reflexivity |]. split; [reflexivity |].
  split; [exact Hat | exact Hrun].
Defined.

(** ** The location verifier of the service *)

(** X19.  [SuiService.verifyLocation], with its default tolerance, accepts
    a position only if the guard of the routes ([distance > 100]) lets it
    through, and the two agree whenever the distance is a number; where the
    distance is not a number [verifyLocation] refuses and the guard of the
    routes lets the claim through. *)
Theorem verifyLocation_refuses_what_the_route_guard_lets_through :
  forall userLat userLng treasureLat treasureLng,
    let distance := calculateDistance userLat userLng treasureLat treasureLng in
    (verifyLocation userLat userLng treasureLat treasureLng None = true ->
     gt distance (Num 100) = false)
    /\ (forall d, distance = Num d ->
                  verifyLocation userLat userLng treasureLat treasureLng None
                  = negb (gt distance (Num 100)))
    /\ (distance = NaN ->
        verifyLocation userLat userLng treasureLat treasureLng None = false
        /\ gt distance (Num 100) = false).
Proof.
  intros userLat userLng treasureLat treasureLng. cbv zeta. unfold verifyLocation. cbv zeta.
  destruct (calculateDistance userLat userLng treasureLat treasureLng) as [| d]; cbn.
  - split; [discriminate |]. split; [discriminate | auto].
  - destruct (Rle_dec d 100), (Rlt_dec 100 d); try lra;
      (split; [auto; discriminate |]); (split; [auto | discriminate]).
Qed.

Lemma verifyLocation_refuses_what_the_route_guard_lets_through_witness :
  verifyLocation (Num 21.0331) (Num 105.8520) NaN NaN None = false
  /\ gt (calculateDistance (Num 21.0331) (Num 105.8520) NaN NaN) (Num 100) = false.
Proof.
  apply (proj2 (proj2 (verifyLocation_refuses_what_the_route_guard_lets_through
                         (Num 21.0331) (Num 105.8520) NaN NaN))).
  reflexivity.
Defined.

(** ** The standing of a hunter *)

(** X20.  [calculateStreakInfo] reports 'Active today' during the 24 hours
    that follow the last hunt, 'Active (yesterday)' during the next 24 hours
    (and when the last hunt lies in the future), 'Streak broken' from 48
    hours on; the streak is active for 48 hours, and the days since the last
    hunt are the whole days elapsed. *)
Theorem the_streak_is_reported_active_for_two_days :
  forall now hunterProfile lastHunt,
    HunterProfile.lastHuntTimestamp hunterProfile = Some lastHunt ->
    let info := calculateStreakInfo now hunterProfile in
    (StreakInfo.streakStatus info = "Active today" <-> 0 <= now - lastHunt < 86400000)
    /\ (StreakInfo.streakStatus info = "Active (yesterday)"
        <-> now - lastHunt < 0 \/ 86400000 <= now - lastHunt < 172800000)
    /\ (StreakInfo.streakStatus info = "Streak broken" <-> 172800000 <= now - lastHunt)
    /\ (StreakInfo.isActive info = true <-> now - lastHunt < 172800000)
    /\ StreakInfo.daysSinceLastHunt info = Some ((now - lastHunt) / 86400000).
Proof.
  intros now hunterProfile lastHunt Hlast. cbv zeta. unfold calculateStreakInfo.
  rewrite Hlast. cbv zeta. change (24 * 60 * 60 * 1000) with 86400000.
  pose proof (Z.div_mod (now - lastHunt) 86400000 ltac:(discriminate)) as Hdiv.
  pose proof (Z.mod_pos_bound (now - lastHunt) 86400000 ltac:(reflexivity)) as Hmod.
  set (daysDiff := (now - lastHunt) / 86400000) in *.
  cbn [StreakInfo.streakStatus StreakInfo.isActive StreakInfo.daysSinceLastHunt].
  destruct (Z.leb_spec daysDiff 1) as [Hle | Hgt].
  - destruct (Z.eqb_spec daysDiff 0) as [Hzero | Hnonzero].
    + repeat split; intros; try discriminate; try lia.
    + repeat split; intros; try discriminate; try lia.
  - repeat split; intros; try discriminate; try lia.
Qed.

Lemma the_streak_is_reported_active_for_two_days_witness :
  StreakInfo.streakStatus (calculateStreakInfo 1700172700000 World.alice_profile)
  = "Active (yesterday)"
  <-> 1700172700000 - 1700000000000 < 0
      \/ 86400000 <= 1700172700000 - 1700000000000 < 172800000.
Proof.
  exact (proj1 (proj2 (the_streak_is_reported_active_for_two_days
                         1700172700000 World.alice_profile 1700000000000 eq_refl))).
Defined.

(** X21.  The table of [getRankInfo] agrees with the thresholds of
    [updateHunterRank].  For a profile whose rank is the rank of its count,
    the next rank is missing exactly for a master; otherwise
    [treasuresUntilNext] is positive, adds to the count to give
    [nextRequirement], and the rank rises after that many further
    discoveries and after no fewer. *)
Theorem treasuresUntilNext_is_the_way_to_the_next_rank :
  forall p,
    HunterProfile.rank p = HunterProfile.rank (updateHunterRank p) ->
    let info := getRankInfo (HunterProfile.rank p) (HunterProfile.totalTreasuresFound p) in
    (RankInfo.next info = "" <-> HunterProfile.rank p = "master")
    /\ (HunterProfile.rank p <> "master" ->
        (0 < RankInfo.treasuresUntilNext info)%N
        /\ (HunterProfile.totalTreasuresFound p + RankInfo.treasuresUntilNext info
            = RankInfo.nextRequirement info)%N
        /\ forall k : N,
            let p' :=
              updateHunterRank
                (HunterProfile.set_totalTreasuresFound
                   (HunterProfile.totalTreasuresFound p + k)%N p) in
            (getRankNumber (HunterProfile.rank p) < getRankNumber (HunterProfile.rank p'))%N
            <-> (RankInfo.treasuresUntilNext info <= k)%N).
Proof.
  intros p Hrank. cbv zeta.
  assert (Hcases :
            let n := HunterProfile.totalTreasuresFound p in
            ((50 <= n)%N /\ HunterProfile.rank p = "master")
            \/ ((20 <= n < 50)%N /\ HunterProfile.rank p = "hunter")
            \/ ((5 <= n < 20)%N /\ HunterProfile.rank p = "explorer")
            \/ ((n < 5)%N /\ HunterProfile.rank p = "beginner")).
  { rewrite Hrank. exact (updateHunterRank_cases p). }
  cbv zeta in Hcases.
  destruct Hcases as [[Hn Hr] | [[Hn Hr] | [[Hn Hr] | [Hn Hr]]]]; rewrite Hr;
    (split; [split; [discriminate + reflexivity | discriminate + reflexivity] |]);
    intros Hmaster; try (exfalso; apply Hmaster; reflexivity);
    unfold getRankInfo;
    cbn [String.eqb Ascii.eqb Bool.eqb RankInfo.treasuresUntilNext RankInfo.nextRequirement
         N.eqb Pos.eqb];
    (split; [lia |]); (split; [lia |]);
    intros k; cbv zeta; rewrite getRankNumber_updateHunterRank; cbv zeta;
    cbn [HunterProfile.set_totalTreasuresFound HunterProfile.totalTreasuresFound];
    change (getRankNumber "hunter") with 3%N;
    change (getRankNumber "explorer") with 2%N;
    change (getRankNumber "beginner") with 1%N;
    repeat match goal with
           | |- context [(?a <=? ?b)%N] => destruct (N.leb_spec a b)
           end; lia.
Qed.

Lemma treasuresUntilNext_is_the_way_to_the_next_rank_witness :
  let info := getRankInfo "beginner" 4 in
  (RankInfo.next info = "" <-> "beginner" = "master")
  /\ ("beginner" <> "master" ->
      (0 < RankInfo.treasuresUntilNext info)%N
      /\ (4 + RankInfo.treasuresUntilNext info = RankInfo.nextRequirement info)%N
      /\ forall k : N,
          let p' :=
            updateHunterRank
              (HunterProfile.set_totalTreasuresFound (4 + k)%N World.carol_profile) in
          (getRankNumber "beginner" < getRankNumber (HunterProfile.rank p'))%N
          <-> (RankInfo.treasuresUntilNext info <= k)%N).
Proof.
  exact (treasuresUntilNext_is_the_way_to_the_next_rank World.carol_profile eq_refl).
Defined.

Section Leaderboard.

Lemma countDocuments_ahead_after_save p p' coll :
  (HunterProfile.totalScore p <= HunterProfile.totalScore p')%N ->
  (HunterProfile.totalTreasuresFound p <= HunterProfile.totalTreasuresFound p')%N ->
  (countDocuments_ahead p' (HunterProfile_save p' coll) <= countDocuments_ahead p coll)%N.
Proof.
  intros Hscore Htreasures. unfold countDocuments_ahead, HunterProfile_save.
  match goal with
  | |- (N.of_nat ?a <= N.of_nat ?b)%N => enough (a <= b)%nat by lia
  end.
  induction coll as [| q coll IH]; cbn [map filter List.length]; [lia |].
  destruct (String.eqb (HunterProfile.userId q) (HunterProfile.userId p')).
  - rewrite N.ltb_irrefl, N.ltb_irrefl, andb_false_r. cbn [orb].
    match goal with |- context [if ?b then _ else _] => destruct b end; cbn [List.length]; lia.
  - match goal with
    | |- context [if ?b then _ :: _ else _] => destruct b eqn:E'
    end.
    + assert (E : ((HunterProfile.totalScore p <? HunterProfile.totalScore q)%N
                   || ((HunterProfile.totalScore q =? HunterProfile.totalScore p)%N
                       && (HunterProfile.totalTreasuresFound p
                           <? HunterProfile.totalTreasuresFound q)%N)) = true).
      { apply orb_true_iff in E' as [E' | E'].
        - apply N.ltb_lt in E'. apply orb_true_iff. left. apply N.ltb_lt. lia.
        - apply andb_true_iff in E' as [E1 E2].
          apply N.eqb_eq in E1. apply N.ltb_lt in E2.
          destruct (N.ltb_spec (HunterProfile.totalScore p) (HunterProfile.totalScore q));
            [reflexivity |].
          cbn [orb]. apply andb_true_iff. split; [apply N.eqb_eq | apply N.ltb_lt]; lia. }
      rewrite E. cbn [List.length]. lia.
    + match goal with |- context [if ?b then _ else _] => destruct b end;
        cbn [List.length]; lia.
Qed.

End Leaderboard.

(** X22.  A claim that is answered 200 never costs the claimant a place:
    the position [getLeaderboardPosition] gives after the claim is at least
    1 and at most the position before it. *)
Theorem a_discovery_never_costs_a_leaderboard_position :
  forall env req st report st',
    discover_v1 env req st = (Discovered report, st')
    \/ discover_v2 env req st = (Discovered report, st') ->
    exists before after,
      getLeaderboardPosition st (Request.userId req) = Some before
      /\ getLeaderboardPosition st' (Request.userId req) = Some after
      /\ (1 <= after <= before)%N.
Proof.
  intros env req st report st' Hrun.
  assert (H : exists c hunterProfile,
             HunterProfile_findOne st (Request.userId req) = Some hunterProfile
             /\ HunterProfile_findOne st' (Request.userId req)
                = Some (updateHunterProfile env (Treasure.rewardPoints (Checked.treasure c))
                                            hunterProfile)
             /\ hunterProfiles st' =
                HunterProfile_save
                  (updateHunterProfile env (Treasure.rewardPoints (Checked.treasure c))
                                       hunterProfile)
                  (hunterProfiles st)).
  { destruct Hrun as [Hrun | Hrun].
    - destruct (discover_v1_Discovered _ _ _ _ _ Hrun) as (c & p & Hc & Hp & Hp' & _).
      apply discover_v1_commit in Hrun as (c' & Hc' & Hcommit).
      rewrite Hc in Hc'. injection Hc' as <-.
      apply commit_v1_Discovered in Hcommit as (q & _ & Hq & _ & _ & _ & Hsaved & _).
      apply checks_v1_inr in Hc as (_ & _ & _ & _ & _ & Hfind & _).
      rewrite Hfind, Hp in Hq. injection Hq as <-. eauto.
    - destruct (discover_v2_Discovered _ _ _ _ _ Hrun) as (c & p & Hc & Hp & Hp' & _).
      apply discover_v2_commit in Hrun as (c' & discoveryResult & Hc' & _ & Hcommit).
      rewrite Hc in Hc'. injection Hc' as <-.
      apply commit_v2_Discovered in Hcommit as (q & _ & Hq & _ & _ & _ & Hsaved & _).
      apply checks_v2_inr in Hc as (_ & _ & _ & _ & _ & (q' & Hq' & Hfind) & _).
      rewrite Hq' in Hq. injection Hq as <-. rewrite Hfind in Hp. injection Hp as <-. eauto. }
  destruct H as (c & p & Hp & Hp' & Hsaved).
  unfold getLeaderboardPosition. rewrite Hp, Hp', Hsaved.
  eexists. eexists. split; [reflexivity |]. split; [reflexivity |].
  destruct (updateHunterProfile_fields env (Treasure.rewardPoints (Checked.treasure c)) p)
    as (Htotal & Hscore & _).
  pose proof (countDocuments_ahead_after_save
                p (updateHunterProfile env (Treasure.rewardPoints (Checked.treasure c)) p)
                (hunterProfiles st)) as Hle.
  lia.
Qed.

Lemma a_discovery_never_costs_a_leaderboard_position_witness :
  exists report st' before after,
    discover_v1 (World.env World.timeout) (World.claim "alice") World.store
    = (Discovered report, st')
    /\ getLeaderboardPosition World.store "alice" = Some before
    /\ getLeaderboardPosition st' "alice" = Some after
    /\ (1 <= after <= before)%N.
Proof.
  destruct alice_discovers_v1 as (report & d & Hrun & _).
  destruct (a_discovery_never_costs_a_leaderboard_position _ _ _ _ _ (or_introl Hrun))
    as (before & after & H).
  exists report. eexists. exists before, after. split; [exact Hrun | exact H].
Defined.

(** X23.  Treasure ids stay unique: [save] keeps them so, and so does a
    claim through either variant, the treasure the second variant
    synthesizes and stores included. *)
Theorem treasure_ids_stay_unique :
  (forall t coll coll',
      NoDup (map Treasure.treasureId coll) ->
      Treasure_save t coll = inr coll' ->
      NoDup (map Treasure.treasureId coll'))
  /\ (forall env req st,
         NoDup (map Treasure.treasureId (treasures st)) ->
         NoDup (map Treasure.treasureId (treasures (snd (discover_v1 env req st))))
         /\ NoDup (map Treasure.treasureId (treasures (snd (discover_v2 env req st))))).
Proof.
  assert (Hsave : forall t coll coll',
             NoDup (map Treasure.treasureId coll) ->
             Treasure_save t coll = inr coll' ->
             NoDup (map Treasure.treasureId coll')).
  { intros t coll coll' Hcoll Hsave.
    apply Treasure_save_inr in Hsave as (x & -> & _ & _ & _ & Hnew).
    rewrite map_app. cbn [map].
    apply (Permutation_NoDup (Permutation_cons_append _ _)).
    constructor; [| exact Hcoll].
    intros Hin. apply in_map_iff in Hin as (y & Hy & Hin).
    assert (Htrue : existsb (fun y => String.eqb (Treasure.treasureId y) (Treasure.treasureId x))
                            coll = true).
    { apply existsb_exists. exists y. split; [exact Hin |]. apply String.eqb_eq. exact Hy. }
    congruence. }
  split; [exact Hsave |].
  intros env req st Hst. split.
  - unfold discover_v1. destruct (checks_v1 req st) as [r | c]; [exact Hst |].
    destruct (commit_v1_writes env req c (callChain_v1 env (Checked.user c)) st)
      as (_ & -> & _). exact Hst.
  - unfold discover_v2. destruct (checks_v2 req st) as [r | c]; [exact Hst |].
    destruct (callChain_v2 env (Checked.user c)) as [r | discoveryResult]; [exact Hst |].
    destruct (commit_v2_writes env req c discoveryResult st)
      as (_ & [-> | (t & Ht)] & _); [exact Hst | exact (Hsave _ _ _ Hst Ht)].
Qed.

Lemma treasure_ids_stay_unique_witness :
  NoDup (map Treasure.treasureId
             (treasures (snd (discover_v2 (World.env World.timeout)
                                          (World.claim_unknown "alice") World.store)))).
Proof.
  apply (proj2 treasure_ids_stay_unique
           (World.env World.timeout) (World.claim_unknown "alice") World.store).
  cbn. repeat constructor; cbn; intuition discriminate.
Defined.

(** ** The rank gate in the nearby list *)

Section RankGate.

Lemma nearby_entry geoNear q st l :
  nearby geoNear q st = NearbyFound l ->
  forall e,
    In e l <->
    exists t,
      In t (firstn 20 (Treasure_find_near geoNear st))
      /\ ~ In (Treasure.treasureId t) (map TreasureDiscovery.treasureId (discoveries st))
      /\ e = Nearby.mk (Treasure.treasureId t) (Treasure.name t)
                       (Treasure.latitude t) (Treasure.longitude t)
                       (Treasure.rarity t) (getRarityName (Treasure.rarity t))
                       (Treasure.rewardPoints t)
                       (Treasure.requiredRank t)
                       (getRankName (Treasure.requiredRank t))
                       (Math_round
                          (calculateDistance (NearbyQuery.lat q) (NearbyQuery.lng q)
                                             (Treasure.latitude t) (Treasure.longitude t)))
                       (Treasure.requiredRank t
                        <=? getRankNumber
                              (rank_or_beginner
                                 (HunterProfile_findOne st (NearbyQuery.userId q))))%N.
Proof.
  unfold nearby.
  destruct (nearby_validationResult q); [| discriminate]. cbn [negb]. cbv zeta.
  intros H. injection H as <-. intros e.
  match goal with
  | |- In e (sort by_distance ?m) <-> _ =>
      assert (Hperm : In e (sort by_distance m) <-> In e m)
        by (split; apply Permutation_in;
            [| symmetry]; apply sort_Permutation);
      rewrite Hperm; clear Hperm
  end.
  rewrite in_map_iff. split.
  - intros (t & <- & Ht). apply filter_In in Ht as [Hfirst Hnew].
    exists t. split; [exact Hfirst |]. split; [| reflexivity].
    apply negb_true_iff in Hnew. rewrite <- discovered_includes. congruence.
  - intros (t & Hfirst & Hnew & ->). exists t. split; [reflexivity |].
    apply filter_In. split; [exact Hfirst |].
    apply negb_true_iff, not_true_iff_false. rewrite discovered_includes. exact Hnew.
Qed.

Lemma findOne_active_unique st t :
  NoDup (map Treasure.treasureId (treasures st)) ->
  In t (treasures st) ->
  Treasure.isActive t = true ->
  Treasure_findOne_active st (Treasure.treasureId t) = Some t.
Proof.
  unfold Treasure_findOne_active.
  induction (treasures st) as [| x l IH]; cbn [map find In]; [tauto |].
  intros Hnodup Hin Hactive. inversion Hnodup as [| ? ? Hx Hl]; subst.
  destruct Hin as [-> | Hin].
  - rewrite String.eqb_refl, Hactive. reflexivity.
  - destruct (String.eqb (Treasure.treasureId x) (Treasure.treasureId t)) eqn:E.
    + apply String.eqb_eq in E. exfalso. apply Hx. rewrite E. apply in_map. exact Hin.
    + cbn [andb]. apply IH; assumption.
Qed.

Lemma findOne_discovery_None st treasureId :
  ~ In treasureId (map TreasureDiscovery.treasureId (discoveries st)) ->
  TreasureDiscovery_findOne st treasureId = None.
Proof.
  intros Hnew. unfold TreasureDiscovery_findOne.
  destruct (find _ (discoveries st)) as [d |] eqn:E; [| reflexivity].
  apply find_some in E as [Hin Hid]. apply String.eqb_eq in Hid.
  exfalso. apply Hnew. rewrite <- Hid. apply in_map. exact Hin.
Qed.

Lemma commit_v1_not_RankTooLow env req c discoveryResult st userRank a b :
  fst (commit_v1 env req c discoveryResult st) <> RankTooLow userRank a b.
Proof.
  assert (Hcatch : forall e, catch_v1 e <> RankTooLow userRank a b).
  { intros e. unfold catch_v1.
    repeat match goal with |- context [if ?x then _ else _] => destruct x end;
      discriminate. }
  unfold commit_v1. cbv zeta.
  match goal with
  | |- context [TreasureDiscovery_save ?d ?l] => destruct (TreasureDiscovery_save d l)
  end; [apply Hcatch |].
  destruct (Checked.hunterProfile c); [discriminate | apply Hcatch].
Qed.

Lemma lane_ids_unique : NoDup (map Treasure.treasureId (treasures World.lane)).
Proof. cbn. repeat constructor; cbn; intuition discriminate. Qed.

End RankGate.

(** X24.  The [canHunt] flag of an entry of [GET /nearby] is the rank gate
    of [POST /discover] (first variant), where treasure ids are unique: a
    valid claim of a listed treasure by the player who asked is never
    refused for its rank if [canHunt] is set, and if it is not set the claim
    is refused, as too far or for the rank, with the required rank of the
    entry, and writes nothing. *)
Theorem canHunt_is_the_rank_gate_of_the_claim :
  forall geoNear q st l e env req,
    NoDup (map Treasure.treasureId (treasures st)) ->
    nearby geoNear q st = NearbyFound l ->
    In e l ->
    Request.userId req = NearbyQuery.userId q ->
    Request.treasureId req = Nearby.treasureId e ->
    validationResult req = true ->
    (Nearby.canHunt e = true ->
     forall userRank userRankNumber requiredRankNumber,
       fst (discover_v1 env req st) <> RankTooLow userRank userRankNumber requiredRankNumber)
    /\ (Nearby.canHunt e = false ->
        (exists distance maxDistance,
            discover_v1 env req st = (TooFar distance maxDistance, st))
        \/ (exists userRank,
               discover_v1 env req st
               = (RankTooLow userRank (getRankNumber userRank) (Nearby.requiredRank e), st))).
Proof.
  intros geoNear q st l e env req Hnodup Hrun He Huser Hid Hvalid.
  apply (nearby_entry _ _ _ _ Hrun) in He as (t & Hfirst & Hnew & ->).
  apply In_firstn, find_near_In in Hfirst as (Hin & _ & Hactive).
  cbn [Nearby.treasureId] in Hid. cbn [Nearby.canHunt Nearby.requiredRank].
  pose proof (findOne_active_unique st t Hnodup Hin Hactive) as Hfind.
  pose proof (findOne_discovery_None st _ Hnew) as Hnone.
  rewrite <- Hid in Hfind, Hnone. rewrite <- Huser.
  unfold discover_v1, checks_v1. rewrite Hvalid, Hfind, Hnone. cbn [negb]. cbv zeta.
  destruct (gt _ (Num 100)).
  - split; [discriminate |]. intros _. left. eauto.
  - rewrite N.ltb_antisym.
    destruct (Treasure.requiredRank t
              <=? getRankNumber (rank_or_beginner (HunterProfile_findOne st (Request.userId req))))%N;
      cbn [negb].
    + split; [| discriminate]. intros _ userRank a b.
      destruct (User_findById st (Request.userId req)); [| discriminate].
      apply commit_v1_not_RankTooLow.
    + split; [discriminate |]. intros _. right. eauto.
Qed.

Lemma canHunt_is_the_rank_gate_of_the_claim_witness :
  exists l e,
    nearby World.lane_near Scenes.carol_here World.lane = NearbyFound l
    /\ In e l
    /\ Nearby.treasureId e = "hanoi_north_gate_001"
    /\ Nearby.canHunt e = false
    /\ ((exists distance maxDistance,
            discover_v1 (World.env World.timeout) (Scenes.claim_north_gate "carol") World.lane
            = (TooFar distance maxDistance, World.lane))
        \/ (exists userRank,
               discover_v1 (World.env World.timeout) (Scenes.claim_north_gate "carol")
                           World.lane
               = (RankTooLow userRank (getRankNumber userRank) (Nearby.requiredRank e),
                  World.lane))).
Proof.
  destruct (nearby World.lane_near Scenes.carol_here World.lane) as [| l] eqn:Hrun.
  { exfalso. revert Hrun. unfold nearby.
    replace (nearby_validationResult Scenes.carol_here) with true; [discriminate |].
    symmetry. unfold nearby_validationResult, Scenes.carol_here.
    cbn [NearbyQuery.lat NearbyQuery.lng NearbyQuery.radius].
    rewrite !in_range_true by lra. reflexivity. }
  assert (Hvalid : validationResult (Scenes.claim_north_gate "carol") = true).
  { apply (validationResult_true _ 21.0400%R 105.8520%R); try reflexivity; lra. }
  set (e := Nearby.mk "hanoi_north_gate_001" "North Gate Sentinel's Seal"
                      (Num 21.0400) (Num 105.8520) 2 "Rare" 300 2 "Explorer"
                      (Math_round (calculateDistance (Num 21.0351) (Num 105.8520)
                                                     (Num 21.0400) (Num 105.8520)))
                      false).
  exists l, e.
  assert (He : In e l).
  { apply (nearby_entry _ _ _ _ Hrun). exists World.north_gate.
    split; [right; right; left; reflexivity |].
    split; [| reflexivity].
    cbn. intros [H | []]. discriminate H. }
  split; [reflexivity |]. split; [exact He |]. split; [reflexivity |].
  split; [reflexivity |].
  exact (proj2 (canHunt_is_the_rank_gate_of_the_claim
                  World.lane_near Scenes.carol_here World.lane l e
                  (World.env World.timeout) (Scenes.claim_north_gate "carol")
                  lane_ids_unique Hrun He eq_refl eq_refl Hvalid) eq_refl).
Defined.

(** ** A mint the ledger refuses *)

(** X25.  In the second variant, when the chain mints and reports an
    object id that is neither a Sui object id nor an offline reference, the
    claim that passed every check is answered 500 and nothing is written:
    the discovery is refused by the validator of [nftObjectId]. *)
Theorem a_malformed_object_id_loses_the_claim :
  forall env req st c minted,
    checks_v2 req st = inr c ->
    has_credentials (Checked.user c) = true ->
    SuiService_discoverTreasure (chain env) = Returns minted ->
    nftObjectId_validator (Sui.nftObjectId minted) = false ->
    exists error, discover_v2 env req st = (ServerError error, st).
Proof.
  intros env req st c minted Hc Hcredentials Hchain Hbad.
  assert (Htruthy : truthy (Sui.nftObjectId minted) = true).
  { revert Hchain. unfold SuiService_discoverTreasure. cbv zeta.
    repeat match goal with |- context [if ?b then _ else _] => destruct b end;
      try discriminate.
    destruct (Sui.execution (chain env)) as [m | e | objectId digest checkpoint];
      try discriminate.
    destruct (truthy objectId) eqn:E; [| discriminate].
    intros H. injection H as <-. exact E. }
  unfold discover_v2. rewrite Hc. unfold callChain_v2. rewrite Hcredentials, Hchain.
  unfold commit_v2. cbv zeta. cbn [null_or].
  unfold TreasureDiscovery_save, TreasureDiscovery_validate.
  cbn [TreasureDiscovery.userId TreasureDiscovery.treasureId TreasureDiscovery.nftObjectId
       TreasureDiscovery.transactionDigest].
  assert (Hid : or_else (Sui.nftObjectId minted)
                        ("offline_" ++ Request.treasureId req ++ "_" ++ string_of_Z (t_nft env))
                = Sui.nftObjectId minted).
  { unfold or_else. unfold truthy in Htruthy. apply negb_true_iff in Htruthy.
    rewrite Htruthy. reflexivity. }
  rewrite Hid, Htruthy, Hbad.
  set (e1 := if truthy (Request.userId req) then [] else _).
  set (e2 := if truthy (Request.treasureId req) then [] else _).
  set (e4 := if truthy _ then _ else _).
  set (errors := (e1 ++ e2 ++ _ ++ e4)%list).
  assert (Herrors : exists x l, errors = x :: l).
  { unfold errors. destruct e1 as [| x1 l1]; [| cbn; eauto].
    destruct e2 as [| x2 l2]; cbn; eauto. }
  destruct Herrors as (x & l & Herrors).
  rewrite Herrors. eexists. reflexivity.
Qed.

Lemma a_malformed_object_id_loses_the_claim_witness :
  exists error,
    discover_v2 (World.env Scenes.short_id) (World.claim "carol") World.store
    = (ServerError error, World.store).
Proof.
  exact (a_malformed_object_id_loses_the_claim
           (World.env Scenes.short_id) (World.claim "carol") World.store _
           (Sui.mkMinted "4d31TeYDEzPbwGXKYejrs154daGkDo56jm1ACt2w7HRd" "0xabc" (Some 42))
           carol_checks_v2 eq_refl eq_refl eq_refl).
Defined.

(** ** A location proof that is no pair of coordinates *)

(** X26.  In the second variant, a claim of an id that has no active
    treasure whose [locationProof] holds no comma is checked against a
    synthesized treasure without longitude, and is never refused as too far,
    from wherever it is made. *)
Theorem a_proof_without_coordinates_passes_the_proximity_check :
  forall env req st distance maxDistance,
    Treasure_findOne_active st (Request.treasureId req) = None ->
    includes (Request.locationProof req) "," = false ->
    Treasure.longitude (resolveTreasure_v2 req st) = NaN
    /\ fst (discover_v2 env req st) <> TooFar distance maxDistance.
Proof.
  intros env req st distance maxDistance Hnone Hproof.
  assert (Hlng : Treasure.longitude (resolveTreasure_v2 req st) = NaN).
  { unfold resolveTreasure_v2. rewrite Hnone. unfold parseBlockchainTreasure. cbv zeta.
    rewrite (split_without_separator "," _ Hproof).
    repeat match goal with |- context [if ?b then _ else _] => destruct b end;
      reflexivity. }
  split; [exact Hlng |]. apply discover_v2_not_TooFar. right. exact Hlng.
Qed.

Lemma a_proof_without_coordinates_passes_the_proximity_check_witness :
  Treasure.longitude
    (resolveTreasure_v2 (World.claim_from_afar "alice") World.closed_store) = NaN
  /\ fst (discover_v2 (World.env World.timeout) (World.claim_from_afar "alice")
                      World.closed_store) <> TooFar (Num 222) 100.
Proof.
  exact (a_proof_without_coordinates_passes_the_proximity_check
           (World.env World.timeout) (World.claim_from_afar "alice") World.closed_store
           (Num 222) 100%N eq_refl eq_refl).
Defined.

(** ** The chain and the claim *)

Section ChainAndClaim.

Lemma duplicate_digest d coll :
  existsb (fun x => String.eqb (TreasureDiscovery.transactionDigest x)
                               (TreasureDiscovery.transactionDigest d)) coll = true ->
  TreasureDiscovery_duplicate d coll <> None.
Proof.
  intros H. unfold TreasureDiscovery_duplicate. cbv zeta. rewrite H.
  repeat match goal with |- context [if ?b then _ else _] => destruct b end;
    discriminate.
Qed.

End ChainAndClaim.

(** X27.  For a player who lacks the profile object id or the encrypted
    key, the outcome of a claim does not depend on the chain, in either
    variant, and a 200 answer reports a discovery that is not on chain. *)
Theorem a_player_without_a_wallet_never_reaches_the_chain :
  forall env chain' req st,
    (forall user, User_findById st (Request.userId req) = Some user ->
                  has_credentials user = false) ->
    let env' := mkEnv (t_nft env) (t_tx env) (t_proof env) (t_found env) (t_hunt env)
                      (t_diff env) (uuid env) chain' in
    discover_v1 env' req st = discover_v1 env req st
    /\ discover_v2 env' req st = discover_v2 env req st
    /\ (forall report st',
           discover_v1 env req st = (Discovered report, st')
           \/ discover_v2 env req st = (Discovered report, st') ->
           Report.onChain report = false).
Proof.
  intros env chain' req st Hwallet. cbv zeta.
  assert (H1 : forall e c, checks_v1 req st = inr c -> callChain_v1 e (Checked.user c) = None).
  { intros e c Hc. apply checks_v1_inr in Hc as (_ & _ & _ & _ & _ & _ & Huser).
    unfold callChain_v1. rewrite (Hwallet _ Huser). reflexivity. }
  assert (H2 : forall e c, checks_v2 req st = inr c ->
                           callChain_v2 e (Checked.user c) = inr None).
  { intros e c Hc. apply checks_v2_inr in Hc as (_ & _ & _ & _ & _ & _ & Huser).
    unfold callChain_v2. rewrite (Hwallet _ Huser). reflexivity. }
  split; [| split].
  - unfold discover_v1. destruct (checks_v1 req st) as [r | c] eqn:Hc; [reflexivity |].
    rewrite !(H1 _ c eq_refl). reflexivity.
  - unfold discover_v2. destruct (checks_v2 req st) as [r | c] eqn:Hc; [reflexivity |].
    rewrite !(H2 _ c eq_refl). reflexivity.
  - intros report st' [Hrun | Hrun].
    + apply discover_v1_commit in Hrun as (c & Hc & Hcommit).
      rewrite (H1 _ c Hc) in Hcommit. revert Hcommit. unfold commit_v1. cbv zeta.
      match goal with
      | |- context [TreasureDiscovery_save ?d ?l] => destruct (TreasureDiscovery_save d l)
      end.
      * intros H. injection H as H _. destruct (catch_v1_not_Discovered _ _ H).
      * destruct (Checked.hunterProfile c).
        -- intros H. injection H as <- _. reflexivity.
        -- intros H. injection H as H _. destruct (catch_v1_not_Discovered _ _ H).
    + apply discover_v2_commit in Hrun as (c & discoveryResult & Hc & Hchain & Hcommit).
      rewrite (H2 _ c Hc) in Hchain. injection Hchain as <-.
      revert Hcommit. unfold commit_v2. cbv zeta.
      match goal with
      | |- context [TreasureDiscovery_save ?d ?l] => destruct (TreasureDiscovery_save d l)
      end; [discriminate |].
      destruct (Checked.hunterProfile c); [| discriminate].
      intros H. injection H as <- _. reflexivity.
Qed.

Lemma a_player_without_a_wallet_never_reaches_the_chain_witness :
  discover_v1 (World.env World.already_found) (World.claim "alice") World.store
  = discover_v1 (World.env World.timeout) (World.claim "alice") World.store
  /\ discover_v2 (World.env World.already_found) (World.claim "alice") World.store
     = discover_v2 (World.env World.timeout) (World.claim "alice") World.store.
Proof.
  destruct (a_player_without_a_wallet_never_reaches_the_chain
              (World.env World.timeout) World.already_found (World.claim "alice") World.store)
    as (H1 & H2 & _).
  - intros user H. injection H as <-. reflexivity.
  - split; [exact H1 | exact H2].
Defined.

(** X28.  In the second variant an offline commit is refused, answered 500
    and writes nothing, when the ledger holds a discovery with the offline
    transaction digest of the same millisecond, whichever treasure it
    claims. *)
Theorem two_offline_claims_of_one_millisecond_cannot_both_be_stored :
  forall env req c st d,
    In d (discoveries st) ->
    TreasureDiscovery.transactionDigest d = ("offline_tx_" ++ string_of_Z (t_tx env))%string ->
    exists error, commit_v2 env req c None st = (ServerError error, st).
Proof.
  intros env req c st d Hin Hdigest. unfold commit_v2. cbv zeta.
  match goal with
  | |- context [TreasureDiscovery_save ?x ?l] =>
      destruct (TreasureDiscovery_save x l) as [e | saved] eqn:E
  end; [eexists; reflexivity |].
  exfalso. apply save_inr in E as (_ & _ & Hdup).
  revert Hdup. apply duplicate_digest.
  apply (existsb_In_true _ _ d Hin).
  cbn [TreasureDiscovery.transactionDigest null_or or_else String.eqb].
  rewrite Hdigest. apply String.eqb_refl.
Qed.

Lemma two_offline_claims_of_one_millisecond_cannot_both_be_stored_witness :
  exists error,
    commit_v2 (World.env World.timeout) (World.claim_dong_xuan "carol")
              (Checked.mk World.dong_xuan (Num 0) (Some World.carol_profile) World.carol)
              None Scenes.stamped
    = (ServerError error, Scenes.stamped).
Proof.
  apply (two_offline_claims_of_one_millisecond_cannot_both_be_stored
           (World.env World.timeout) (World.claim_dong_xuan "carol") _ Scenes.stamped
           (TreasureDiscovery.mk "d_old_quarter" "alice" "hanoi_old_quarter_001"
              "offline_hanoi_old_quarter_001_1700172800000" "offline_tx_1700172800000"
              (Num 21.0351) (Num 105.8520) "" "" 1700172800000 (Num 0)
              None (Some false) true (Some false) 1700172800000)).
  - left. reflexivity.
  - reflexivity.
Defined.

(** X29.  [SuiService.discoverTreasure] returns only if the key loaded,
    the wallet holds at least 0.05 SUI (50,000,000 MIST), the registry is
    configured and the transaction succeeded with a created NFT; what it
    returns is the object id, the digest and the checkpoint of that
    transaction. *)
Theorem a_mint_means_a_funded_wallet_and_a_registry :
  forall sui minted,
    SuiService_discoverTreasure sui = Returns minted ->
    Sui.keyError sui = ""
    /\ 50000000 <= Sui.totalBalance sui
    /\ truthy (Sui.treasureRegistryId sui) = true
    /\ truthy (Sui.nftObjectId minted) = true
    /\ Sui.execution sui
       = Sui.Mints (Sui.nftObjectId minted) (Sui.transactionDigest minted)
                   (Sui.blockHeight minted).
Proof.
  intros sui minted. unfold SuiService_discoverTreasure. cbv zeta.
  destruct (truthy (Sui.keyError sui)) eqn:Hkey; [discriminate |].
  destruct (Qle_bool _ _) eqn:Hbalance; cbn [negb]; [| discriminate].
  destruct (truthy (Sui.treasureRegistryId sui)) eqn:Hregistry; cbn [negb]; [| discriminate].
  destruct (Sui.execution sui) as [m | e | objectId digest checkpoint]; try discriminate.
  destruct (truthy objectId) eqn:Hid; [| discriminate].
  intros H. injection H as <-. cbn [Sui.nftObjectId Sui.transactionDigest Sui.blockHeight].
  split.
  { unfold truthy in Hkey. apply negb_false_iff, String.eqb_eq in Hkey. exact Hkey. }
  split; [| auto].
  apply Qle_bool_iff in Hbalance. unfold Qle in Hbalance. cbn in Hbalance. lia.
Qed.

Lemma a_mint_means_a_funded_wallet_and_a_registry_witness :
  let sui := Sui.mk "" 50000000 "0xregistry" (Sui.Mints "0xabc" "digest" None) in
  Sui.keyError sui = ""
  /\ 50000000 <= Sui.totalBalance sui
  /\ truthy (Sui.treasureRegistryId sui) = true
  /\ truthy "0xabc" = true
  /\ Sui.execution sui = Sui.Mints "0xabc" "digest" None.
Proof.
  exact (a_mint_means_a_funded_wallet_and_a_registry
           (Sui.mk "" 50000000 "0xregistry" (Sui.Mints "0xabc" "digest" None))
           (Sui.mkMinted "digest" "0xabc" None) eq_refl).
Defined.
